(** * Authentication backend: a shallow embedding of the credential and
      token lifecycle, and the properties of its specification.

    The embedding follows the JavaScript sources:
    - [user.models.js]      : the user schema, its pre-save hook and methods;
    - [auth.controllers.js] : the authentication flows;
    - [auth.middleware.js]  : [verifyJWT] and [validateProjectPermission];
    - [async-handler.js], [api-error.js], [api-response.js], [mail.js].

    The libraries the sources call (crypto, bcrypt, jsonwebtoken, the
    ObjectId cast of the database driver, the string methods of the
    engine behind the schema's setters) are the operations of the class
    [Platform]; the database is an explicit store threaded through a small
    state-and-exception monad, so that writes made before an exception is
    thrown are kept, as they are in the program. *)

From Stdlib Require Import String Ascii List ZArith Bool Lia.
From Stdlib Require Import DecimalString.
Import ListNotations.

Local Open Scope string_scope.
Local Open Scope Z_scope.

(* ------------------------------------------------------------------ *)
(** ** JavaScript values and string operations *)
(* ------------------------------------------------------------------ *)

Module Js.

(** The values the flows put in object literals. *)
Inductive Val : Type :=
| Str (s : string)
| Num (z : Z).

(** A JavaScript object: keys in insertion order.  A key that is absent
    reads as [undefined], which is [None]. *)
Definition Obj (V : Type) : Type := list (string * V).

Fixpoint get {V : Type} (k : string) (o : Obj V) : option V :=
  match o with
  | [] => None
  | (k', v) :: o' => if String.eqb k k' then Some v else get k o'
  end.

(** Truthiness of a value that is a string or [undefined]. *)
Definition truthy (v : option string) : bool :=
  match v with
  | Some s => negb (String.eqb s "")
  | None => false
  end.

(** [a || b]. *)
Definition or (a b : option string) : option string :=
  if truthy a then a else b.

Fixpoint drop (n : nat) (s : string) : string :=
  match n, s with
  | O, _ => s
  | S _, EmptyString => EmptyString
  | S n', String _ s' => drop n' s'
  end.

(** [s.includes(pat)]. *)
Fixpoint includes (pat s : string) : bool :=
  if String.prefix pat s then true
  else match s with
       | EmptyString => false
       | String _ s' => includes pat s'
       end.

(** [s.replace(pat, rep)] for a string pattern: the first occurrence
    only, wherever it is. *)
Fixpoint replace (pat rep s : string) : string :=
  if String.prefix pat s then rep ++ drop (String.length pat) s
  else match s with
       | EmptyString => EmptyString
       | String c s' => String c (replace pat rep s')
       end.

Definition decimal (z : Z) : string := NilZero.string_of_int (Z.to_int z).

(** A value interpolated in a template literal. *)
Definition interpolate (v : option Val) : string :=
  match v with
  | None => "undefined"
  | Some (Str s) => s
  | Some (Num z) => decimal z
  end.

Definition is_space (c : ascii) : bool :=
  let n := nat_of_ascii c in
  (Nat.eqb n 32 || (Nat.leb 9 n && Nat.leb n 13))%bool.

(** Split on white space, dropping empty pieces ([s.split(/\s+/)] on a
    trimmed string). *)
Fixpoint words_aux (acc : string) (s : string) : list string :=
  let flush := match acc with EmptyString => [] | _ => [acc] end in
  match s with
  | EmptyString => flush
  | String c s' =>
      if is_space c then (flush ++ words_aux EmptyString s')%list
      else words_aux (acc ++ String c EmptyString) s'
  end.

Definition words (s : string) : list string := words_aux EmptyString s.

End Js.

Definition option_eqb {A : Type} (eqb : A -> A -> bool) (a b : option A) : bool :=
  match a, b with
  | Some x, Some y => eqb x y
  | None, None => true
  | _, _ => false
  end.

(* ------------------------------------------------------------------ *)
(** ** api-error.js, api-response.js *)
(* ------------------------------------------------------------------ *)

(** What a flow can throw: an [ApiError] (statusCode, message, errors; its
    [data] is always null and its [success] always false), or another
    JavaScript exception, kept by name and message. *)
Inductive Exn : Type :=
| ApiError (statusCode : Z) (message : string) (errors : list string)
| JsError (name : string) (message : string).

Inductive Result (A : Type) : Type :=
| Ok (a : A)
| Throw (e : Exn).
Arguments Ok {A} a.
Arguments Throw {A} e.

Record ApiResponseOf (D : Type) : Type := mkApiResponse {
  statusCode : Z;
  data : D;
  message : string;
  success : bool
}.
Arguments mkApiResponse {D}.
Arguments statusCode {D}.
Arguments data {D}.
Arguments message {D}.
Arguments success {D}.

(** [new ApiResponse(statusCode, data, message)]. *)
Definition ApiResponse {D : Type} (sc : Z) (d : D) (m : string) : ApiResponseOf D :=
  mkApiResponse sc d m (sc <? 400).

(* ------------------------------------------------------------------ *)
(** ** The libraries and the environment *)
(* ------------------------------------------------------------------ *)

Definition ObjectId : Type := string.

(** The payload of a signed token: [{_id, email, username}] for an access
    token, [{_id}] for a refresh token. *)
Record Claims : Type := mkClaims {
  c_id : string;
  c_email : option string;
  c_username : option string
}.

(** The library calls of the sources.
    - [sha256_hex s] is [crypto.createHash("sha256").update(s).digest("hex")];
    - [bcrypt_hash data rounds salt] is [bcrypt.hash(data, rounds)] for the
      salt the call draws; [bcrypt_compare data hash] is [bcrypt.compare];
    - [jwt_sign payload secret expiresIn iat] is [jwt.sign] called in the
      second [iat]: the library stamps the token with
      [Math.floor(Date.now() / 1000)] and reads no finer clock, so the
      token is a function of the payload, the secret, the expiry option
      and that second;
    - [jwt_decode token secret] is the part of [jwt.verify] that does not
      read the clock: the signature check and the decoded payload with its
      [exp] claim (in seconds), [None] for a malformed token or a bad
      signature;
    - [castObjectId s] is the cast of a string to an ObjectId, [None] when
      the driver rejects the string;
    - [toLowerCase s] and [trim s] are [String.prototype.toLowerCase] and
      [String.prototype.trim] of the engine, on all of Unicode. *)
Class Platform : Type := {
  sha256_hex : string -> string;
  bcrypt_hash : string -> Z -> string -> string;
  bcrypt_compare : string -> string -> bool;
  jwt_sign : Claims -> string -> string -> Z -> string;
  jwt_decode : string -> string -> option (Claims * Z);
  castObjectId : string -> option ObjectId;
  toLowerCase : string -> string;
  trim : string -> string
}.

(** [process.env]. *)
Record Config : Type := mkConfig {
  ACCESS_TOKEN_SECRET : string;
  ACCESS_TOKEN_EXPIRY : string;
  REFRESH_TOKEN_SECRET : string;
  REFRESH_TOKEN_EXPIRY : string;
  FORGOT_PASSWORD_REDIRECT_URL : string
}.

(** What one request draws from outside the program: the clock
    ([Date.now()], in milliseconds), the hex form of
    [crypto.randomBytes(20)], the salt bcrypt draws and the identifier the
    driver gives a new document. *)
Record Env : Type := mkEnv {
  now : Z;
  randomBytes20_hex : string;
  bcryptSalt : string;
  newObjectId : ObjectId
}.

(** [jwt.verify(token, secret)]: throws on a malformed token, a bad
    signature or an expired token. *)
Definition jwt_verify `{Platform} (clock : Z) (token secret : string) : Result Claims :=
  match jwt_decode token secret with
  | None => Throw (JsError "JsonWebTokenError" "invalid token")
  | Some (c, exp) =>
      if exp <=? clock / 1000 then Throw (JsError "TokenExpiredError" "jwt expired")
      else Ok c
  end.

(* ------------------------------------------------------------------ *)
(** ** user.models.js: the schema *)
(* ------------------------------------------------------------------ *)

(** A stored user document, with the fields of [userSchema] that the
    authentication flows read or write ([avatar] and the two timestamps,
    which no flow touches, are left out).  A field that may be unset is an
    [option]. *)
Record User : Type := mkUser {
  _id : ObjectId;
  username : string;
  email : string;
  fullName : option string;
  password : option string;
  isEmailVerified : bool;
  refreshToken : option string;
  forgotPasswordToken : option string;
  forgotPasswordExpiry : option Z;
  emailVerificationToken : option string;
  emailVerificationExpiry : option Z
}.

Definition set_password (v : option string) (u : User) : User :=
  mkUser (_id u) (username u) (email u) (fullName u) v (isEmailVerified u)
         (refreshToken u) (forgotPasswordToken u) (forgotPasswordExpiry u)
         (emailVerificationToken u) (emailVerificationExpiry u).

Definition set_isEmailVerified (v : bool) (u : User) : User :=
  mkUser (_id u) (username u) (email u) (fullName u) (password u) v
         (refreshToken u) (forgotPasswordToken u) (forgotPasswordExpiry u)
         (emailVerificationToken u) (emailVerificationExpiry u).

Definition set_refreshToken (v : option string) (u : User) : User :=
  mkUser (_id u) (username u) (email u) (fullName u) (password u) (isEmailVerified u)
         v (forgotPasswordToken u) (forgotPasswordExpiry u)
         (emailVerificationToken u) (emailVerificationExpiry u).

Definition set_forgotPasswordToken (v : option string) (u : User) : User :=
  mkUser (_id u) (username u) (email u) (fullName u) (password u) (isEmailVerified u)
         (refreshToken u) v (forgotPasswordExpiry u)
         (emailVerificationToken u) (emailVerificationExpiry u).

Definition set_forgotPasswordExpiry (v : option Z) (u : User) : User :=
  mkUser (_id u) (username u) (email u) (fullName u) (password u) (isEmailVerified u)
         (refreshToken u) (forgotPasswordToken u) v
         (emailVerificationToken u) (emailVerificationExpiry u).

Definition set_emailVerificationToken (v : option string) (u : User) : User :=
  mkUser (_id u) (username u) (email u) (fullName u) (password u) (isEmailVerified u)
         (refreshToken u) (forgotPasswordToken u) (forgotPasswordExpiry u)
         v (emailVerificationExpiry u).

Definition set_emailVerificationExpiry (v : option Z) (u : User) : User :=
  mkUser (_id u) (username u) (email u) (fullName u) (password u) (isEmailVerified u)
         (refreshToken u) (forgotPasswordToken u) (forgotPasswordExpiry u)
         (emailVerificationToken u) v.

(** A document in memory: its current field values and the paths marked
    modified since it was loaded or last saved. *)
Record Doc : Type := mkDoc {
  fields : User;
  modifiedPaths : list string
}.

Definition load (u : User) : Doc := mkDoc u [].

(** [this.isModified(path)]. *)
Definition isModified (path : string) (d : Doc) : bool :=
  existsb (String.eqb path) (modifiedPaths d).

(** [doc.path = v]: the path is marked modified when the value differs
    from the one the document holds. *)
Definition assign {A : Type} (eqb : A -> A -> bool) (getter : User -> A)
    (setter : A -> User -> User) (path : string) (v : A) (d : Doc) : Doc :=
  if eqb v (getter (fields d)) then d
  else mkDoc (setter v (fields d)) (path :: modifiedPaths d).

Definition assign_password :=
  assign (option_eqb String.eqb) password set_password "password".
Definition assign_isEmailVerified :=
  assign Bool.eqb isEmailVerified set_isEmailVerified "isEmailVerified".
Definition assign_refreshToken :=
  assign (option_eqb String.eqb) refreshToken set_refreshToken "refreshToken".
Definition assign_forgotPasswordToken :=
  assign (option_eqb String.eqb) forgotPasswordToken set_forgotPasswordToken
         "forgotPasswordToken".
Definition assign_forgotPasswordExpiry :=
  assign (option_eqb Z.eqb) forgotPasswordExpiry set_forgotPasswordExpiry
         "forgotPasswordExpiry".
Definition assign_emailVerificationToken :=
  assign (option_eqb String.eqb) emailVerificationToken set_emailVerificationToken
         "emailVerificationToken".
Definition assign_emailVerificationExpiry :=
  assign (option_eqb Z.eqb) emailVerificationExpiry set_emailVerificationExpiry
         "emailVerificationExpiry".

(** A value assigned to a [String] path and to a [Date] path. *)
Definition asStringField (v : option Js.Val) : option string :=
  match v with
  | None => None
  | Some (Js.Str s) => Some s
  | Some (Js.Num z) => Some (Js.decimal z)
  end.

Definition asDateField (v : option Js.Val) : option Z :=
  match v with
  | Some (Js.Num z) => Some z
  | _ => None
  end.

(** The [lowercase] and [trim] setters of [username] and [email].
    Mongoose runs the setters of a path last-declared first: [trim], then
    [lowercase]. *)
Definition normalise `{Platform} (s : string) : string := toLowerCase (trim s).

(** The [required] validators of the schema (run by a save that validates). *)
Definition validate (u : User) : bool :=
  negb (String.eqb (username u) "") && negb (String.eqb (email u) "")
  && Js.truthy (password u).

(** [userSchema.pre("save", ...)]. *)
Definition preSave `{Platform} (salt : string) (d : Doc) : Result Doc :=
  if negb (isModified "password" d) then Ok d
  else match password (fields d) with
       | Some p =>
           Ok (mkDoc (set_password (Some (bcrypt_hash p 10 salt)) (fields d))
                     (modifiedPaths d))
       | None => Throw (JsError "Error" "data and salt arguments required")
       end.

(** [userSchema.methods.isPasswordCorrect]. *)
Definition isPasswordCorrect `{Platform} (d : Doc) (pw : option string) : Result bool :=
  match pw, password (fields d) with
  | Some p, Some h => Ok (bcrypt_compare p h)
  | _, _ => Throw (JsError "Error" "data and hash arguments required")
  end.

(** [userSchema.methods.generateAccessToken]. *)
Definition generateAccessToken `{Platform} (cfg : Config) (env : Env) (d : Doc) : string :=
  jwt_sign (mkClaims (_id (fields d)) (Some (email (fields d)))
                     (Some (username (fields d))))
           (ACCESS_TOKEN_SECRET cfg) (ACCESS_TOKEN_EXPIRY cfg) (now env / 1000).

(** [userSchema.methods.generateRefreshToken]. *)
Definition generateRefreshToken `{Platform} (cfg : Config) (env : Env) (d : Doc) : string :=
  jwt_sign (mkClaims (_id (fields d)) None None)
           (REFRESH_TOKEN_SECRET cfg) (REFRESH_TOKEN_EXPIRY cfg) (now env / 1000).

(** [userSchema.methods.generateTemporaryToken]: the object literal
    [{unHashedToken, HashedToken, tokenExpiry}], with the keys as the
    source spells them. *)
Definition generateTemporaryToken `{Platform} (env : Env) : Js.Obj Js.Val :=
  let unHashedToken := randomBytes20_hex env in
  let HashedToken := sha256_hex unHashedToken in
  let tokenExpiry := now env + 20 * 60 * 1000 in
  [ ("unHashedToken", Js.Str unHashedToken);
    ("HashedToken", Js.Str HashedToken);
    ("tokenExpiry", Js.Num tokenExpiry) ].

(* ------------------------------------------------------------------ *)
(** ** The store and the monad of the flows *)
(* ------------------------------------------------------------------ *)

(** projectmember.models.js: one membership tuple. *)
Record ProjectMember : Type := mkProjectMember {
  pm_user : ObjectId;
  pm_project : ObjectId;
  pm_role : string
}.

(** What [sendEmail] hands to the transport: recipient, subject, and the
    name and button link of the Mailgen content. *)
Record Mail : Type := mkMail {
  mail_to : string;
  mail_subject : string;
  mail_name : string;
  mail_link : string
}.

(** The two collections, in insertion order, and the mail handed to the
    transport so far. *)
Record Store : Type := mkStore {
  users : list User;
  members : list ProjectMember;
  outbox : list Mail
}.

Definition with_users (us : list User) (s : Store) : Store :=
  mkStore us (members s) (outbox s).

(** A computation that reads and writes the store and may throw. *)
Definition M (A : Type) : Type := Store -> Result A * Store.

Definition ret {A : Type} (a : A) : M A := fun s => (Ok a, s).

Definition throw {A : Type} (e : Exn) : M A := fun s => (Throw e, s).

Definition bind {A B : Type} (m : M A) (k : A -> M B) : M B :=
  fun s =>
    match m s with
    | (Ok a, s') => k a s'
    | (Throw e, s') => (Throw e, s')
    end.

(** [try { m } catch (error) { h error }]. *)
Definition try_catch {A : Type} (m : M A) (h : Exn -> M A) : M A :=
  fun s =>
    match m s with
    | (Ok a, s') => (Ok a, s')
    | (Throw e, s') => h e s'
    end.

Definition lift {A : Type} (r : Result A) : M A :=
  match r with
  | Ok a => ret a
  | Throw e => throw e
  end.

Declare Scope flow_scope.
Delimit Scope flow_scope with flow.
Notation "x <- m ;; k" := (bind m (fun x => k))
  (at level 61, m at next level, right associativity) : flow_scope.
Notation "m ;;; k" := (bind m (fun _ => k))
  (at level 61, right associativity) : flow_scope.
Local Open Scope flow_scope.

(** *** The model calls of Mongoose *)

(** [User.findOne(query)]: the first document that matches. *)
Definition findOne (query : User -> bool) : M (option Doc) :=
  fun s => (Ok (option_map load (find query (users s))), s).

Definition has_id (id : ObjectId) (u : User) : bool := String.eqb (_id u) id.

(** [User.findById(id)] for an identifier that is an ObjectId already. *)
Definition findById (id : ObjectId) : M (option Doc) := findOne (has_id id).

(** [User.findById(s)] for a string out of a token payload: the cast of
    the string may throw. *)
Definition findByIdString `{Platform} (s : string) : M (option Doc) :=
  match castObjectId s with
  | Some id => findById id
  | None => throw (JsError "CastError" "Cast to ObjectId failed")
  end.

(** A query condition [{path: value}] on [username] or [email]; the
    setters of the path apply to the value. *)
Definition matches `{Platform} (q : option string) (v : string) : bool :=
  match q with
  | Some x => String.eqb (normalise x) v
  | None => false
  end.

(** The value of one path copied from a document to a stored record. *)
Definition copyPath (src : User) (path : string) (dst : User) : User :=
  if String.eqb path "password" then set_password (password src) dst
  else if String.eqb path "isEmailVerified"
       then set_isEmailVerified (isEmailVerified src) dst
  else if String.eqb path "refreshToken"
       then set_refreshToken (refreshToken src) dst
  else if String.eqb path "forgotPasswordToken"
       then set_forgotPasswordToken (forgotPasswordToken src) dst
  else if String.eqb path "forgotPasswordExpiry"
       then set_forgotPasswordExpiry (forgotPasswordExpiry src) dst
  else if String.eqb path "emailVerificationToken"
       then set_emailVerificationToken (emailVerificationToken src) dst
  else if String.eqb path "emailVerificationExpiry"
       then set_emailVerificationExpiry (emailVerificationExpiry src) dst
  else dst.

(** The update a save sends: the modified paths, written to the record
    with the document's [_id] (the primary key of the collection). *)
Definition writePaths (d : Doc) (stored : User) : User :=
  fold_right (copyPath (fields d)) stored (modifiedPaths d).

Definition updateById (d : Doc) (us : list User) : list User :=
  map (fun u => if has_id (_id (fields d)) u then writePaths d u else u) us.

(** [doc.save({validateBeforeSave})] on a loaded document: validation
    (unless skipped), then the pre-save hook, then the write of the
    modified paths.  The saved document has no modified path left. *)
Definition save `{Platform} (validateBeforeSave : bool) (env : Env) (d : Doc) : M Doc :=
  if validateBeforeSave && negb (validate (fields d))
  then throw (JsError "ValidationError" "User validation failed")
  else
    d' <- lift (preSave (bcryptSalt env) d) ;;
    match modifiedPaths d' with
    | [] => ret d'
    | _ :: _ =>
        fun s =>
          if existsb (has_id (_id (fields d'))) (users s)
          then (Ok (load (fields d')), with_users (updateById d' (users s)) s)
          else (Throw (JsError "DocumentNotFoundError" "No document found"), s)
    end.

(** [User.create({email, password, username, isEmailVerified: false})]:
    a new document, validated, hashed by the pre-save hook and inserted;
    the unique indexes on [_id], [username] and [email] reject a
    duplicate. *)
Definition create `{Platform} (env : Env) (em pw un : option string) : M Doc :=
  match em, pw, un with
  | Some e, Some p, Some u =>
      let fresh :=
        mkUser (newObjectId env) (normalise u) (normalise e) None (Some p) false
               None None None None None in
      if negb (validate fresh)
      then throw (JsError "ValidationError" "User validation failed")
      else
        d <- lift (preSave (bcryptSalt env)
                     (mkDoc fresh ["email"; "password"; "username"; "isEmailVerified"])) ;;
        fun s =>
          if existsb (fun x => has_id (_id fresh) x
                               || String.eqb (username x) (username fresh)
                               || String.eqb (email x) (email fresh)) (users s)
          then (Throw (JsError "MongoServerError" "E11000 duplicate key error"), s)
          else (Ok (load (fields d)), with_users (users s ++ [fields d]) s)
  | _, _, _ => throw (JsError "ValidationError" "User validation failed")
  end.

(** The membership tuple of a user in a project: the first that matches. *)
Definition memberOf (s : Store) (project user : ObjectId) : option ProjectMember :=
  find (fun m => String.eqb (pm_project m) project && String.eqb (pm_user m) user)
       (members s).

(** [ProjectMember.findOne({project, user})]. *)
Definition findMember (project user : ObjectId) : M (option ProjectMember) :=
  fun s => (Ok (memberOf s project user), s).

(** mail.js, [sendEmail]: the mail is handed to the transport; a failure
    of the transport is caught and logged there, and never thrown. *)
Definition sendEmail (to subject name link : string) : M unit :=
  fun s => (Ok tt, mkStore (users s) (members s) (outbox s ++ [mkMail to subject name link])).

(** *** Documents as returned to the caller *)

(** A user object after [.select(...)]: an excluded path is absent.
    [v_role] is the property [validateProjectPermission] adds. *)
Record UserView : Type := mkUserView {
  v_id : ObjectId;
  v_username : option string;
  v_email : option string;
  v_fullName : option string;
  v_password : option string;
  v_isEmailVerified : option bool;
  v_refreshToken : option string;
  v_forgotPasswordToken : option string;
  v_forgotPasswordExpiry : option Z;
  v_emailVerificationToken : option string;
  v_emailVerificationExpiry : option Z;
  v_role : option string
}.

(** Whether the projection string excludes the path. *)
Definition excluded (spec path : string) : bool :=
  existsb (String.eqb ("-" ++ path)) (Js.words spec).

Definition keep {A : Type} (spec path : string) (v : option A) : option A :=
  if excluded spec path then None else v.

(** [.select(spec)] for a projection that only excludes paths. *)
Definition select (spec : string) (u : User) : UserView :=
  mkUserView (_id u)
    (keep spec "username" (Some (username u)))
    (keep spec "email" (Some (email u)))
    (keep spec "fullName" (fullName u))
    (keep spec "password" (password u))
    (keep spec "isEmailVerified" (Some (isEmailVerified u)))
    (keep spec "refreshToken" (refreshToken u))
    (keep spec "forgotPasswordToken" (forgotPasswordToken u))
    (keep spec "forgotPasswordExpiry" (forgotPasswordExpiry u))
    (keep spec "emailVerificationToken" (emailVerificationToken u))
    (keep spec "emailVerificationExpiry" (emailVerificationExpiry u))
    None.

Definition set_role (r : option string) (v : UserView) : UserView :=
  mkUserView (v_id v) (v_username v) (v_email v) (v_fullName v) (v_password v)
    (v_isEmailVerified v) (v_refreshToken v) (v_forgotPasswordToken v)
    (v_forgotPasswordExpiry v) (v_emailVerificationToken v)
    (v_emailVerificationExpiry v) r.

(** The projection both controllers and [verifyJWT] use. *)
Definition withoutSecrets : string :=
  "-password -refreshToken -emailVerificationToken -emailVerificationExpiry".

(** *** Requests and responses *)

Record Request : Type := mkRequest {
  body : Js.Obj string;
  params : Js.Obj string;
  cookies : Js.Obj string;
  authorization : option string;   (* req.header("Authorization") *)
  protocol : string;
  host : option string;            (* req.get("host") *)
  user : option UserView           (* req.user *)
}.

Definition set_user (v : UserView) (r : Request) : Request :=
  mkRequest (body r) (params r) (cookies r) (authorization r) (protocol r) (host r)
            (Some v).

(** The [data] of the responses. *)
Inductive Payload : Type :=
| PEmpty
| PUser (u : UserView)
| PLogin (u : option UserView) (accessToken refreshToken : string)
| PTokens (accessToken refreshToken : string)
| PVerified (isVerified : bool).

Record CookieOptions : Type := mkCookieOptions {
  httpOnly : bool;
  secure : bool
}.

(** What a controller sends: [res.status(..).cookie(..).clearCookie(..).json(..)]. *)
Record Response : Type := mkResponse {
  status : Z;
  cookiesSet : list (string * string * CookieOptions);
  cookiesCleared : list (string * CookieOptions);
  json : ApiResponseOf Payload
}.

(* ------------------------------------------------------------------ *)
(** ** async-handler.js *)
(* ------------------------------------------------------------------ *)

(** What Express sees of a wrapped handler: it completed (sent its
    response, or called [next()] with the request), or the wrapper caught
    what it threw and called [next(err)]. *)
Inductive Passed (A : Type) : Type :=
| Completed (a : A)
| NextErr (err : Exn).
Arguments Completed {A} a.
Arguments NextErr {A} err.

(** [asyncHandler(requestHandler)]:
    [Promise.resolve(requestHandler(req, res, next)).catch((err) => next(err))]. *)
Definition asyncHandler {A : Type} (requestHandler : M A) : Store -> Passed A * Store :=
  fun s =>
    match requestHandler s with
    | (Ok a, s') => (Completed a, s')
    | (Throw err, s') => (NextErr err, s')
    end.

(** Modelled from the spec: the boundary layer that turns an error passed
    to [next] into a response is not among the sources (app.js mounts no
    error middleware).  The spec says: every failure carries a status
    code, and a single boundary layer converts any uncaught error into the
    error envelope, defaulting to 500 for unrecognized errors. *)
Definition boundaryStatus (err : Exn) : Z :=
  match err with
  | ApiError sc _ _ => sc
  | JsError _ _ => 500
  end.

(* ------------------------------------------------------------------ *)
(** ** auth.controllers.js *)
(* ------------------------------------------------------------------ *)

Section Controllers.

Context `{Platform}.
Variable cfg : Config.
Variable env : Env.

Definition cookieOptions : CookieOptions := mkCookieOptions true true.

Definition nullDereference : Exn :=
  JsError "TypeError" "Cannot read properties of null".

Definition generateAccessAndRefreshTokens (userId : ObjectId) : M (string * string) :=
  try_catch
    (user <- findById userId ;;
     match user with
     | None => throw nullDereference
     | Some user =>
         let accessToken := generateAccessToken cfg env user in
         let refreshToken := generateRefreshToken cfg env user in
         let user := assign_refreshToken (Some refreshToken) user in
         save false env user ;;;
         ret (accessToken, refreshToken)
     end)
    (fun _ =>
       throw (ApiError 500 "Something went wrong while generating access token" [])).

Definition verificationUrl (req : Request) (unHashedToken : option Js.Val) : string :=
  (protocol req ++ "://" ++ Js.interpolate (option_map Js.Str (host req))
     ++ "/api/v1/users/verify-email/" ++ Js.interpolate unHashedToken)%string.

Definition registerUser (req : Request) : M Response :=
  let email_ := Js.get "email" (body req) in
  let username_ := Js.get "username" (body req) in
  let password_ := Js.get "password" (body req) in
  existedUser <- findOne (fun u => matches username_ (username u)
                                   || matches email_ (email u)) ;;
  match existedUser with
  | Some _ => throw (ApiError 409 "User with email or username already exists" [])
  | None =>
      user <- create env email_ password_ username_ ;;
      let temporaryToken := generateTemporaryToken env in
      let unHashedToken := Js.get "unHashedToken" temporaryToken in
      let hashedToken := Js.get "hashedToken" temporaryToken in
      let tokenExpiry := Js.get "tokenExpiry" temporaryToken in
      let user := assign_emailVerificationToken (asStringField hashedToken) user in
      let user := assign_emailVerificationExpiry (asDateField tokenExpiry) user in
      user <- save false env user ;;
      sendEmail (email (fields user)) "Please verify your email"
                (username (fields user)) (verificationUrl req unHashedToken) ;;;
      createdUser <- findById (_id (fields user)) ;;
      match createdUser with
      | None => throw (ApiError 500 "Something went wrong while registering a user" [])
      | Some createdUser =>
          ret (mkResponse 201 [] []
                 (ApiResponse 200 (PUser (select withoutSecrets (fields createdUser)))
                    "User registered successfully and verification email has been sent on your email"))
      end
  end.

Definition login (req : Request) : M Response :=
  let email_ := Js.get "email" (body req) in
  let password_ := Js.get "password" (body req) in
  if negb (Js.truthy email_) then throw (ApiError 400 "Email is required" [])
  else
    user <- findOne (fun u => matches email_ (email u)) ;;
    match user with
    | None => throw (ApiError 400 "User does not exist" [])
    | Some user =>
        isPasswordValid <- lift (isPasswordCorrect user password_) ;;
        if negb isPasswordValid then throw (ApiError 400 "Invalid credentials" [])
        else
          tokens <- generateAccessAndRefreshTokens (_id (fields user)) ;;
          let accessToken := fst tokens in
          let refreshToken := snd tokens in
          loggedInUser <- findById (_id (fields user)) ;;
          ret (mkResponse 200
                 [ ("accessToken", accessToken, cookieOptions);
                   ("refreshToken", refreshToken, cookieOptions) ] []
                 (ApiResponse 200
                    (PLogin (option_map (fun d => select withoutSecrets (fields d))
                                        loggedInUser)
                            accessToken refreshToken)
                    "User logged in successfully"))
    end.

(** The query [{token: hashedToken, expiry: {$gt: Date.now()}}]. *)
Definition holds (token : User -> option string) (expiry : User -> option Z)
    (hashedToken : string) (u : User) : bool :=
  option_eqb String.eqb (token u) (Some hashedToken)
  && match expiry u with
     | Some e => now env <? e
     | None => false
     end.

Definition verifyEmail (req : Request) : M Response :=
  let verificationToken := Js.get "verificationToken" (params req) in
  match verificationToken with
  | Some token =>
      if String.eqb token ""
      then throw (ApiError 400 "Email verification token is missing" [])
      else
        let hashedToken := sha256_hex token in
        user <- findOne (holds emailVerificationToken emailVerificationExpiry
                               hashedToken) ;;
        match user with
        | None => throw (ApiError 400 "Token is invalid or expired" [])
        | Some user =>
            let user := assign_emailVerificationToken None user in
            let user := assign_emailVerificationExpiry None user in
            let user := assign_isEmailVerified true user in
            save false env user ;;;
            ret (mkResponse 200 [] []
                   (ApiResponse 200 (PVerified true) "Email is verified"))
        end
  | None => throw (ApiError 400 "Email verification token is missing" [])
  end.

(** [req.cookies.refreshToken || req.body.refreshToken]. *)
Definition incomingRefreshToken (req : Request) : option string :=
  Js.or (Js.get "refreshToken" (cookies req)) (Js.get "refreshToken" (body req)).

Definition refreshAccessToken (req : Request) : M Response :=
  match incomingRefreshToken req with
  | Some incoming =>
      if String.eqb incoming "" then throw (ApiError 401 "Unauthorized access" [])
      else
        try_catch
          (decodedToken <- lift (jwt_verify (now env) incoming
                                            (REFRESH_TOKEN_SECRET cfg)) ;;
           user <- findByIdString (c_id decodedToken) ;;
           match user with
           | None => throw (ApiError 401 "Invalid refresh token" [])
           | Some user =>
               if negb (option_eqb String.eqb (Some incoming)
                                   (refreshToken (fields user)))
               then throw (ApiError 401 "Refresh token is expired" [])
               else
                 tokens <- generateAccessAndRefreshTokens (_id (fields user)) ;;
                 let accessToken := fst tokens in
                 let newRefreshToken := snd tokens in
                 let user := assign_refreshToken (Some newRefreshToken) user in
                 save true env user ;;;
                 ret (mkResponse 200
                        [ ("accessToken", accessToken, cookieOptions);
                          ("refreshToken", newRefreshToken, cookieOptions) ] []
                        (ApiResponse 200 (PTokens accessToken newRefreshToken)
                           "Access token refreshed"))
           end)
          (fun _ => throw (ApiError 401 "Invalid refresh token" []))
  | None => throw (ApiError 401 "Unauthorized access" [])
  end.

Definition forgotPasswordRequest (req : Request) : M Response :=
  let email_ := Js.get "email" (body req) in
  user <- findOne (fun u => matches email_ (email u)) ;;
  match user with
  | None => throw (ApiError 404 "User does not exist" [])
  | Some user =>
      let temporaryToken := generateTemporaryToken env in
      let unHashedToken := Js.get "unHashedToken" temporaryToken in
      let hashedToken := Js.get "hashedToken" temporaryToken in
      let tokenExpiry := Js.get "tokenExpiry" temporaryToken in
      let user := assign_forgotPasswordToken (asStringField hashedToken) user in
      let user := assign_forgotPasswordExpiry (asDateField tokenExpiry) user in
      user <- save false env user ;;
      sendEmail (email (fields user)) "Password reset request"
                (username (fields user))
                (FORGOT_PASSWORD_REDIRECT_URL cfg ++ "/"
                   ++ Js.interpolate unHashedToken)%string ;;;
      ret (mkResponse 200 [] []
             (ApiResponse 200 PEmpty "Password reset mail has been sent on your mail id"))
  end.

Definition resetForgotPassword (req : Request) : M Response :=
  let resetToken := Js.get "resetToken" (params req) in
  let newPassword := Js.get "newPassword" (body req) in
  match resetToken with
  | None =>
      (* hash.update(undefined) *)
      throw (JsError "TypeError" "The data argument must be of type string")
  | Some token =>
      let hashedToken := sha256_hex token in
      user <- findOne (holds forgotPasswordToken forgotPasswordExpiry hashedToken) ;;
      match user with
      | None => throw (ApiError 489 "Token is invalid or expired" [])
      | Some user =>
          let user := assign_forgotPasswordExpiry None user in
          let user := assign_forgotPasswordToken None user in
          let user := assign_password newPassword user in
          save false env user ;;;
          ret (mkResponse 200 [] []
                 (ApiResponse 200 PEmpty "Password reset successfully"))
      end
  end.

Definition changeCurrentPassword (req : Request) : M Response :=
  let oldPassword := Js.get "oldPassword" (body req) in
  let newPassword := Js.get "newPassword" (body req) in
  (* User.findById(req.user?._id) *)
  user <- match user req with
          | Some principal => findById (v_id principal)
          | None => ret None
          end ;;
  match user with
  | None => throw nullDereference      (* user.isPasswordCorrect on null *)
  | Some user =>
      isPasswordValid <- lift (isPasswordCorrect user oldPassword) ;;
      if negb isPasswordValid then throw (ApiError 400 "Invalid old Password" [])
      else
        let user := assign_password newPassword user in
        save false env user ;;;
        ret (mkResponse 200 [] []
               (ApiResponse 200 PEmpty "Password changed successfully"))
  end.

(* ------------------------------------------------------------------ *)
(** ** auth.middleware.js *)
(* ------------------------------------------------------------------ *)

(** [req.cookies?.accessToken || req.header("Authorization")?.replace("Bearer ", "")]. *)
Definition bearerToken (req : Request) : option string :=
  Js.or (Js.get "accessToken" (cookies req))
        (option_map (Js.replace "Bearer " "") (authorization req)).

(** [verifyJWT]: on success it sets [req.user] and calls [next()]. *)
Definition verifyJWT (req : Request) : M Request :=
  match bearerToken req with
  | Some token =>
      if String.eqb token "" then throw (ApiError 401 "Unauthorized request" [])
      else
        try_catch
          (decodedToken <- lift (jwt_verify (now env) token
                                            (ACCESS_TOKEN_SECRET cfg)) ;;
           user <- findByIdString (c_id decodedToken) ;;
           match user with
           | None => throw (ApiError 401 "Invalid access token" [])
           | Some user => ret (set_user (select withoutSecrets (fields user)) req)
           end)
          (fun _ => throw (ApiError 401 "Invalid access token" []))
  | None => throw (ApiError 401 "Unauthorized request" [])
  end.

(** [validateProjectPermission(roles)]: on success it sets
    [req.user.role] and calls [next()]. *)
Definition validateProjectPermission (roles : list string) (req : Request) : M Request :=
  let projectId := Js.get "projectId" (params req) in
  if negb (Js.truthy projectId) then throw (ApiError 400 "project id is missing" [])
  else
    match option_map castObjectId projectId with
    | Some (Some project_) =>
        match user req with
        | None => throw (JsError "TypeError" "Cannot read properties of undefined")
        | Some principal =>
            project <- findMember project_ (v_id principal) ;;
            match project with
            | None => throw (ApiError 400 "project not found" [])
            | Some project =>
                let givenRole := pm_role project in
                let req := set_user (set_role (Some givenRole) principal) req in
                if negb (existsb (String.eqb givenRole) roles)
                then throw (ApiError 403
                              "You do not have permission to perform this action" [])
                else ret req
            end
        end
    | _ => throw (JsError "BSONError" "input must be a 24 character hex string")
    end.

End Controllers.

(* ------------------------------------------------------------------ *)
(** ** Notions the properties are stated with *)
(* ------------------------------------------------------------------ *)

(** The user object a response carries. *)
Definition returnedUser (r : Response) : option UserView :=
  match data (json r) with
  | PUser u => Some u
  | PLogin u _ _ => u
  | _ => None
  end.

(** The response of a run that sent one (the empty response otherwise). *)
Definition responseOf (run : Result Response * Store) : Response :=
  match fst run with
  | Ok r => r
  | Throw _ => mkResponse 0 [] [] (ApiResponse 0 PEmpty "")
  end.

(** The refresh token a response issues. *)
Definition issuedRefreshToken (r : Response) : option string :=
  match data (json r) with
  | PLogin _ _ t => Some t
  | PTokens _ t => Some t
  | _ => None
  end.

(** A user object without any secret field: no password hash, no refresh
    token, neither pair of ephemeral-token hash and expiry. *)
Definition noSecrets (v : UserView) : Prop :=
  v_password v = None /\ v_refreshToken v = None
  /\ v_emailVerificationToken v = None /\ v_emailVerificationExpiry v = None
  /\ v_forgotPasswordToken v = None /\ v_forgotPasswordExpiry v = None.

(** A run whose returned user, when it returns one, has no secret field. *)
Definition hidesAllSecrets (run : Result Response * Store) : Prop :=
  forall resp s' v,
    run = (Ok resp, s') -> returnedUser resp = Some v -> noSecrets v.

(** [u] is the record of the store with its [_id], the one [findById]
    returns. *)
Definition stored (s : Store) (u : User) : Prop :=
  find (has_id (_id u)) (users s) = Some u.

(** Documents that were loaded and then assigned fields other than the
    password only. *)
Inductive changesOtherFieldsOnly : Doc -> Prop :=
| cof_load u : changesOtherFieldsOnly (load u)
| cof_isEmailVerified v d :
    changesOtherFieldsOnly d -> changesOtherFieldsOnly (assign_isEmailVerified v d)
| cof_refreshToken v d :
    changesOtherFieldsOnly d -> changesOtherFieldsOnly (assign_refreshToken v d)
| cof_forgotPasswordToken v d :
    changesOtherFieldsOnly d -> changesOtherFieldsOnly (assign_forgotPasswordToken v d)
| cof_forgotPasswordExpiry v d :
    changesOtherFieldsOnly d -> changesOtherFieldsOnly (assign_forgotPasswordExpiry v d)
| cof_emailVerificationToken v d :
    changesOtherFieldsOnly d -> changesOtherFieldsOnly (assign_emailVerificationToken v d)
| cof_emailVerificationExpiry v d :
    changesOtherFieldsOnly d -> changesOtherFieldsOnly (assign_emailVerificationExpiry v d).

(** Two requests that [verifyJWT] rejects with one and the same error. *)
Definition sameRejection `{Platform} (cfg : Config) (env : Env) (s : Store)
    (req1 req2 : Request) : Prop :=
  forall e1 e2 s1 s2,
    verifyJWT cfg env req1 s = (Throw e1, s1) ->
    verifyJWT cfg env req2 s = (Throw e2, s2) ->
    e1 = e2.

(* ------------------------------------------------------------------ *)
(** ** An executable instance of the libraries *)
(* ------------------------------------------------------------------ *)

(** The flows are run on concrete requests with simple stand-ins for the
    cryptographic libraries: they keep the interface (a digest that
    depends on its input only, a salted password hash that [compare]
    recognises, a signed token that carries its subject and its issue
    time) and none of the strength. *)
Module Sample.

Fixpoint before (c : ascii) (s : string) : string :=
  match s with
  | EmptyString => EmptyString
  | String x s' => if Ascii.eqb x c then EmptyString else String x (before c s')
  end.

Fixpoint after (c : ascii) (s : string) : string :=
  match s with
  | EmptyString => EmptyString
  | String x s' => if Ascii.eqb x c then s' else after c s'
  end.

Definition is_hex (c : ascii) : bool :=
  let n := nat_of_ascii c in
  ((Nat.leb 48 n && Nat.leb n 57) || (Nat.leb 97 n && Nat.leb n 102)
   || (Nat.leb 65 n && Nat.leb n 70))%bool.

Fixpoint all_hex (s : string) : bool :=
  match s with
  | EmptyString => true
  | String c s' => is_hex c && all_hex s'
  end.

Definition sign (c : Claims) (secret expiresIn : string) (iat : Z) : string :=
  (secret ++ "." ++ c_id c ++ "." ++ Js.decimal iat)%string.

(** A token [secret.subject.iat]; it expires an hour after [iat]. *)
Definition decode (token secret : string) : option (Claims * Z) :=
  if String.prefix (secret ++ ".") token
  then
    let rest := Js.drop (String.length secret + 1) token in
    match NilZero.int_of_string (after "." rest) with
    | Some iat => Some (mkClaims (before "." rest) None None, Z.of_int iat + 3600)
    | None => None
    end
  else None.

(** Trimming and lower-casing on the ASCII range, which is all the
    sample requests use. *)
Fixpoint trimStart (s : string) : string :=
  match s with
  | String c s' => if Js.is_space c then trimStart s' else s
  | EmptyString => EmptyString
  end.

Fixpoint trimEnd (s : string) : string :=
  match s with
  | EmptyString => EmptyString
  | String c s' =>
      match trimEnd s' with
      | EmptyString => if Js.is_space c then EmptyString else String c EmptyString
      | t => String c t
      end
  end.

Definition trimAscii (s : string) : string := trimEnd (trimStart s).

Definition lower (c : ascii) : ascii :=
  let n := nat_of_ascii c in
  if (Nat.leb 65 n && Nat.leb n 90)%bool then ascii_of_nat (n + 32) else c.

Fixpoint lowerAscii (s : string) : string :=
  match s with
  | EmptyString => EmptyString
  | String c s' => String (lower c) (lowerAscii s')
  end.

#[export] Instance platform : Platform := {
  sha256_hex s := ("sha256(" ++ s ++ ")")%string;
  bcrypt_hash data rounds salt := ("$" ++ data ++ "$" ++ salt)%string;
  bcrypt_compare data hash := String.prefix ("$" ++ data ++ "$") hash;
  jwt_sign := sign;
  jwt_decode := decode;
  castObjectId s :=
    if (Nat.eqb (String.length s) 24 && all_hex s)%bool then Some s else None;
  toLowerCase := lowerAscii;
  trim := trimAscii
}.

Definition cfg : Config :=
  mkConfig "access-secret" "15m" "refresh-secret" "7d" "https://app.example/reset".

Definition emptyStore : Store := mkStore [] [] [].

Definition aliceId : ObjectId := "64b7f0c2a1d3e4f5a6b7c8d9".

Definition request (body_ params_ cookies_ : Js.Obj string)
    (authorization_ : option string) (user_ : option UserView) : Request :=
  mkRequest body_ params_ cookies_ authorization_ "https" (Some "api.example") user_.

(** Registration of alice at time 1000000. *)
Definition envRegister : Env :=
  mkEnv 1000000 "00112233445566778899aabbccddeeff00112233" "salt1" aliceId.

Definition reqRegister : Request :=
  request [("email", "a@x.com"); ("username", "alice"); ("password", "pw123")]
          [] [] None None.

Definition afterRegister : Result Response * Store :=
  Eval vm_compute in registerUser envRegister reqRegister emptyStore.

(** A reset request of alice one second later. *)
Definition envForgot : Env :=
  mkEnv 1001000 "ffeeddccbbaa99887766554433221100ffeeddcc" "salt2" "000000000000000000000000".

Definition reqForgot : Request := request [("email", "a@x.com")] [] [] None None.

Definition afterForgot : Result Response * Store :=
  Eval vm_compute in forgotPasswordRequest cfg envForgot reqForgot (snd afterRegister).

(** Alice logs in one more second later. *)
Definition envLogin : Env :=
  mkEnv 1002000 "0000000000000000000000000000000000000000" "salt3" "000000000000000000000000".

Definition reqLogin : Request :=
  request [("email", "a@x.com"); ("password", "pw123")] [] [] None None.

Definition afterLogin : Result Response * Store :=
  Eval vm_compute in login cfg envLogin reqLogin (snd afterForgot).

(** Alice refreshes with the token the login issued, at time 2000000. *)
Definition loginRefreshToken : string := "refresh-secret.64b7f0c2a1d3e4f5a6b7c8d9.1002".

Definition envRefresh : Env :=
  mkEnv 2000000 "0000000000000000000000000000000000000000" "salt4" "000000000000000000000000".

Definition reqRefresh : Request :=
  request [] [] [("refreshToken", loginRefreshToken)] None None.

Definition afterRefresh : Result Response * Store :=
  Eval vm_compute in refreshAccessToken cfg envRefresh reqRefresh (snd afterLogin).

(** The same token again, one second later, in the body this time. *)
Definition envReplay : Env :=
  mkEnv 2001000 "0000000000000000000000000000000000000000" "salt5" "000000000000000000000000".

Definition reqReplay : Request :=
  request [("refreshToken", loginRefreshToken)] [] [] None None.

(** A store whose only user holds the hash of a verification token. *)
Definition plainToken : string := "00112233445566778899aabbccddeeff00112233".

Definition bob : User :=
  mkUser "64b7f0c2a1d3e4f5a6b7c8da" "bob" "b@x.com" None (Some "$secret$salt0") false
         None None None (Some (sha256_hex plainToken)) (Some 2200000).

Definition storeHolding : Store := mkStore [bob] [] [].

Definition envVerify : Env := mkEnv 1500000 "" "" "".

Definition reqVerify : Request :=
  request [] [("verificationToken", plainToken)] [] None None.

(** A reset request with a token nobody holds. *)
Definition reqReset : Request :=
  request [("newPassword", "pw456")] [("resetToken", plainToken)] [] None None.

(** Requests to the guarded routes. *)
Definition reqNoCredential : Request := request [] [] [] None None.

Definition reqGarbage : Request :=
  request [] [] [] (Some "Bearer garbage") None.

Definition bobAccessToken : string := "access-secret.64b7f0c2a1d3e4f5a6b7c8da.1500".

Definition reqBearer : Request :=
  request [] [] [] (Some ("Bearer " ++ bobAccessToken)%string) None.

Definition reqBare : Request := request [] [] [] (Some bobAccessToken) None.

(** The header [Cookie: accessToken=] together with a bearer header. *)
Definition reqEmptyCookie : Request :=
  request [] [] [("accessToken", "")] (Some ("Bearer " ++ bobAccessToken)%string) None.

(** A project with bob as a plain member and carol as its admin. *)
Definition projectId : ObjectId := "64b7f0c2a1d3e4f5a6b7c8ff".

Definition carolId : ObjectId := "64b7f0c2a1d3e4f5a6b7c8db".

Definition storeProject : Store :=
  mkStore [bob]
          [ mkProjectMember (_id bob) projectId "member";
            mkProjectMember carolId projectId "admin" ] [].

Definition principal (id : ObjectId) : UserView :=
  mkUserView id None None None None None None None None None None None.

Definition reqProject (id : ObjectId) : Request :=
  request [] [("projectId", projectId)] [] None (Some (principal id)).

(** A password change by a user whose record is gone. *)
Definition reqChange : Request :=
  request [("oldPassword", "pw123"); ("newPassword", "pw456")] [] [] None
          (Some (principal aliceId)).

End Sample.

(* ------------------------------------------------------------------ *)
(** ** auth.controllers.js: the remaining controllers *)
(* ------------------------------------------------------------------ *)

(** [User.findByIdAndUpdate(id, {$set: {refreshToken: v}}, {new: true})]:
    the update goes to the database directly, without the save hooks and
    without validation; the result is the updated document, or null when
    no record has the [_id]. *)
Definition findByIdAndUpdate_refreshToken (id : ObjectId) (v : string) : M (option User) :=
  fun s =>
    let updated :=
      map (fun u => if has_id id u then set_refreshToken (Some v) u else u) (users s) in
    (Ok (find (has_id id) updated), with_users updated s).

Section Remaining_controllers.

Context `{Platform}.
Variable cfg : Config.
Variable env : Env.

Definition logoutUser (req : Request) : M Response :=
  match user req with
  | None =>
      (* req.user._id on undefined *)
      throw (JsError "TypeError" "Cannot read properties of undefined")
  | Some principal =>
      findByIdAndUpdate_refreshToken (v_id principal) "" ;;;
      ret (mkResponse 200 []
             [ ("accessToken", cookieOptions); ("refreshToken", cookieOptions) ]
             (ApiResponse 200 PEmpty "User logged out"))
  end.

(** [getCurrentUser] sends [req.user] as the data of the envelope; the
    result is the HTTP status and the envelope. *)
Definition getCurrentUser (req : Request) : M (Z * ApiResponseOf (option UserView)) :=
  ret (200, ApiResponse 200 (user req) "Current user fetched successfully").

Definition resendEmailVerification (req : Request) : M Response :=
  (* User.findById(req.user?._id) *)
  user <- match user req with
          | Some principal => findById (v_id principal)
          | None => ret None
          end ;;
  match user with
  | None => throw (ApiError 404 "User does not exist" [])
  | Some user =>
      if isEmailVerified (fields user)
      then throw (ApiError 409 "Email is already verified" [])
      else
        let temporaryToken := generateTemporaryToken env in
        let unHashedToken := Js.get "unHashedToken" temporaryToken in
        let hashedToken := Js.get "hashedToken" temporaryToken in
        let tokenExpiry := Js.get "tokenExpiry" temporaryToken in
        let user := assign_emailVerificationToken (asStringField hashedToken) user in
        let user := assign_emailVerificationExpiry (asDateField tokenExpiry) user in
        user <- save false env user ;;
        sendEmail (email (fields user)) "Please verify your email"
                  (username (fields user)) (verificationUrl req unHashedToken) ;;;
        ret (mkResponse 200 [] []
               (ApiResponse 200 PEmpty "Mail has been sent to your email ID"))
  end.

(* ------------------------------------------------------------------ *)
(** ** auth.routes.js: the routes behind [verifyJWT] *)
(* ------------------------------------------------------------------ *)

(** [router.route(path).post(verifyJWT, controller)]: the controller runs
    on the request [verifyJWT] passed on, and not at all when [verifyJWT]
    called [next(err)]. *)
Definition behindVerifyJWT {A : Type} (controller : Request -> M A) (req : Request) : M A :=
  req' <- verifyJWT cfg env req ;;
  controller req'.



(** [router.route("/resend-email-verification").post(verifyJWT, resendEmailVerification)]. *)
Definition route_resend_email_verification : Request -> M Response :=
  behindVerifyJWT resendEmailVerification.

End Remaining_controllers.

(* ------------------------------------------------------------------ *)
(** ** The stores the controllers can produce *)
(* ------------------------------------------------------------------ *)

(** The ten controllers of auth.controllers.js. *)
Inductive Controller : Type :=
| RegisterUser
| Login
| LogoutUser
| GetCurrentUser
| VerifyEmail
| ResendEmailVerification
| RefreshAccessToken
| ForgotPasswordRequest
| ResetForgotPassword
| ChangeCurrentPassword.

(** The store a controller leaves, whether it answered or threw. *)
Definition storeAfter `{Platform} (cfg : Config) (env : Env) (c : Controller)
    (req : Request) (s : Store) : Store :=
  match c with
  | RegisterUser => snd (registerUser env req s)
  | Login => snd (login cfg env req s)
  | LogoutUser => snd (logoutUser req s)
  | GetCurrentUser => snd (getCurrentUser req s)
  | VerifyEmail => snd (verifyEmail env req s)
  | ResendEmailVerification => snd (resendEmailVerification env req s)
  | RefreshAccessToken => snd (refreshAccessToken cfg env req s)
  | ForgotPasswordRequest => snd (forgotPasswordRequest cfg env req s)
  | ResetForgotPassword => snd (resetForgotPassword env req s)
  | ChangeCurrentPassword => snd (changeCurrentPassword env req s)
  end.

(** The stores reached from an empty users collection by any sequence of
    controller runs, on any requests (with any [req.user]) at any times.
    The routes only narrow the requests a controller sees. *)
Inductive reachable `{Platform} (cfg : Config) : Store -> Prop :=
| reachable_empty ms out : reachable cfg (mkStore [] ms out)
| reachable_step s env c req :
    reachable cfg s -> reachable cfg (storeAfter cfg env c req s).

(** A record that holds no ephemeral-token hash and is not verified. *)
Definition unverified (u : User) : Prop :=
  emailVerificationToken u = None /\ forgotPasswordToken u = None
  /\ isEmailVerified u = false.

(** The collection has no two records with the same [_id], the same
    [username] or the same [email]. *)
Definition uniqueIdentities (s : Store) : Prop :=
  NoDup (map _id (users s)) /\ NoDup (map username (users s))
  /\ NoDup (map email (users s)).


(** Pre- and postconditions of a flow: from a store that satisfies [P],
    the flow ends in [Q] when it returns and in [E] when it throws. *)
Definition triple {A : Type} (P : Store -> Prop) (m : M A)
    (Q : A -> Store -> Prop) (E : Exn -> Store -> Prop) : Prop :=
  forall s, P s ->
    match m s with
    | (Ok a, s') => Q a s'
    | (Throw e, s') => E e s'
    end.

(** The invariant of the users collection: identities are unique, and no
    record holds a token hash or is verified. *)
Definition kept (s : Store) : Prop :=
  uniqueIdentities s /\ Forall unverified (users s).

(** A flow that keeps the invariant, and returns a value in [Q]. *)
Definition keeps {A : Type} (Q : A -> Prop) (m : M A) : Prop :=
  triple kept m (fun a s => kept s /\ Q a) (fun _ s => kept s).


(** The collection with the record of [u']'s [_id] replaced by [u']. *)
Definition replaceUser (u' : User) (us : list User) : list User :=
  map (fun v => if has_id (_id u') v then u' else v) us.

(** The password a save stores after [user.password = newPassword] on the
    loaded record [u]: the assignment marks the path modified, and the
    hook hashes it, unless the new value is the very string stored. *)
Definition passwordAfter `{Platform} (env : Env) (newPassword : string) (u : User)
    : option string :=
  if option_eqb String.eqb (Some newPassword) (password u) then password u
  else Some (bcrypt_hash newPassword 10 (bcryptSalt env)).

(** A document in memory agrees with a stored record when every path that
    is not marked modified has the stored value. *)
Definition agrees (d : Doc) (u : User) : Prop :=
  _id (fields d) = _id u /\ username (fields d) = username u
  /\ email (fields d) = email u /\ fullName (fields d) = fullName u
  /\ (isModified "password" d = false -> password (fields d) = password u)
  /\ (isModified "isEmailVerified" d = false ->
      isEmailVerified (fields d) = isEmailVerified u)
  /\ (isModified "refreshToken" d = false -> refreshToken (fields d) = refreshToken u)
  /\ (isModified "forgotPasswordToken" d = false ->
      forgotPasswordToken (fields d) = forgotPasswordToken u)
  /\ (isModified "forgotPasswordExpiry" d = false ->
      forgotPasswordExpiry (fields d) = forgotPasswordExpiry u)
  /\ (isModified "emailVerificationToken" d = false ->
      emailVerificationToken (fields d) = emailVerificationToken u)
  /\ (isModified "emailVerificationExpiry" d = false ->
      emailVerificationExpiry (fields d) = emailVerificationExpiry u).

(** The response of a login of the stored user [u]: both tokens, in the
    body and as cookies, and the projection of the record with the new
    refresh token. *)
Definition loginResponse `{Platform} (cfg : Config) (env : Env) (u : User) : Response :=
  let accessToken := generateAccessToken cfg env (load u) in
  let refreshToken := generateRefreshToken cfg env (load u) in
  mkResponse 200
    [ ("accessToken", accessToken, cookieOptions);
      ("refreshToken", refreshToken, cookieOptions) ] []
    (ApiResponse 200
       (PLogin (Some (select withoutSecrets (set_refreshToken (Some refreshToken) u)))
               accessToken refreshToken)
       "User logged in successfully").

(** The response of a refresh for the stored user [u]: a new token pair,
    in the body and as cookies. *)
Definition refreshResponse `{Platform} (cfg : Config) (env : Env) (u : User) : Response :=
  let accessToken := generateAccessToken cfg env (load u) in
  let newRefreshToken := generateRefreshToken cfg env (load u) in
  mkResponse 200
    [ ("accessToken", accessToken, cookieOptions);
      ("refreshToken", newRefreshToken, cookieOptions) ] []
    (ApiResponse 200 (PTokens accessToken newRefreshToken) "Access token refreshed").

(** The store after the refresh token of [u] was rotated. *)
Definition rotated `{Platform} (cfg : Config) (env : Env) (u : User) (s : Store) : Store :=
  with_users
    (updateById
       (assign_refreshToken (Some (generateRefreshToken cfg env (load u))) (load u))
       (users s)) s.

(** What the catch block of [refreshAccessToken] throws. *)
Definition invalidRefreshToken : Exn := ApiError 401 "Invalid refresh token" [].

(** The response of [logoutUser]. *)
Definition logoutResponse : Response :=
  mkResponse 200 []
    [ ("accessToken", cookieOptions); ("refreshToken", cookieOptions) ]
    (ApiResponse 200 PEmpty "User logged out").

(* ------------------------------------------------------------------ *)
(** ** More requests and stores to run the flows on *)
(* ------------------------------------------------------------------ *)

Module Demo.

(** Alice again, with a wrong password. *)
Definition reqLoginWrong : Request :=
  Sample.request [("email", "a@x.com"); ("password", "guess")] [] [] None None.

(** Alice, authenticated, on the routes behind [verifyJWT]. *)
Definition reqAlice : Request :=
  Sample.request [] [] [] None (Some (Sample.principal Sample.aliceId)).

Definition afterLogout : Result Response * Store :=
  Eval vm_compute in logoutUser reqAlice (snd Sample.afterLogin).

(** A second registration under alice's email, in capitals. *)
Definition envRegisterAgain : Env :=
  mkEnv 1003000 "1111111111111111111111111111111111111111" "salt6"
        "64b7f0c2a1d3e4f5a6b7c8e0".

Definition reqRegisterAgain : Request :=
  Sample.request
    [("email", " A@X.COM "); ("username", "alicia"); ("password", "pw789")]
    [] [] None None.

(** A store whose only user holds the hash of a reset token. *)
Definition carl : User :=
  mkUser "64b7f0c2a1d3e4f5a6b7c8dc" "carl" "c@x.com" None (Some "$old$salt0") true
         (Some "refresh-secret.64b7f0c2a1d3e4f5a6b7c8dc.1400")
         (Some (sha256_hex (Platform := Sample.platform) Sample.plainToken))
         (Some 2200000) None None.

Definition storeResetting : Store := mkStore [carl] [] [].

(** Alice's login with the password she changed to. *)
Definition reqLoginNew : Request :=
  Sample.request [("email", "a@x.com"); ("password", "pw456")] [] [] None None.

(** A request with a stale cookie and a good bearer header. *)
Definition reqStaleCookie : Request :=
  Sample.request [] [] [("accessToken", "garbage")]
                 (Some ("Bearer " ++ Sample.bobAccessToken)%string) None.

(** A reset request that carries no new password. *)
Definition reqResetNoPassword : Request :=
  Sample.request [] [("resetToken", Sample.plainToken)] [] None None.

(** A registration without password. *)
Definition reqRegisterNoPassword : Request :=
  Sample.request [("email", "d@x.com"); ("username", "dora")] [] [] None None.

(** Alice refreshes 400 ms after her login, and once more 400 ms later:
    both in the second in which the login issued her refresh token. *)
Definition envRefreshAtOnce : Env :=
  mkEnv 1002400 "0000000000000000000000000000000000000000" "salt7"
        "000000000000000000000000".

Definition afterRefreshAtOnce : Result Response * Store :=
  Eval vm_compute in
    refreshAccessToken (H := Sample.platform) Sample.cfg envRefreshAtOnce
      Sample.reqRefresh (snd Sample.afterLogin).

Definition envReplayAtOnce : Env :=
  mkEnv 1002800 "0000000000000000000000000000000000000000" "salt8"
        "000000000000000000000000".

(** Dave registers after alice has logged in. *)
Definition reqRegisterDave : Request :=
  Sample.request
    [("email", "d@x.com"); ("username", "dave"); ("password", "pw789")]
    [] [] None None.

Definition afterRegisterDave : Result Response * Store :=
  Eval vm_compute in
    registerUser (H := Sample.platform) envRegisterAgain reqRegisterDave
      (snd Sample.afterLogin).

(** Carol, authenticated, asks for a project whose id is no ObjectId. *)
Definition reqMalformedProject : Request :=
  Sample.request [] [("projectId", "xyz")] [] None
                 (Some (Sample.principal Sample.carolId)).

End Demo.

(* ------------------------------------------------------------------ *)
(** * Properties *)
(* ------------------------------------------------------------------ *)

(** ** Lists, paths and the monad *)

Lemma find_map_stable {A : Type} (p : A -> bool) (f : A -> A) (l : list A) :
  (forall x, p (f x) = p x) ->
  find p (map f l) = option_map f (find p l).
Proof.
  intros Hp. induction l as [|a l IH]; simpl; [reflexivity|].
  rewrite Hp. destruct (p a); [reflexivity|exact IH].
Qed.

Lemma find_app_fresh {A : Type} (p : A -> bool) (l : list A) (a : A) :
  existsb p l = false -> p a = true -> find p (l ++ [a]) = Some a.
Proof.
  intros Hl Ha. induction l as [|b l IH]; simpl in *.
  - now rewrite Ha.
  - apply orb_false_iff in Hl as [Hb Hl]. rewrite Hb. now apply IH.
Qed.

Lemma existsb_weaken {A : Type} (p q : A -> bool) (l : list A) :
  (forall x, p x = true -> q x = true) -> existsb q l = false -> existsb p l = false.
Proof.
  intros Hpq Hq. induction l as [|a l IH]; simpl in *; [reflexivity|].
  apply orb_false_iff in Hq as [Ha Hl]. rewrite (IH Hl), orb_false_r.
  destruct (p a) eqn:E; [|reflexivity]. apply Hpq in E. congruence.
Qed.

Lemma copyPath_id src p u : _id (copyPath src p u) = _id u.
Proof.
  unfold copyPath.
  repeat match goal with |- context [if ?b then _ else _] => destruct b end; reflexivity.
Qed.

Lemma writePaths_id d u : _id (writePaths d u) = _id u.
Proof.
  unfold writePaths. induction (modifiedPaths d) as [|p l IH]; simpl; [reflexivity|].
  now rewrite copyPath_id.
Qed.


Ltac writePaths_field name :=
  intros d u; unfold writePaths, isModified;
  induction (modifiedPaths d) as [|p l IH]; cbn [fold_right existsb]; [reflexivity|];
  destruct (String.eqb_spec name p) as [<-|Hn]; cbn [orb]; [reflexivity|];
  rewrite <- IH; unfold copyPath;
  repeat match goal with
         | |- context [if String.eqb p ?c then _ else _] =>
             destruct (String.eqb_spec p c); [congruence || reflexivity|]
         end; reflexivity.

Lemma writePaths_password : forall d u,
  password (writePaths d u)
  = if isModified "password" d then password (fields d) else password u.
Proof. writePaths_field "password". Qed.

Lemma writePaths_refreshToken : forall d u,
  refreshToken (writePaths d u)
  = if isModified "refreshToken" d then refreshToken (fields d) else refreshToken u.
Proof. writePaths_field "refreshToken". Qed.

Lemma writePaths_isEmailVerified : forall d u,
  isEmailVerified (writePaths d u)
  = if isModified "isEmailVerified" d then isEmailVerified (fields d) else isEmailVerified u.
Proof. writePaths_field "isEmailVerified". Qed.

Lemma writePaths_emailVerificationToken : forall d u,
  emailVerificationToken (writePaths d u)
  = if isModified "emailVerificationToken" d then emailVerificationToken (fields d)
    else emailVerificationToken u.
Proof. writePaths_field "emailVerificationToken". Qed.

Lemma writePaths_emailVerificationExpiry : forall d u,
  emailVerificationExpiry (writePaths d u)
  = if isModified "emailVerificationExpiry" d then emailVerificationExpiry (fields d)
    else emailVerificationExpiry u.
Proof. writePaths_field "emailVerificationExpiry". Qed.

Lemma writePaths_forgotPasswordToken : forall d u,
  forgotPasswordToken (writePaths d u)
  = if isModified "forgotPasswordToken" d then forgotPasswordToken (fields d)
    else forgotPasswordToken u.
Proof. writePaths_field "forgotPasswordToken". Qed.

Lemma writePaths_forgotPasswordExpiry : forall d u,
  forgotPasswordExpiry (writePaths d u)
  = if isModified "forgotPasswordExpiry" d then forgotPasswordExpiry (fields d)
    else forgotPasswordExpiry u.
Proof. writePaths_field "forgotPasswordExpiry". Qed.

Lemma copyPath_username src p u : username (copyPath src p u) = username u.
Proof.
  unfold copyPath.
  repeat match goal with |- context [if ?b then _ else _] => destruct b end; reflexivity.
Qed.

Lemma copyPath_email src p u : email (copyPath src p u) = email u.
Proof.
  unfold copyPath.
  repeat match goal with |- context [if ?b then _ else _] => destruct b end; reflexivity.
Qed.

Lemma writePaths_username d u : username (writePaths d u) = username u.
Proof.
  unfold writePaths. induction (modifiedPaths d) as [|p l IH]; simpl; [reflexivity|].
  now rewrite copyPath_username.
Qed.

Lemma writePaths_email d u : email (writePaths d u) = email u.
Proof.
  unfold writePaths. induction (modifiedPaths d) as [|p l IH]; simpl; [reflexivity|].
  now rewrite copyPath_email.
Qed.

Lemma has_id_writePaths id d u : has_id id (writePaths d u) = has_id id u.
Proof. unfold has_id. now rewrite writePaths_id. Qed.

Lemma find_updateById id d us :
  find (has_id id) (updateById d us)
  = option_map (fun u => if has_id (_id (fields d)) u then writePaths d u else u)
               (find (has_id id) us).
Proof.
  unfold updateById. apply find_map_stable.
  intros x. destruct (has_id (_id (fields d)) x); [apply has_id_writePaths|reflexivity].
Qed.


Lemma bind_ok {A B : Type} (m : M A) (k : A -> M B) s b s' :
  bind m k s = (Ok b, s') ->
  exists a s1, m s = (Ok a, s1) /\ k a s1 = (Ok b, s').
Proof.
  unfold bind. destruct (m s) as [[a|e] s1]; [eauto|discriminate].
Qed.

Lemma findOne_run q s :
  findOne q s = (Ok (option_map load (find q (users s))), s).
Proof. reflexivity. Qed.

Section Store_lemmas.
Context `{Platform}.

Lemma preSave_unmodified salt d :
  isModified "password" d = false -> preSave salt d = Ok d.
Proof. unfold preSave. now intros ->. Qed.

Lemma preSave_modified salt d dh :
  isModified "password" d = true -> preSave salt d = Ok dh ->
  exists p, password (fields d) = Some p
    /\ dh = mkDoc (set_password (Some (bcrypt_hash p 10 salt)) (fields d))
                  (modifiedPaths d).
Proof.
  unfold preSave. intros ->. cbn [negb].
  destruct (password (fields d)) as [p|]; [|discriminate].
  intros [= <-]. eauto.
Qed.

Lemma preSave_paths salt d dh :
  preSave salt d = Ok dh ->
  modifiedPaths dh = modifiedPaths d /\ _id (fields dh) = _id (fields d).
Proof.
  unfold preSave. destruct (negb (isModified "password" d)).
  - now intros [= <-].
  - destruct (password (fields d)); [|discriminate]. now intros [= <-].
Qed.

(** A save that returns either had nothing to write, or wrote the modified
    paths of the hashed document to the record with its [_id]. *)
Lemma save_ok v env d s d' s' :
  save v env d s = (Ok d', s') ->
  exists dh, preSave (bcryptSalt env) d = Ok dh
    /\ ((modifiedPaths d = [] /\ d' = dh /\ s' = s)
        \/ (modifiedPaths d <> [] /\ d' = load (fields dh)
            /\ s' = with_users (updateById dh (users s)) s
            /\ existsb (has_id (_id (fields d))) (users s) = true)).
Proof.
  unfold save. destruct (v && negb (validate (fields d))); [discriminate|].
  intros Hb. apply bind_ok in Hb as (dh & s1 & Hpre & Hk).
  destruct (preSave (bcryptSalt env) d) as [dh0|e] eqn:Hp; cbn in Hpre; [|discriminate].
  injection Hpre as -> ->. exists dh. split; [reflexivity|].
  destruct (preSave_paths _ _ _ Hp) as [Hpaths Hid].
  rewrite <- Hpaths, <- Hid.
  destruct (modifiedPaths dh) as [|p l].
  - left. cbn in Hk. injection Hk as <- <-. auto.
  - right. destruct (existsb _ (users s1)) eqn:Hex; [|discriminate].
    injection Hk as <- <-. repeat split; auto. discriminate.
Qed.

Lemma create_ok env em pw un s d s' :
  create env em pw un s = (Ok d, s') ->
  exists e p n,
    em = Some e /\ pw = Some p /\ un = Some n
    /\ fields d = mkUser (newObjectId env) (normalise n) (normalise e) None
                         (Some (bcrypt_hash p 10 (bcryptSalt env))) false
                         None None None None None
    /\ modifiedPaths d = []
    /\ s' = with_users (users s ++ [fields d]) s
    /\ existsb (has_id (newObjectId env)) (users s) = false.
Proof.
  unfold create.
  destruct em as [e|]; [|discriminate].
  destruct pw as [p|]; [|discriminate].
  destruct un as [n|]; [|discriminate].
  match goal with |- context [negb (validate ?f)] => destruct (validate f) end;
    cbn [negb]; [|discriminate].
  unfold bind, lift, preSave, isModified.
  cbn [modifiedPaths existsb String.eqb Ascii.eqb Bool.eqb orb negb fields password ret
       set_password _id username email fullName isEmailVerified refreshToken
       forgotPasswordToken forgotPasswordExpiry emailVerificationToken
       emailVerificationExpiry load].
  match goal with |- context [existsb ?q (users s)] => destruct (existsb q (users s)) eqn:Hdup end;
    [discriminate|].
  intros [= <- <-]. exists e, p, n. repeat split; try reflexivity.
  revert Hdup. apply existsb_weaken. intros x Hx. cbn [_id]. now rewrite Hx.
Qed.

End Store_lemmas.



Lemma option_eqb_string_true a b :
  option_eqb String.eqb a b = true -> a = b.
Proof.
  destruct a, b; cbn; try discriminate; auto.
  intros E. apply String.eqb_eq in E. now subst.
Qed.

Lemma with_users_same s : with_users (users s) s = s.
Proof. now destruct s. Qed.

Lemma updateById_nil d us : modifiedPaths d = [] -> updateById d us = us.
Proof.
  intros Hnil. unfold updateById, writePaths. rewrite Hnil. cbn.
  induction us as [|u us IH]; cbn; [reflexivity|].
  rewrite IH. now destruct (has_id _ u).
Qed.

Lemma find_some_existsb {A : Type} (p : A -> bool) l a :
  find p l = Some a -> existsb p l = true.
Proof.
  intros Hf. apply existsb_exists. exists a.
  apply find_some in Hf. tauto.
Qed.

Lemma try_catch_ok {A : Type} (m : M A) (h : Exn -> M A) s a s' :
  (forall e s1 r, h e s1 <> (Ok a, r)) ->
  try_catch m h s = (Ok a, s') -> m s = (Ok a, s').
Proof.
  unfold try_catch. intros Hh. destruct (m s) as [[x|e] s1]; [auto|].
  intros E. now apply Hh in E.
Qed.

Section Flow_lemmas.
Context `{Platform}.

Lemma isModified_assign {A : Type} eqb (getter : User -> A) setter path v d p :
  String.eqb p path = false ->
  isModified p (assign eqb getter setter path v d) = isModified p d.
Proof.
  intros Hp. unfold assign. destruct (eqb v (getter (fields d))); [reflexivity|].
  unfold isModified. cbn. now rewrite Hp.
Qed.

Lemma assign_id {A : Type} eqb (getter : User -> A) setter path v d :
  (forall x u, _id (setter x u) = _id u) ->
  _id (fields (assign eqb getter setter path v d)) = _id (fields d).
Proof.
  intros Hs. unfold assign. destruct (eqb v (getter (fields d))); [reflexivity|].
  cbn. apply Hs.
Qed.

(** A save that returns wrote the paths of the hashed document (none when
    nothing was modified) to the record with the document's [_id]. *)
Lemma save_ok_store v env d s d' s' :
  save v env d s = (Ok d', s') ->
  exists dh, preSave (bcryptSalt env) d = Ok dh
    /\ s' = with_users (updateById dh (users s)) s.
Proof.
  intros Hs. apply save_ok in Hs as (dh & Hpre & [(Hnil & _ & ->)|(_ & _ & -> & _)]);
    exists dh; split; auto.
  destruct (preSave_paths _ _ _ Hpre) as [Hp _].
  rewrite updateById_nil by congruence. now rewrite with_users_same.
Qed.

Lemma tokens_ok cfg env id s a r s' :
  generateAccessAndRefreshTokens cfg env id s = (Ok (a, r), s') ->
  exists u,
    find (has_id id) (users s) = Some u
    /\ a = generateAccessToken cfg env (load u)
    /\ r = generateRefreshToken cfg env (load u)
    /\ s' = with_users
              (updateById (assign_refreshToken (Some r) (load u)) (users s)) s.
Proof.
  unfold generateAccessAndRefreshTokens. intros Hrun.
  apply try_catch_ok in Hrun; [|intros; discriminate].
  apply bind_ok in Hrun as (found & s0 & Hfind & Hrun).
  unfold findById in Hfind. rewrite findOne_run in Hfind. injection Hfind as <- <-.
  destruct (find (has_id id) (users s)) as [u|]; cbn [option_map] in Hrun;
    [|discriminate].
  apply bind_ok in Hrun as (saved & s1 & Hsave & Hrun).
  injection Hrun as <- <- <-.
  apply save_ok_store in Hsave as (dh & Hpre & ->).
  rewrite preSave_unmodified in Hpre.
  - injection Hpre as <-. exists u. auto.
  - unfold assign_refreshToken. now rewrite isModified_assign.
Qed.

Lemma select_withoutSecrets u :
  let v := select withoutSecrets u in
  v_id v = _id u
  /\ v_password v = None /\ v_refreshToken v = None
  /\ v_emailVerificationToken v = None /\ v_emailVerificationExpiry v = None
  /\ v_forgotPasswordToken v = forgotPasswordToken u
  /\ v_forgotPasswordExpiry v = forgotPasswordExpiry u.
Proof. repeat split. Qed.

(** The projection leaves the other fields as they are, and adds no role. *)
Lemma select_withoutSecrets_rest u :
  let v := select withoutSecrets u in
  v_username v = Some (username u) /\ v_email v = Some (email u)
  /\ v_fullName v = fullName u /\ v_isEmailVerified v = Some (isEmailVerified u)
  /\ v_role v = None.
Proof. repeat split. Qed.

End Flow_lemmas.

Lemma temporaryToken_keys `{Platform} env :
  Js.get "unHashedToken" (generateTemporaryToken env)
    = Some (Js.Str (randomBytes20_hex env))
  /\ Js.get "hashedToken" (generateTemporaryToken env) = None
  /\ Js.get "HashedToken" (generateTemporaryToken env)
    = Some (Js.Str (sha256_hex (randomBytes20_hex env)))
  /\ Js.get "tokenExpiry" (generateTemporaryToken env)
    = Some (Js.Num (now env + 20 * 60 * 1000)).
Proof. repeat split. Qed.

(** ** Registration and login *)

Section Register_login.
Context `{Platform}.

(** What a registration that succeeds has done: the new record is in the
    store under the fresh identifier, with no verification hash and the
    expiry twenty minutes after the clock; one mail went out, whose link
    ends with the plain token; the response carries the projection of the
    record, which holds no reset token yet. *)
Lemma registerUser_ok env req s resp s' :
  registerUser env req s = (Ok resp, s') ->
  exists u,
    find (has_id (newObjectId env)) (users s') = Some u
    /\ outbox s' = (outbox s ++
         [mkMail (email u) "Please verify your email" (username u)
                 (verificationUrl req (Some (Js.Str (randomBytes20_hex env))))])%list
    /\ emailVerificationExpiry u = Some (now env + 20 * 60 * 1000)
    /\ emailVerificationToken u = None
    /\ _id u = newObjectId env
    /\ returnedUser resp = Some (select withoutSecrets u)
    /\ forgotPasswordToken u = None /\ forgotPasswordExpiry u = None.
Proof.
  intros Hrun. unfold registerUser in Hrun.
  apply bind_ok in Hrun as (existed & s0 & Hfind & Hrun).
  rewrite findOne_run in Hfind. injection Hfind as <- <-.
  destruct (find _ (users s)) as [existing|]; cbn [option_map] in Hrun; [discriminate|].
  apply bind_ok in Hrun as (user0 & s1 & Hcreate & Hrun).
  apply create_ok in Hcreate as (e & p & n & _ & _ & _ & Hfields & Hpaths & -> & Hfresh).
  destruct user0 as [u0 paths0]. cbn [fields modifiedPaths] in *. subst paths0.
  destruct (temporaryToken_keys env) as (Hplain & Hhashed & _ & Hexpiry).
  rewrite Hplain, Hhashed, Hexpiry in Hrun. clear Hplain Hhashed Hexpiry.
  subst u0.
  match type of Hrun with
  | context [bind (save false env ?d)] =>
      change d with
        (mkDoc (set_emailVerificationExpiry (Some (now env + 20 * 60 * 1000))
                  (mkUser (newObjectId env) (normalise n) (normalise e) None
                     (Some (bcrypt_hash p 10 (bcryptSalt env))) false
                     None None None None None))
               ["emailVerificationExpiry"]) in Hrun
  end.
  apply bind_ok in Hrun as (user1 & s2 & Hsave & Hrun).
  apply save_ok in Hsave as (dh & Hpre & [(Hnil & _)|(_ & -> & -> & _)]);
    [discriminate Hnil|].
  rewrite preSave_unmodified in Hpre by reflexivity. injection Hpre as <-.
  apply bind_ok in Hrun as ([] & s3 & Hmail & Hrun).
  injection Hmail as <-.
  apply bind_ok in Hrun as (created & s4 & Hfound & Hrun).
  unfold findById in Hfound. rewrite findOne_run in Hfound. injection Hfound as <- <-.
  cbn [users with_users fields load set_emailVerificationExpiry _id email username] in *.
  rewrite find_updateById in Hrun.
  rewrite (find_app_fresh _ _ _ Hfresh) in Hrun by apply String.eqb_refl.
  cbn [option_map] in Hrun.
  injection Hrun as <- <-.
  cbn [users with_users outbox].
  rewrite find_updateById.
  rewrite (find_app_fresh _ _ _ Hfresh) by apply String.eqb_refl.
  cbn [option_map fields set_emailVerificationExpiry _id].
  unfold has_id at 1. cbn [_id]. rewrite String.eqb_refl.
  eexists. split; [reflexivity|].
  rewrite writePaths_email, writePaths_username, writePaths_emailVerificationExpiry,
    writePaths_emailVerificationToken, writePaths_id,
    writePaths_forgotPasswordToken, writePaths_forgotPasswordExpiry.
  cbn. rewrite String.eqb_refl. repeat split.
Qed.

Lemma login_ok cfg env req s resp s' :
  login cfg env req s = (Ok resp, s') ->
  exists u,
    find (has_id (_id u)) (users s') = Some u
    /\ returnedUser resp = Some (select withoutSecrets u).
Proof.
  unfold login. destruct (negb (Js.truthy _)); [discriminate|]. intros Hrun.
  apply bind_ok in Hrun as (found & s0 & Hfind & Hrun).
  rewrite findOne_run in Hfind. injection Hfind as <- <-.
  destruct (find _ (users s)) as [u0|]; cbn [option_map] in Hrun; [|discriminate].
  apply bind_ok in Hrun as (valid & s1 & _ & Hrun).
  destruct valid; cbn [negb] in Hrun; [|discriminate].
  apply bind_ok in Hrun as ([a r] & s2 & Htokens & Hrun).
  apply tokens_ok in Htokens as (u1 & Hu1 & _ & _ & ->).
  apply bind_ok in Hrun as (logged & s3 & Hfind & Hrun).
  unfold findById in Hfind. rewrite findOne_run in Hfind. injection Hfind as <- <-.
  injection Hrun as <- <-.
  cbn [users with_users fields load] in *.
  rewrite find_updateById, Hu1. cbn [option_map fields load].
  eexists. split; [|reflexivity].
  rewrite find_updateById.
  match goal with
  | |- context [if ?b then writePaths ?d u1 else u1] =>
      assert (Hid : _id (if b then writePaths d u1 else u1) = _id u1)
        by (destruct b; [apply writePaths_id|reflexivity])
  end.
  rewrite Hid.
  apply find_some in Hu1 as Hu1'. destruct Hu1' as [_ Hu1'].
  unfold has_id in Hu1'. apply String.eqb_eq in Hu1'.
  rewrite Hu1', Hu1. reflexivity.
Qed.

End Register_login.

(** ** C1: what registration persists *)

(** C1 (as the code behaves).  For every registration that succeeds, the
    mail that went out carries the plain token in its link and the stored
    [emailVerificationExpiry] is the generation time plus 20 minutes, but
    the stored [emailVerificationToken] is absent: the controller reads the
    key [hashedToken] of an object whose key is [HashedToken].  So the
    persisted value is not the SHA-256 hex digest of the mailed token. *)
Theorem registerUser_persists_no_token_hash `{Platform} env req s resp s' :
  registerUser env req s = (Ok resp, s') ->
  exists u,
    find (has_id (newObjectId env)) (users s') = Some u
    /\ outbox s' = (outbox s ++
         [mkMail (email u) "Please verify your email" (username u)
                 (verificationUrl req (Some (Js.Str (randomBytes20_hex env))))])%list
    /\ emailVerificationExpiry u = Some (now env + 20 * 60 * 1000)
    /\ emailVerificationToken u = None
    /\ emailVerificationToken u <> Some (sha256_hex (randomBytes20_hex env)).
Proof.
  intros Hrun. apply registerUser_ok in Hrun as (u & Hu & Hmail & Hexp & Htok & _).
  exists u. repeat split; auto. rewrite Htok. discriminate.
Qed.

Lemma registerUser_persists_no_token_hash_witness :
  exists u,
    find (has_id Sample.aliceId) (users (snd Sample.afterRegister)) = Some u
    /\ emailVerificationExpiry u = Some 2200000
    /\ emailVerificationToken u = None.
Proof.
  destruct (registerUser_persists_no_token_hash (H := Sample.platform)
              Sample.envRegister Sample.reqRegister Sample.emptyStore
              (responseOf Sample.afterRegister) (snd Sample.afterRegister) eq_refl)
    as (u & Hu & _ & Hexp & Htok & _).
  exists u. repeat split; assumption.
Defined.

(** The mailed token does not verify the address: the very first
    [verifyEmail] with it is rejected. *)
Example verifyEmail_after_register :
  verifyEmail (H := Sample.platform) (mkEnv 1060000 "" "" "")
    (Sample.request [] [("verificationToken", "00112233445566778899aabbccddeeff00112233")]
                    [] None None)
    (snd Sample.afterRegister)
  = (Throw (ApiError 400 "Token is invalid or expired" []), snd Sample.afterRegister).
Proof. reflexivity. Qed.

(** ** C2: the user object of the responses *)

(** C2 (amended).  The user object Register returns has no secret field
    at all.  The user object Login returns is the stored record without
    [password], [refreshToken], [emailVerificationToken] and
    [emailVerificationExpiry], and with every other field as stored: the
    forgot-password pair is not excluded, Login returns it as the record
    holds it.  (Register hides it only because a new record has none.) *)
Theorem returned_user_excludes_four_fields `{Platform} cfg env req s resp s' :
  registerUser env req s = (Ok resp, s') \/ login cfg env req s = (Ok resp, s') ->
  exists u v,
    stored s' u
    /\ returnedUser resp = Some v
    /\ v_password v = None /\ v_refreshToken v = None
    /\ v_emailVerificationToken v = None /\ v_emailVerificationExpiry v = None
    /\ v_id v = _id u
    /\ v_username v = Some (username u) /\ v_email v = Some (email u)
    /\ v_fullName v = fullName u
    /\ v_isEmailVerified v = Some (isEmailVerified u)
    /\ v_forgotPasswordToken v = forgotPasswordToken u
    /\ v_forgotPasswordExpiry v = forgotPasswordExpiry u
    /\ v_role v = None
    /\ (registerUser env req s = (Ok resp, s') -> noSecrets v).
Proof.
  assert (Hregister : forall v,
             registerUser env req s = (Ok resp, s') ->
             returnedUser resp = Some v -> noSecrets v).
  { intros v Hrun Hv.
    apply registerUser_ok in Hrun as (u & _ & _ & _ & _ & _ & Hret & Hft & Hfe).
    rewrite Hret in Hv. injection Hv as <-.
    unfold noSecrets. cbn. rewrite Hft, Hfe. repeat split. }
  assert (Hprojection : forall u,
             stored s' u -> returnedUser resp = Some (select withoutSecrets u) ->
             exists u0 v,
               stored s' u0
               /\ returnedUser resp = Some v
               /\ v_password v = None /\ v_refreshToken v = None
               /\ v_emailVerificationToken v = None
               /\ v_emailVerificationExpiry v = None
               /\ v_id v = _id u0
               /\ v_username v = Some (username u0) /\ v_email v = Some (email u0)
               /\ v_fullName v = fullName u0
               /\ v_isEmailVerified v = Some (isEmailVerified u0)
               /\ v_forgotPasswordToken v = forgotPasswordToken u0
               /\ v_forgotPasswordExpiry v = forgotPasswordExpiry u0
               /\ v_role v = None
               /\ (registerUser env req s = (Ok resp, s') -> noSecrets v)).
  { intros u Hu Hret. exists u, (select withoutSecrets u).
    destruct (select_withoutSecrets u) as (Hi & Hp & Hr & Ht & He & Hft & Hfe).
    destruct (select_withoutSecrets_rest u) as (Hn & Hm & Hf & Hv & Hrole).
    do 14 (split; [assumption|]).
    intros Hrun. now apply Hregister. }
  intros [Hrun|Hrun].
  - apply registerUser_ok in Hrun as (u & Hu & _ & _ & _ & Hid & Hret & _).
    apply (Hprojection u); [|exact Hret]. unfold stored. now rewrite Hid.
  - apply login_ok in Hrun as (u & Hu & Hret). now apply (Hprojection u).
Qed.

Lemma returned_user_excludes_four_fields_witness :
  (exists u v,
     stored (snd Sample.afterLogin) u
     /\ returnedUser (responseOf Sample.afterLogin) = Some v
     /\ v_password v = None /\ v_refreshToken v = None
     /\ v_email v = Some (email u)
     /\ v_forgotPasswordExpiry v = forgotPasswordExpiry u)
  /\ (exists v,
        returnedUser (responseOf Sample.afterRegister) = Some v /\ noSecrets v).
Proof.
  split.
  - destruct (returned_user_excludes_four_fields (H := Sample.platform)
                Sample.cfg Sample.envLogin Sample.reqLogin (snd Sample.afterForgot)
                (responseOf Sample.afterLogin) (snd Sample.afterLogin)
                (or_intror eq_refl))
      as (u & v & Hu & Hv & Hp & Hr & _ & _ & _ & _ & Hm & _ & _ & _ & Hf & _).
    exists u, v. repeat split; assumption.
  - destruct (returned_user_excludes_four_fields (H := Sample.platform)
                Sample.cfg Sample.envRegister Sample.reqRegister Sample.emptyStore
                (responseOf Sample.afterRegister) (snd Sample.afterRegister)
                (or_introl eq_refl))
      as (u & v & _ & Hv & Hrest).
    exists v. split; [exact Hv|].
    apply Hrest. reflexivity.
Defined.

(** C2 as stated fails: after a reset request, the user object Login
    returns still carries [forgotPasswordExpiry]. *)
Lemma login_returns_forgotPasswordExpiry :
  ~ hidesAllSecrets
      (login (H := Sample.platform) Sample.cfg Sample.envLogin Sample.reqLogin (snd Sample.afterForgot)).
Proof.
  intros Hclaim.
  destruct (fst Sample.afterLogin) as [r|e] eqn:Hr; [|discriminate Hr].
  specialize (Hclaim r (snd Sample.afterLogin)).
  vm_compute in Hr. injection Hr as <-.
  specialize (Hclaim _ eq_refl eq_refl).
  destruct Hclaim as (_ & _ & _ & _ & _ & Hexp). discriminate Hexp.
Qed.

(** ** The write of a rotated refresh token *)

Section Refresh.
Context `{Platform}.

Lemma writePaths_assign_refreshToken r u v :
  v = u \/ refreshToken v = Some r ->
  refreshToken (writePaths (assign_refreshToken (Some r) (load u)) v) = Some r.
Proof.
  intros Hv. rewrite writePaths_refreshToken.
  unfold assign_refreshToken, assign. cbn [fields load].
  destruct (option_eqb String.eqb (Some r) (refreshToken u)) eqn:E.
  - cbn. destruct Hv as [->|Hv]; [|exact Hv].
    symmetry. now apply option_eqb_string_true.
  - reflexivity.
Qed.

End Refresh.

(** ** C4 and C5: the ephemeral tokens *)

Lemma find_none_iff {A : Type} (p : A -> bool) (l : list A) :
  find p l = None <-> forall x, In x l -> p x = false.
Proof.
  split; [apply find_none|].
  induction l as [|a l IH]; cbn; intros Hall; [reflexivity|].
  rewrite (Hall a) by now left. apply IH. intros x Hx. apply Hall. now right.
Qed.

Lemma option_eqb_string_false a b :
  a <> b -> option_eqb String.eqb a b = false.
Proof.
  intros Hne. destruct (option_eqb String.eqb a b) eqn:E; [|reflexivity].
  now apply option_eqb_string_true in E.
Qed.

Section Ephemeral.
Context `{Platform}.

Lemma holds_token env token expiry h u :
  holds env token expiry h u = true -> token u = Some h.
Proof.
  unfold holds. intros Hh. apply andb_true_iff in Hh as [Hh _].
  now apply option_eqb_string_true.
Qed.

(** The lookup by token finds the holder when nobody else holds the hash. *)
Lemma find_holder env token expiry h u e us :
  In u us -> token u = Some h -> expiry u = Some e -> now env < e ->
  (forall v, In v us -> token v = Some h -> v = u) ->
  find (holds env token expiry h) us = Some u.
Proof.
  intros Hin Htok Hexp Hlt Huniq.
  assert (Hu : holds env token expiry h u = true).
  { unfold holds. rewrite Htok, Hexp. cbn. rewrite String.eqb_refl. cbn.
    now apply Z.ltb_lt. }
  destruct (find (holds env token expiry h) us) as [x|] eqn:Hfind.
  - apply find_some in Hfind as [Hx Hhx]. apply holds_token in Hhx.
    now rewrite (Huniq x Hx Hhx).
  - rewrite (find_none _ _ Hfind u Hin) in Hu. discriminate.
Qed.

End Ephemeral.

(** C4 (as the code behaves).  For every reset request whose plain token
    hashes to no stored [forgotPasswordToken] with an unexpired
    [forgotPasswordExpiry], [resetForgotPassword] throws and changes no
    state; the status code of the error is 489, not the 400 of BadRequest
    that [verifyEmail] uses for the same condition. *)
Theorem resetForgotPassword_rejects_with_489 `{Platform} env req s token :
  Js.get "resetToken" (params req) = Some token ->
  (forall u, In u (users s) ->
     holds env forgotPasswordToken forgotPasswordExpiry (sha256_hex token) u = false) ->
  resetForgotPassword env req s
  = (Throw (ApiError 489 "Token is invalid or expired" []), s)
  /\ boundaryStatus (ApiError 489 "Token is invalid or expired" []) <> 400.
Proof.
  intros Htoken Hnone. split; [|discriminate].
  unfold resetForgotPassword. rewrite Htoken.
  unfold bind. rewrite findOne_run.
  apply find_none_iff in Hnone. now rewrite Hnone.
Qed.

Lemma resetForgotPassword_rejects_with_489_witness :
  resetForgotPassword (H := Sample.platform) Sample.envVerify Sample.reqReset
    Sample.storeHolding
  = (Throw (ApiError 489 "Token is invalid or expired" []), Sample.storeHolding).
Proof.
  apply (resetForgotPassword_rejects_with_489 (H := Sample.platform)
           Sample.envVerify Sample.reqReset Sample.storeHolding Sample.plainToken).
  - reflexivity.
  - intros u [<-|[]]. reflexivity.
Defined.

(** C5.  For every user of the store that holds the hash of a plain token
    with an expiry in the future (and is the only holder of that hash),
    [verifyEmail] with the plain token answers 200 with [isVerified: true];
    the record stored under the user's [_id] then has [isEmailVerified]
    true, [emailVerificationToken] and [emailVerificationExpiry] unset and
    every other field as before; any later [verifyEmail] with the same
    plain token throws 400 and changes nothing. *)
Theorem verifyEmail_consumes_token_once `{Platform} env req s token u e :
  Js.get "verificationToken" (params req) = Some token ->
  token <> "" ->
  stored s u ->
  emailVerificationToken u = Some (sha256_hex token) ->
  emailVerificationExpiry u = Some e ->
  now env < e ->
  (forall v, In v (users s) ->
     emailVerificationToken v = Some (sha256_hex token) -> v = u) ->
  exists resp s' u',
    verifyEmail env req s = (Ok resp, s')
    /\ status resp = 200
    /\ data (json resp) = PVerified true
    /\ find (has_id (_id u)) (users s') = Some u'
    /\ isEmailVerified u' = true
    /\ emailVerificationToken u' = None
    /\ emailVerificationExpiry u' = None
    /\ (_id u' = _id u /\ username u' = username u /\ email u' = email u
        /\ fullName u' = fullName u /\ password u' = password u
        /\ refreshToken u' = refreshToken u
        /\ forgotPasswordToken u' = forgotPasswordToken u
        /\ forgotPasswordExpiry u' = forgotPasswordExpiry u)
    /\ forall env2 req2,
         Js.get "verificationToken" (params req2) = Some token ->
         verifyEmail env2 req2 s'
         = (Throw (ApiError 400 "Token is invalid or expired" []), s').
Proof.
  intros Hparam Hne Hstored Htok Hexp Hlt Huniq.
  assert (Hin : In u (users s)) by (apply find_some in Hstored; tauto).
  pose proof (find_holder env emailVerificationToken emailVerificationExpiry
                _ u e (users s) Hin Htok Hexp Hlt Huniq) as Hfind.
  pose proof (find_some_existsb _ _ _ Hstored) as Hexists.
  set (d := assign_isEmailVerified true
              (assign_emailVerificationExpiry None
                 (assign_emailVerificationToken None (load u)))).
  set (u' := mkUser (_id u) (username u) (email u) (fullName u) (password u) true
                    (refreshToken u) (forgotPasswordToken u) (forgotPasswordExpiry u)
                    None None).
  assert (Hd : fields d = u'
               /\ isModified "emailVerificationToken" d = true
               /\ isModified "password" d = false
               /\ writePaths d u = u').
  { subst d u'. destruct u as [i un em fn pw [] rt ft fe vt ve];
      cbn in Htok, Hexp; subst vt ve; repeat split. }
  destruct Hd as (Hfields & Hmod & Hpw & Hwrite).
  assert (Hid : _id (fields d) = _id u) by now rewrite Hfields.
  exists (mkResponse 200 [] [] (ApiResponse 200 (PVerified true) "Email is verified")),
         (with_users (updateById d (users s)) s), u'.
  assert (Hself : has_id (_id u) u = true) by apply String.eqb_refl.
  split; [|split; [reflexivity|split; [reflexivity|split]]].
  - unfold verifyEmail. rewrite Hparam.
    destruct (String.eqb_spec token ""); [contradiction|].
    unfold bind at 1. rewrite findOne_run, Hfind. cbn [option_map]. fold d.
    unfold save, bind, lift. cbn [andb]. rewrite (preSave_unmodified _ _ Hpw).
    cbn [ret].
    destruct (modifiedPaths d) eqn:Hpaths.
    + unfold isModified in Hmod. rewrite Hpaths in Hmod. discriminate.
    + now rewrite Hid, Hexists.
  - cbn [users with_users].
    unfold stored in Hstored.
    rewrite find_updateById, Hstored. cbn [option_map].
    now rewrite Hid, Hself, Hwrite.
  - split; [reflexivity|]. split; [reflexivity|]. split; [reflexivity|].
    split; [repeat split|].
    intros env2 req2 Hparam2. unfold verifyEmail. rewrite Hparam2.
    destruct (String.eqb_spec token ""); [contradiction|].
    unfold bind. rewrite findOne_run.
    cbn [users with_users].
    replace (find _ (updateById d (users s))) with (@None User); [reflexivity|].
    symmetry. apply find_none_iff. intros x Hx.
    unfold updateById in Hx. apply in_map_iff in Hx as (v & <- & Hv).
    unfold holds. rewrite Hid.
    destruct (has_id (_id u) v) eqn:Hsame.
    + now rewrite writePaths_emailVerificationToken, Hmod, Hfields.
    + rewrite option_eqb_string_false; [reflexivity|].
      intros Hholds. rewrite (Huniq v Hv Hholds) in Hsame. congruence.
Qed.

Lemma verifyEmail_consumes_token_once_witness :
  exists resp s' u',
    verifyEmail (H := Sample.platform) Sample.envVerify Sample.reqVerify
      Sample.storeHolding = (Ok resp, s')
    /\ status resp = 200
    /\ find (has_id (_id Sample.bob)) (users s') = Some u'
    /\ isEmailVerified Sample.bob = false
    /\ isEmailVerified u' = true
    /\ emailVerificationToken u' = None
    /\ emailVerificationExpiry u' = None
    /\ verifyEmail (H := Sample.platform) Sample.envReplay Sample.reqVerify s'
       = (Throw (ApiError 400 "Token is invalid or expired" []), s').
Proof.
  destruct (verifyEmail_consumes_token_once (H := Sample.platform)
              Sample.envVerify Sample.reqVerify Sample.storeHolding
              Sample.plainToken Sample.bob 2200000)
    as (resp & s' & u' & Hrun & Hstatus & _ & Hu' & Hflag & Htok & Hexp & _ & Hagain).
  - reflexivity.
  - discriminate.
  - reflexivity.
  - reflexivity.
  - reflexivity.
  - reflexivity.
  - intros v [<-|[]] _. reflexivity.
  - exists resp, s', u'. repeat (split; [first [assumption|reflexivity]|]).
    apply Hagain. reflexivity.
Defined.

(** ** C7: the pre-save hook *)

Section Hook.
Context `{Platform}.

Lemma isModified_nonempty path d : isModified path d = true -> modifiedPaths d <> [].
Proof. unfold isModified. destruct (modifiedPaths d); [discriminate|discriminate]. Qed.

Lemma other_fields_keep_password d :
  changesOtherFieldsOnly d -> isModified "password" d = false.
Proof.
  induction 1 as [u|v d _ IH|v d _ IH|v d _ IH|v d _ IH|v d _ IH|v d _ IH];
    [reflexivity|..];
    (etransitivity; [apply isModified_assign; reflexivity|exact IH]).
Qed.

Lemma updateById_password_unmodified d us :
  isModified "password" d = false ->
  map password (updateById d us) = map password us.
Proof.
  intros Hpw. unfold updateById. rewrite map_map. apply map_ext. intros u.
  destruct (has_id _ u); [|reflexivity].
  now rewrite writePaths_password, Hpw.
Qed.

End Hook.

(** C7.  For every save of a user document that returns: if the password
    path is not marked modified, every stored password is what it was and
    so is the document's; if it is marked modified, the document's
    password [p] is replaced by [bcrypt.hash(p, 10)] and that hash is what
    the record with the document's [_id] stores.  A document that was
    loaded and then assigned other fields only (tokens, expiries, the
    verification flag) does not have the password path marked. *)
Theorem save_rehashes_iff_password_modified `{Platform} v env d s d' s' :
  save v env d s = (Ok d', s') ->
  (isModified "password" d = false ->
     map password (users s') = map password (users s)
     /\ password (fields d') = password (fields d))
  /\ (isModified "password" d = true ->
      exists p,
        password (fields d) = Some p
        /\ password (fields d') = Some (bcrypt_hash p 10 (bcryptSalt env))
        /\ existsb (has_id (_id (fields d))) (users s') = true
        /\ forall u', In u' (users s') -> _id u' = _id (fields d) ->
                      password u' = Some (bcrypt_hash p 10 (bcryptSalt env)))
  /\ (changesOtherFieldsOnly d -> isModified "password" d = false).
Proof.
  intros Hsave. split; [|split; [|apply other_fields_keep_password]].
  - intros Hpw.
    apply save_ok in Hsave as (dh & Hpre & Hcases).
    rewrite (preSave_unmodified _ _ Hpw) in Hpre. injection Hpre as <-.
    destruct Hcases as [(_ & -> & ->)|(_ & -> & -> & _)]; split; try reflexivity.
    cbn [users with_users]. now apply updateById_password_unmodified.
  - intros Hpw.
    apply save_ok in Hsave as (dh & Hpre & Hcases).
    destruct (preSave_modified _ _ _ Hpw Hpre) as (p & Hp & ->).
    exists p. split; [exact Hp|].
    destruct Hcases as [(Hnil & _)|(_ & -> & -> & Hex)];
      [now apply isModified_nonempty in Hpw|].
    cbn [users with_users fields load set_password password _id] in *.
    set (dh := mkDoc _ (modifiedPaths d)).
    assert (Hdh : _id (fields dh) = _id (fields d)) by reflexivity.
    assert (Hmod : isModified "password" dh = true) by exact Hpw.
    split; [reflexivity|split].
    + apply existsb_exists in Hex as (x & Hx & Hidx).
      apply existsb_exists. exists (writePaths dh x). split.
      * unfold updateById. apply in_map_iff. exists x. split; [|exact Hx].
        now rewrite Hdh, Hidx.
      * now rewrite has_id_writePaths.
    + intros u' Hu' Hid'. unfold updateById in Hu'.
      apply in_map_iff in Hu' as (x & <- & Hx). rewrite Hdh in *.
      destruct (has_id (_id (fields d)) x) eqn:Hsame.
      * now rewrite writePaths_password, Hmod.
      * unfold has_id in Hsame. rewrite Hid', String.eqb_refl in Hsame. discriminate.
Qed.

Lemma save_rehashes_iff_password_modified_witness :
  map password
      (users (snd (save (H := Sample.platform) false Sample.envVerify
                        (assign_isEmailVerified true (load Sample.bob))
                        Sample.storeHolding)))
  = map password (users Sample.storeHolding)
  /\ map password
      (users (snd (save (H := Sample.platform) false Sample.envRefresh
                        (assign_password (Some "pw456") (load Sample.bob))
                        Sample.storeHolding)))
     = [Some "$pw456$salt4"].
Proof.
  split.
  - eapply (save_rehashes_iff_password_modified (H := Sample.platform)
              false Sample.envVerify (assign_isEmailVerified true (load Sample.bob))
              Sample.storeHolding); reflexivity.
  - reflexivity.
Defined.

(** ** C6 and C10: [verifyJWT] *)

Lemma replace_absent pat rep s :
  Js.includes pat s = false -> Js.replace pat rep s = s.
Proof.
  induction s as [|c s IH].
  - destruct pat; [discriminate|reflexivity].
  - cbn [Js.includes Js.replace].
    destruct (String.prefix pat (String c s)); [discriminate|].
    intros Hs. now rewrite IH.
Qed.

Lemma replace_bearer_prefix token :
  Js.replace "Bearer " "" ("Bearer " ++ token) = token.
Proof. destruct token; reflexivity. Qed.

Section Authenticate.
Context `{Platform}.

(** The five ways [verifyJWT] fails, by what the request carries. *)
Lemma verifyJWT_run cfg env req s :
  verifyJWT cfg env req s
  = match bearerToken req with
    | None => (Throw (ApiError 401 "Unauthorized request" []), s)
    | Some token =>
        if String.eqb token ""
        then (Throw (ApiError 401 "Unauthorized request" []), s)
        else
          match jwt_verify (now env) token (ACCESS_TOKEN_SECRET cfg) with
          | Throw _ => (Throw (ApiError 401 "Invalid access token" []), s)
          | Ok c =>
              match castObjectId (c_id c) with
              | None => (Throw (ApiError 401 "Invalid access token" []), s)
              | Some id =>
                  match find (has_id id) (users s) with
                  | None => (Throw (ApiError 401 "Invalid access token" []), s)
                  | Some u => (Ok (set_user (select withoutSecrets u) req), s)
                  end
              end
          end
    end.
Proof.
  unfold verifyJWT. destruct (bearerToken req) as [token|]; [|reflexivity].
  destruct (String.eqb token ""); [reflexivity|].
  unfold try_catch, bind, lift.
  destruct (jwt_verify _ _ _) as [c|e]; [|reflexivity].
  cbn [ret]. unfold findByIdString.
  destruct (castObjectId (c_id c)) as [id|]; [|reflexivity].
  unfold findById. rewrite findOne_run.
  now destruct (find (has_id id) (users s)).
Qed.

End Authenticate.

(** C6 (amended).  [verifyJWT] takes the credential from the [accessToken]
    cookie when that cookie is present and not empty, otherwise from the
    [Authorization] header with the first ["Bearer "] removed.  Every
    failure is an error of status 401 and changes nothing.  A missing
    credential yields the error (401, "Unauthorized request"); a malformed
    token or a bad signature, an expired token, and a subject that does
    not resolve to a user all yield one and the same error
    (401, "Invalid access token"). *)
Theorem verifyJWT_failures `{Platform} cfg env req s :
  bearerToken req
  = (if Js.truthy (Js.get "accessToken" (cookies req))
     then Js.get "accessToken" (cookies req)
     else option_map (Js.replace "Bearer " "") (authorization req))
  /\ (forall e s', verifyJWT cfg env req s = (Throw e, s') ->
        s' = s /\ boundaryStatus e = 401
        /\ e = if Js.truthy (bearerToken req)
               then ApiError 401 "Invalid access token" []
               else ApiError 401 "Unauthorized request" [])
  /\ (Js.truthy (bearerToken req) = false ->
        verifyJWT cfg env req s = (Throw (ApiError 401 "Unauthorized request" []), s))
  /\ (forall token,
        bearerToken req = Some token -> token <> "" ->
        (jwt_decode token (ACCESS_TOKEN_SECRET cfg) = None
         \/ (exists c exp, jwt_decode token (ACCESS_TOKEN_SECRET cfg) = Some (c, exp)
                           /\ exp <= now env / 1000)
         \/ (exists c, jwt_verify (now env) token (ACCESS_TOKEN_SECRET cfg) = Ok c
                       /\ (castObjectId (c_id c) = None
                           \/ exists id, castObjectId (c_id c) = Some id
                                         /\ find (has_id id) (users s) = None))) ->
        verifyJWT cfg env req s = (Throw (ApiError 401 "Invalid access token" []), s)).
Proof.
  split; [reflexivity|]. rewrite verifyJWT_run.
  split; [|split].
  - intros e s'. destruct (bearerToken req) as [token|]; cbn [Js.truthy].
    + destruct (String.eqb token ""); cbn [negb].
      * intros [= <- <-]. auto.
      * destruct (jwt_verify _ _ _) as [c|r]; [|intros [= <- <-]; auto].
        destruct (castObjectId _) as [id|]; [|intros [= <- <-]; auto].
        destruct (find _ _); [discriminate|intros [= <- <-]; auto].
    + intros [= <- <-]. auto.
  - destruct (bearerToken req) as [token|]; cbn [Js.truthy]; [|reflexivity].
    destruct (String.eqb token ""); [reflexivity|discriminate].
  - intros token -> Hne Hmode.
    destruct (String.eqb_spec token ""); [contradiction|].
    destruct Hmode as [Hbad|[(c & exp & Hdec & Hexp)|(c & Hok & Hsubject)]].
    + unfold jwt_verify. now rewrite Hbad.
    + unfold jwt_verify. rewrite Hdec.
      apply Z.leb_le in Hexp. now rewrite Hexp.
    + rewrite Hok. destruct Hsubject as [->|(id & -> & ->)]; reflexivity.
Qed.

(** C6 as stated fails: a request without credential and a request with a
    malformed token are rejected with different errors; and a cookie that
    is present but empty is not where the credential is read from. *)
Lemma verifyJWT_missing_differs_from_invalid :
  ~ sameRejection (H := Sample.platform) Sample.cfg Sample.envVerify
      Sample.storeHolding Sample.reqNoCredential Sample.reqGarbage
  /\ Js.get "accessToken" (cookies Sample.reqEmptyCookie) = Some ""
  /\ bearerToken Sample.reqEmptyCookie = Some Sample.bobAccessToken.
Proof.
  split; [|split; reflexivity].
  intros Hsame.
  specialize (Hsame (ApiError 401 "Unauthorized request" [])
                    (ApiError 401 "Invalid access token" [])
                    Sample.storeHolding Sample.storeHolding eq_refl eq_refl).
  discriminate Hsame.
Qed.

(** C10.  With no [accessToken] cookie, a token that verifies and whose
    subject is a stored user authenticates the request whether the
    [Authorization] header is ["Bearer "] followed by the token or the
    bare token (a token that does not itself contain ["Bearer "]). *)
Theorem verifyJWT_accepts_bare_token `{Platform} cfg env req s token c id u :
  Js.get "accessToken" (cookies req) = None ->
  token <> "" ->
  authorization req = Some ("Bearer " ++ token)%string
  \/ (authorization req = Some token /\ Js.includes "Bearer " token = false) ->
  jwt_verify (now env) token (ACCESS_TOKEN_SECRET cfg) = Ok c ->
  castObjectId (c_id c) = Some id ->
  find (has_id id) (users s) = Some u ->
  verifyJWT cfg env req s = (Ok (set_user (select withoutSecrets u) req), s).
Proof.
  intros Hcookie Hne Hheader Hverify Hcast Hfind.
  assert (Htoken : bearerToken req = Some token).
  { unfold bearerToken. rewrite Hcookie. cbn [Js.or Js.truthy].
    destruct Hheader as [->|[-> Hbare]]; cbn [option_map].
    - now rewrite replace_bearer_prefix.
    - now rewrite replace_absent. }
  rewrite verifyJWT_run, Htoken.
  destruct (String.eqb_spec token ""); [contradiction|].
  now rewrite Hverify, Hcast, Hfind.
Qed.

Lemma verifyJWT_accepts_bare_token_witness :
  verifyJWT (H := Sample.platform) Sample.cfg Sample.envVerify Sample.reqBearer
    Sample.storeHolding
  = (Ok (set_user (select withoutSecrets Sample.bob) Sample.reqBearer),
     Sample.storeHolding)
  /\ verifyJWT (H := Sample.platform) Sample.cfg Sample.envVerify Sample.reqBare
       Sample.storeHolding
     = (Ok (set_user (select withoutSecrets Sample.bob) Sample.reqBare),
        Sample.storeHolding).
Proof.
  split;
    apply (verifyJWT_accepts_bare_token (H := Sample.platform)
             Sample.cfg Sample.envVerify _ Sample.storeHolding Sample.bobAccessToken
             (mkClaims (_id Sample.bob) None None) (_id Sample.bob) Sample.bob);
    try reflexivity; try discriminate.
  - left. reflexivity.
  - right. split; reflexivity.
Defined.

Lemma verifyJWT_failures_witness :
  verifyJWT (H := Sample.platform) Sample.cfg Sample.envVerify Sample.reqNoCredential
    Sample.storeHolding
  = (Throw (ApiError 401 "Unauthorized request" []), Sample.storeHolding)
  /\ verifyJWT (H := Sample.platform) Sample.cfg Sample.envVerify Sample.reqGarbage
       Sample.storeHolding
     = (Throw (ApiError 401 "Invalid access token" []), Sample.storeHolding).
Proof.
  split.
  - apply (verifyJWT_failures (H := Sample.platform) Sample.cfg Sample.envVerify
             Sample.reqNoCredential Sample.storeHolding).
    reflexivity.
  - apply (proj2 (proj2 (proj2
             (verifyJWT_failures (H := Sample.platform) Sample.cfg Sample.envVerify
                Sample.reqGarbage Sample.storeHolding))) "garbage").
    + reflexivity.
    + discriminate.
    + left. reflexivity.
Defined.

(** ** C8: [validateProjectPermission] *)

Lemma includes_role role roles :
  existsb (String.eqb role) roles = true <-> In role roles.
Proof.
  rewrite existsb_exists. split.
  - intros (x & Hx & Heq). apply String.eqb_eq in Heq. now subst.
  - intros Hin. exists role. split; [exact Hin|apply String.eqb_refl].
Qed.

(** C8 (amended).  [validateProjectPermission(roles)] throws 400 when the
    project id is missing.  A project id that is present but is no
    well-formed ObjectId makes the ObjectId constructor throw, before any
    lookup: that is a BSONError, which the boundary answers with 500, not a
    400.  For a well-formed project id and an authenticated principal: it
    throws 400 when there is no membership tuple for (project, principal);
    when there is one, it throws 403 if the member's role is not among
    [roles], and otherwise passes the request on with the role attached to
    the principal.  In particular, with [roles = ["admin"]] a "member" is
    refused with 403 and an "admin" passes.  The store is never changed. *)
Theorem validateProjectPermission_outcomes `{Platform} roles req s :
  (Js.truthy (Js.get "projectId" (params req)) = false ->
     validateProjectPermission roles req s
     = (Throw (ApiError 400 "project id is missing" []), s))
  /\ (forall p,
        Js.get "projectId" (params req) = Some p -> p <> "" ->
        castObjectId p = None ->
        validateProjectPermission roles req s
        = (Throw (JsError "BSONError" "input must be a 24 character hex string"), s)
        /\ boundaryStatus
             (JsError "BSONError" "input must be a 24 character hex string") = 500)
  /\ forall p project_ principal,
       Js.get "projectId" (params req) = Some p -> p <> "" ->
       castObjectId p = Some project_ ->
       user req = Some principal ->
       (memberOf s project_ (v_id principal) = None ->
          validateProjectPermission roles req s
          = (Throw (ApiError 400 "project not found" []), s))
       /\ (forall m,
             memberOf s project_ (v_id principal) = Some m ->
             (~ In (pm_role m) roles ->
                validateProjectPermission roles req s
                = (Throw (ApiError 403
                            "You do not have permission to perform this action" []), s))
             /\ (In (pm_role m) roles ->
                   validateProjectPermission roles req s
                   = (Ok (set_user (set_role (Some (pm_role m)) principal) req), s))
             /\ (pm_role m = "member" ->
                   validateProjectPermission ["admin"] req s
                   = (Throw (ApiError 403
                               "You do not have permission to perform this action" []), s))
             /\ (pm_role m = "admin" ->
                   validateProjectPermission ["admin"] req s
                   = (Ok (set_user (set_role (Some "admin") principal) req), s))).
Proof.
  split; [|split].
  - intros Hmissing. unfold validateProjectPermission. now rewrite Hmissing.
  - intros p Hp Hne Hcast. split; [|reflexivity].
    unfold validateProjectPermission. rewrite Hp. cbn [Js.truthy].
    destruct (String.eqb_spec p ""); [contradiction|]. cbn [negb option_map].
    now rewrite Hcast.
  - intros p project_ principal Hp Hne Hcast Huser.
    assert (Hrun : forall rs,
               validateProjectPermission rs req s
               = match memberOf s project_ (v_id principal) with
                 | None => (Throw (ApiError 400 "project not found" []), s)
                 | Some m =>
                     if existsb (String.eqb (pm_role m)) rs
                     then (Ok (set_user (set_role (Some (pm_role m)) principal) req), s)
                     else (Throw (ApiError 403
                                    "You do not have permission to perform this action"
                                    []), s)
                 end).
    { intros rs. unfold validateProjectPermission. rewrite Hp. cbn [Js.truthy].
      destruct (String.eqb_spec p ""); [contradiction|]. cbn [negb option_map].
      rewrite Hcast, Huser. unfold bind, findMember.
      destruct (memberOf s project_ (v_id principal)) as [m|]; [|reflexivity].
      now destruct (existsb (String.eqb (pm_role m)) rs). }
    split.
    + intros Hnone. now rewrite Hrun, Hnone.
    + intros m Hm. repeat split.
      * intros Hnot. rewrite Hrun, Hm.
        destruct (existsb _ roles) eqn:E; [|reflexivity].
        now apply includes_role in E.
      * intros Hin. rewrite Hrun, Hm.
        apply includes_role in Hin. now rewrite Hin.
      * intros Hrole. now rewrite Hrun, Hm, Hrole.
      * intros Hrole. now rewrite Hrun, Hm, Hrole.
Qed.

Lemma validateProjectPermission_outcomes_witness :
  validateProjectPermission (H := Sample.platform) ["admin"]
    (Sample.reqProject (_id Sample.bob)) Sample.storeProject
  = (Throw (ApiError 403 "You do not have permission to perform this action" []),
     Sample.storeProject)
  /\ validateProjectPermission (H := Sample.platform) ["admin"]
       (Sample.reqProject Sample.carolId) Sample.storeProject
     = (Ok (set_user (set_role (Some "admin") (Sample.principal Sample.carolId))
                     (Sample.reqProject Sample.carolId)),
        Sample.storeProject)
  /\ validateProjectPermission (H := Sample.platform) ["admin"]
       (Sample.reqProject "64b7f0c2a1d3e4f5a6b7c8d0") Sample.storeProject
     = (Throw (ApiError 400 "project not found" []), Sample.storeProject).
Proof.
  split; [|split].
  - apply (proj2 (proj2 (validateProjectPermission_outcomes (H := Sample.platform)
                           ["admin"] (Sample.reqProject (_id Sample.bob))
                           Sample.storeProject))
             Sample.projectId Sample.projectId (Sample.principal (_id Sample.bob))
             eq_refl ltac:(discriminate) eq_refl eq_refl)
      with (m := mkProjectMember (_id Sample.bob) Sample.projectId "member");
      reflexivity.
  - apply (proj2 (proj2 (validateProjectPermission_outcomes (H := Sample.platform)
                           ["admin"] (Sample.reqProject Sample.carolId)
                           Sample.storeProject))
             Sample.projectId Sample.projectId (Sample.principal Sample.carolId)
             eq_refl ltac:(discriminate) eq_refl eq_refl)
      with (m := mkProjectMember Sample.carolId Sample.projectId "admin");
      reflexivity.
  - apply (proj2 (proj2 (validateProjectPermission_outcomes (H := Sample.platform)
                           ["admin"] (Sample.reqProject "64b7f0c2a1d3e4f5a6b7c8d0")
                           Sample.storeProject))
             Sample.projectId Sample.projectId
             (Sample.principal "64b7f0c2a1d3e4f5a6b7c8d0")
             eq_refl ltac:(discriminate) eq_refl eq_refl).
    reflexivity.
Defined.

(** C8 as stated fails: for the project id "xyz" there is no membership
    tuple, of anybody, and the request of the admin carol is not refused
    with a 400: the ObjectId constructor throws. *)
Lemma validateProjectPermission_malformed_projectId :
  existsb (fun m => String.eqb (pm_project m) "xyz") (members Sample.storeProject)
  = false
  /\ validateProjectPermission (H := Sample.platform) ["admin"]
       Demo.reqMalformedProject Sample.storeProject
     = (Throw (JsError "BSONError" "input must be a 24 character hex string"),
        Sample.storeProject)
  /\ boundaryStatus (JsError "BSONError" "input must be a 24 character hex string")
     <> 400.
Proof. repeat split. discriminate. Qed.

(** ** C9: a password change by a user whose record is gone *)

(** C9.  When the record of the authenticated user is no longer in the
    store, [changeCurrentPassword] does not throw a 404 error: the lookup
    yields null, the call of [isPasswordCorrect] on it throws a TypeError,
    the wrapper passes that to [next], the boundary answers 500, and the
    store is what it was. *)
Theorem changeCurrentPassword_vanished_user `{Platform} env req s :
  (forall principal, user req = Some principal ->
     find (has_id (v_id principal)) (users s) = None) ->
  asyncHandler (changeCurrentPassword env req) s = (NextErr nullDereference, s)
  /\ boundaryStatus nullDereference = 500
  /\ boundaryStatus nullDereference <> 404.
Proof.
  intros Hgone. split; [|split; [reflexivity|discriminate]].
  unfold asyncHandler, changeCurrentPassword, bind.
  destruct (user req) as [principal|].
  - unfold findById. rewrite findOne_run, (Hgone principal eq_refl). reflexivity.
  - reflexivity.
Qed.

Lemma changeCurrentPassword_vanished_user_witness :
  asyncHandler (changeCurrentPassword (H := Sample.platform) Sample.envVerify
                  Sample.reqChange) Sample.storeHolding
  = (NextErr nullDereference, Sample.storeHolding).
Proof.
  apply (changeCurrentPassword_vanished_user (H := Sample.platform)
           Sample.envVerify Sample.reqChange Sample.storeHolding).
  intros principal [= <-]. reflexivity.
Defined.

(* ------------------------------------------------------------------ *)
(** * Further properties of the controllers and the routes *)
(* ------------------------------------------------------------------ *)

(** ** Rules for pre- and postconditions *)

Lemma triple_ret {A : Type} (P : Store -> Prop) (a : A) Q E :
  (forall s, P s -> Q a s) -> triple P (ret a) Q E.
Proof. intros HQ s Hs. cbn. auto. Qed.

Lemma triple_throw {A : Type} (P : Store -> Prop) e (Q : A -> Store -> Prop) E :
  (forall s, P s -> E e s) -> triple P (throw e) Q E.
Proof. intros HE s Hs. cbn. auto. Qed.

Lemma triple_bind {A B : Type} P (m : M A) (k : A -> M B) Q R E :
  triple P m Q E -> (forall a, triple (Q a) (k a) R E) -> triple P (bind m k) R E.
Proof.
  intros Hm Hk s Hs. unfold bind. specialize (Hm s Hs).
  destruct (m s) as [[a|e] s1]; [|exact Hm]. exact (Hk a s1 Hm).
Qed.

Lemma triple_try_catch {A : Type} P (m : M A) h Q E' E :
  triple P m Q E' -> (forall e, triple (E' e) (h e) Q E) ->
  triple P (try_catch m h) Q E.
Proof.
  intros Hm Hh s Hs. unfold try_catch. specialize (Hm s Hs).
  destruct (m s) as [[a|e] s1]; [exact Hm|]. exact (Hh e s1 Hm).
Qed.

Lemma triple_lift {A : Type} (P : Store -> Prop) (r : Result A) Q E :
  (forall s, P s -> match r with Ok a => Q a s | Throw e => E e s end) ->
  triple P (lift r) Q E.
Proof. intros Hr s Hs. specialize (Hr s Hs). now destruct r. Qed.

Lemma triple_weaken {A : Type} (P P' : Store -> Prop) (m : M A) (Q Q' : A -> Store -> Prop)
    (E E' : Exn -> Store -> Prop) :
  triple P' m Q' E' ->
  (forall s, P s -> P' s) -> (forall a s, Q' a s -> Q a s) ->
  (forall e s, E' e s -> E e s) ->
  triple P m Q E.
Proof.
  intros Hm HP HQ HE s Hs. specialize (Hm s (HP s Hs)).
  destruct (m s) as [[a|e] s1]; auto.
Qed.

(** ** What every controller keeps *)

Lemma NoDup_snoc {A : Type} (l : list A) (a : A) :
  NoDup l -> ~ In a l -> NoDup (l ++ [a]).
Proof.
  induction 1 as [|x l Hx Hl IH]; cbn; intros Ha.
  - constructor; [tauto|constructor].
  - constructor.
    + rewrite in_app_iff. cbn. intros [Hin|[->|[]]]; tauto.
    + apply IH. tauto.
Qed.

Lemma updateById_map_stable {B : Type} (f : User -> B) d us :
  (forall u, f (writePaths d u) = f u) ->
  map f (updateById d us) = map f us.
Proof.
  intros Hf. unfold updateById. rewrite map_map. apply map_ext.
  intros u. destruct (has_id _ u); [apply Hf|reflexivity].
Qed.

Lemma writePaths_unverified d u :
  unverified (fields d) -> unverified u -> unverified (writePaths d u).
Proof.
  intros (Hd1 & Hd2 & Hd3) (Hu1 & Hu2 & Hu3). unfold unverified.
  rewrite writePaths_emailVerificationToken, writePaths_forgotPasswordToken,
    writePaths_isEmailVerified.
  repeat split;
    match goal with |- (if ?b then _ else _) = _ => destruct b end; assumption.
Qed.

Lemma updateById_kept d s :
  kept s -> unverified (fields d) -> kept (with_users (updateById d (users s)) s).
Proof.
  intros [(Hid & Hname & Hmail) Hall] Hd. unfold kept, uniqueIdentities.
  cbn [users with_users].
  rewrite !updateById_map_stable
    by (intros; auto using writePaths_id, writePaths_username, writePaths_email).
  repeat split; auto.
  unfold updateById. apply Forall_map. revert Hall. apply Forall_impl.
  intros u Hu. destruct (has_id _ u); [now apply writePaths_unverified|exact Hu].
Qed.

Section Keeping.
Context `{Platform}.

Lemma assign_unverified {A : Type} eqb (getter : User -> A) setter path v d :
  (forall u, unverified u -> unverified (setter v u)) ->
  unverified (fields d) -> unverified (fields (assign eqb getter setter path v d)).
Proof.
  intros Hs Hd. unfold assign. destruct (eqb v (getter (fields d))); [exact Hd|].
  cbn. now apply Hs.
Qed.

Lemma preSave_unverified salt d dh :
  preSave salt d = Ok dh -> unverified (fields d) -> unverified (fields dh).
Proof.
  unfold preSave. destruct (negb (isModified "password" d)).
  - now intros [= <-].
  - destruct (password (fields d)); [|discriminate]. now intros [= <-].
Qed.

Lemma keeps_findOne q :
  keeps (fun od => forall d, od = Some d -> unverified (fields d)) (findOne q).
Proof.
  intros s Hs. rewrite findOne_run. split; [exact Hs|].
  intros d Hd. destruct (find q (users s)) as [u|] eqn:Hu; [|discriminate].
  injection Hd as <-. apply find_some in Hu as [Hin _].
  destruct Hs as [_ Hall]. rewrite Forall_forall in Hall. now apply Hall.
Qed.

Lemma keeps_save v env d :
  unverified (fields d) -> keeps (fun d' => unverified (fields d')) (save v env d).
Proof.
  intros Hd s Hs. destruct (save v env d s) as [[d'|e] s'] eqn:Hsave.
  - apply save_ok in Hsave as (dh & Hpre & Hcases).
    pose proof (preSave_unverified _ _ _ Hpre Hd) as Hdh.
    destruct Hcases as [(_ & -> & ->)|(_ & -> & -> & _)]; split; auto.
    now apply updateById_kept.
  - revert Hsave. unfold save. destruct (v && negb (validate (fields d))).
    + now intros [= _ <-].
    + unfold bind, lift. destruct (preSave (bcryptSalt env) d) as [dh|e0]; cbn.
      * destruct (modifiedPaths dh); cbn; [discriminate|].
        destruct (existsb _ (users s)); [discriminate|]. now intros [= _ <-].
      * now intros [= _ <-].
Qed.

Lemma keeps_create env em pw un :
  keeps (fun d => unverified (fields d)) (create env em pw un).
Proof.
  intros s Hs. destruct (create env em pw un s) as [[d|e] s'] eqn:Hcreate.
  - revert Hcreate. unfold create.
    destruct em as [e|]; [|discriminate].
    destruct pw as [p|]; [|discriminate].
    destruct un as [n|]; [|discriminate].
    match goal with |- context [negb (validate ?f)] => destruct (validate f) end;
      cbn [negb]; [|discriminate].
    unfold bind, lift, preSave, isModified.
    cbn [modifiedPaths existsb String.eqb Ascii.eqb Bool.eqb orb negb fields password ret
         set_password _id username email fullName isEmailVerified refreshToken
         forgotPasswordToken forgotPasswordExpiry emailVerificationToken
         emailVerificationExpiry load].
    match goal with
    | |- context [existsb ?q (users s)] => destruct (existsb q (users s)) eqn:Hdup
    end; [discriminate|].
    intros [= <- <-]. split; [|repeat split].
    destruct Hs as [(Hid & Hname & Hmail) Hall].
    assert (Hfresh : forall x, In x (users s) ->
              _id x <> newObjectId env /\ username x <> normalise n
              /\ email x <> normalise e).
    { intros x Hx.
      assert (Hnone : ~ exists y, In y (users s) /\
                (has_id (newObjectId env) y || String.eqb (username y) (normalise n)
                 || String.eqb (email y) (normalise e)) = true)
        by (rewrite <- existsb_exists, Hdup; discriminate).
      repeat split; intros Heq; apply Hnone; exists x; (split; [exact Hx|]);
        unfold has_id; cbn [_id]; rewrite Heq, String.eqb_refl;
        rewrite ?orb_true_r; reflexivity. }
    unfold kept, uniqueIdentities. cbn [users with_users].
    rewrite !map_app. cbn [map _id username email set_password].
    repeat split.
    + apply NoDup_snoc; [exact Hid|]. rewrite in_map_iff.
      intros (x & Hx & Hin). destruct (Hfresh x Hin) as (? & ? & ?). congruence.
    + apply NoDup_snoc; [exact Hname|]. rewrite in_map_iff.
      intros (x & Hx & Hin). destruct (Hfresh x Hin) as (? & ? & ?). congruence.
    + apply NoDup_snoc; [exact Hmail|]. rewrite in_map_iff.
      intros (x & Hx & Hin). destruct (Hfresh x Hin) as (? & ? & ?). congruence.
    + apply Forall_app. split; [exact Hall|]. constructor; [|constructor].
      repeat split.
  - revert Hcreate. unfold create.
    destruct em as [e0|]; [|now intros [= _ <-]].
    destruct pw as [p|]; [|now intros [= _ <-]].
    destruct un as [n|]; [|now intros [= _ <-]].
    match goal with |- context [negb (validate ?f)] => destruct (validate f) end;
      cbn [negb]; [|now intros [= _ <-]].
    unfold bind, lift, preSave, isModified.
    cbn [modifiedPaths existsb String.eqb Ascii.eqb Bool.eqb orb negb fields password ret].
    match goal with
    | |- context [existsb ?q (users s)] => destruct (existsb q (users s))
    end; [now intros [= _ <-]|discriminate].
Qed.

Lemma keeps_sendEmail to subject name link :
  keeps (fun _ => True) (sendEmail to subject name link).
Proof. intros s Hs. cbn. split; [exact Hs|exact I]. Qed.

End Keeping.

Lemma keeps_ret {A : Type} (Q : A -> Prop) a : Q a -> keeps Q (ret a).
Proof. intros Ha. apply triple_ret. auto. Qed.

Lemma keeps_throw {A : Type} (Q : A -> Prop) e : keeps Q (throw e).
Proof. apply triple_throw. auto. Qed.

Lemma keeps_bind {A B : Type} (m : M A) (k : A -> M B) Q R :
  keeps Q m -> (forall a, Q a -> keeps R (k a)) -> keeps R (bind m k).
Proof.
  intros Hm Hk. eapply triple_bind; [exact Hm|].
  intros a s [Hs Ha]. exact (Hk a Ha s Hs).
Qed.

Lemma keeps_try_catch {A : Type} (m : M A) h (Q : A -> Prop) :
  keeps Q m -> (forall e, keeps Q (h e)) -> keeps Q (try_catch m h).
Proof. intros Hm Hh. eapply triple_try_catch; [exact Hm|exact Hh]. Qed.

Lemma keeps_lift {A : Type} (r : Result A) (Q : A -> Prop) :
  (forall a, r = Ok a -> Q a) -> keeps Q (lift r).
Proof. intros Hr. apply triple_lift. intros s Hs. destruct r; auto. Qed.

Lemma keeps_weaken {A : Type} (m : M A) (Q Q' : A -> Prop) :
  keeps Q m -> (forall a, Q a -> Q' a) -> keeps Q' m.
Proof.
  intros Hm HQ. eapply triple_weaken; [exact Hm|auto|cbn; intuition|auto].
Qed.

Ltac solve_unverified :=
  repeat (apply assign_unverified;
          [intros ? (? & ? & ?); unfold unverified; cbn;
           repeat split; assumption || reflexivity|]);
  auto.

Section Controllers_keep.
Context `{Platform}.
Variable cfg : Config.
Variable env : Env.

Lemma keeps_findById id :
  keeps (fun od => forall d, od = Some d -> unverified (fields d)) (findById id).
Proof. apply keeps_findOne. Qed.

Lemma keeps_tokens id :
  keeps (fun _ => True) (generateAccessAndRefreshTokens cfg env id).
Proof.
  unfold generateAccessAndRefreshTokens. apply keeps_try_catch; [|intros; apply keeps_throw].
  eapply keeps_bind; [apply keeps_findById|]. intros [user|] Huser; [|apply keeps_throw].
  eapply keeps_bind; [apply keeps_save; solve_unverified|].
  intros _ _. now apply keeps_ret.
Qed.

Lemma keeps_registerUser req : keeps (fun _ => True) (registerUser env req).
Proof.
  unfold registerUser. eapply keeps_bind; [apply keeps_findOne|].
  intros [existed|] _; [apply keeps_throw|].
  eapply keeps_bind; [apply keeps_create|]. intros user Huser.
  eapply keeps_bind; [apply keeps_save; solve_unverified|]. intros saved _.
  eapply keeps_bind; [apply keeps_sendEmail|]. intros _ _.
  eapply keeps_bind; [apply keeps_findById|].
  intros [created|] _; [now apply keeps_ret|apply keeps_throw].
Qed.

Lemma keeps_login req : keeps (fun _ => True) (login cfg env req).
Proof.
  unfold login. destruct (negb (Js.truthy _)); [apply keeps_throw|].
  eapply keeps_bind; [apply keeps_findOne|].
  intros [user|] _; [|apply keeps_throw].
  eapply keeps_bind; [apply keeps_lift with (Q := fun _ => True); auto|].
  intros valid _. destruct (negb valid); [apply keeps_throw|].
  eapply keeps_bind; [apply keeps_tokens|]. intros tokens _.
  eapply keeps_bind; [apply keeps_findById|]. intros logged _. now apply keeps_ret.
Qed.

Lemma keeps_logoutUser req : keeps (fun _ => True) (logoutUser req).
Proof.
  unfold logoutUser. destruct (user req) as [principal|]; [|apply keeps_throw].
  eapply keeps_bind with (Q := fun _ => True); [|intros; now apply keeps_ret].
  intros s [(Hid & Hname & Hmail) Hall]. unfold findByIdAndUpdate_refreshToken.
  split; [|exact I]. unfold kept, uniqueIdentities. cbn [users with_users].
  rewrite !map_map.
  rewrite (map_ext (fun u => _id (if has_id _ u then _ else u)) _id)
    by (intros u; now destruct (has_id _ u)).
  rewrite (map_ext (fun u => username (if has_id _ u then _ else u)) username)
    by (intros u; now destruct (has_id _ u)).
  rewrite (map_ext (fun u => email (if has_id _ u then _ else u)) email)
    by (intros u; now destruct (has_id _ u)).
  repeat split; auto.
  apply Forall_map. revert Hall. apply Forall_impl.
  intros u Hu. now destruct (has_id _ u).
Qed.

Lemma keeps_getCurrentUser req : keeps (fun _ => True) (getCurrentUser req).
Proof. now apply keeps_ret. Qed.

Lemma no_holder token expiry h us :
  (forall u, In u us -> token u = None) ->
  find (holds env token expiry h) us = None.
Proof.
  intros Hnone. apply find_none_iff. intros u Hu. unfold holds.
  now rewrite (Hnone u Hu).
Qed.

(** In a store where no record holds a verification hash, [verifyEmail]
    throws on every request and changes nothing. *)
Lemma verifyEmail_without_hash req s :
  (forall u, In u (users s) -> emailVerificationToken u = None) ->
  exists e, verifyEmail env req s = (Throw e, s) /\ boundaryStatus e = 400.
Proof.
  intros Hnone. unfold verifyEmail.
  destruct (Js.get "verificationToken" (params req)) as [token|];
    [|eexists; split; reflexivity].
  destruct (String.eqb token ""); [eexists; split; reflexivity|].
  unfold bind. rewrite findOne_run, no_holder by exact Hnone.
  eexists; split; reflexivity.
Qed.

(** Likewise for [resetForgotPassword]. *)
Lemma resetForgotPassword_without_hash req s :
  (forall u, In u (users s) -> forgotPasswordToken u = None) ->
  exists e, resetForgotPassword env req s = (Throw e, s)
            /\ (boundaryStatus e = 489 \/ boundaryStatus e = 500).
Proof.
  intros Hnone. unfold resetForgotPassword.
  destruct (Js.get "resetToken" (params req)) as [token|];
    [|eexists; split; [reflexivity|now right]].
  unfold bind. rewrite findOne_run, no_holder by exact Hnone.
  eexists; split; [reflexivity|now left].
Qed.

Lemma kept_no_hash s :
  kept s ->
  (forall u, In u (users s) -> emailVerificationToken u = None)
  /\ (forall u, In u (users s) -> forgotPasswordToken u = None).
Proof.
  intros [_ Hall]. rewrite Forall_forall in Hall.
  split; intros u Hu; now destruct (Hall u Hu) as (? & ? & ?).
Qed.

Lemma keeps_verifyEmail req : keeps (fun _ => True) (verifyEmail env req).
Proof.
  intros s Hs.
  destruct (verifyEmail_without_hash req s (proj1 (kept_no_hash s Hs))) as (e & -> & _).
  exact Hs.
Qed.

Lemma keeps_resetForgotPassword req :
  keeps (fun _ => True) (resetForgotPassword env req).
Proof.
  intros s Hs.
  destruct (resetForgotPassword_without_hash req s (proj2 (kept_no_hash s Hs)))
    as (e & -> & _).
  exact Hs.
Qed.

Lemma keeps_resendEmailVerification req :
  keeps (fun _ => True) (resendEmailVerification env req).
Proof.
  unfold resendEmailVerification.
  eapply keeps_bind
    with (Q := fun od => forall d, od = Some d -> unverified (fields d)).
  { destruct (user req); [apply keeps_findById|]. apply keeps_ret. discriminate. }
  intros [user|] Huser; [|apply keeps_throw].
  destruct (isEmailVerified (fields user)); [apply keeps_throw|].
  eapply keeps_bind; [apply keeps_save; solve_unverified|]. intros saved _.
  eapply keeps_bind; [apply keeps_sendEmail|]. intros _ _. now apply keeps_ret.
Qed.

Lemma keeps_refreshAccessToken req :
  keeps (fun _ => True) (refreshAccessToken cfg env req).
Proof.
  unfold refreshAccessToken.
  destruct (incomingRefreshToken req) as [incoming|]; [|apply keeps_throw].
  destruct (String.eqb incoming ""); [apply keeps_throw|].
  apply keeps_try_catch; [|intros; apply keeps_throw].
  eapply keeps_bind; [apply keeps_lift with (Q := fun _ => True); auto|].
  intros decoded _.
  eapply keeps_bind
    with (Q := fun od => forall d, od = Some d -> unverified (fields d)).
  { unfold findByIdString. destruct (castObjectId _); [apply keeps_findById|].
    apply keeps_throw. }
  intros [user|] Huser; [|apply keeps_throw].
  destruct (negb _); [apply keeps_throw|].
  eapply keeps_bind; [apply keeps_tokens|]. intros tokens _.
  eapply keeps_bind; [apply keeps_save; solve_unverified|].
  intros _ _. now apply keeps_ret.
Qed.

Lemma keeps_forgotPasswordRequest req :
  keeps (fun _ => True) (forgotPasswordRequest cfg env req).
Proof.
  unfold forgotPasswordRequest. eapply keeps_bind; [apply keeps_findOne|].
  intros [user|] Huser; [|apply keeps_throw].
  eapply keeps_bind; [apply keeps_save; solve_unverified|]. intros saved _.
  eapply keeps_bind; [apply keeps_sendEmail|]. intros _ _. now apply keeps_ret.
Qed.

Lemma keeps_changeCurrentPassword req :
  keeps (fun _ => True) (changeCurrentPassword env req).
Proof.
  unfold changeCurrentPassword.
  eapply keeps_bind
    with (Q := fun od => forall d, od = Some d -> unverified (fields d)).
  { destruct (user req); [apply keeps_findById|]. apply keeps_ret. discriminate. }
  intros [user|] Huser; [|apply keeps_throw].
  eapply keeps_bind; [apply keeps_lift with (Q := fun _ => True); auto|].
  intros valid _. destruct (negb valid); [apply keeps_throw|].
  eapply keeps_bind; [apply keeps_save; solve_unverified|].
  intros _ _. now apply keeps_ret.
Qed.

(** Every controller run keeps the invariant, whatever the request. *)
Lemma storeAfter_kept c req s : kept s -> kept (storeAfter cfg env c req s).
Proof.
  intros Hs. destruct c; cbn [storeAfter].
  - pose proof (keeps_registerUser req s Hs) as Hk.
    destruct (registerUser env req s) as [[a|e] s']; cbn; tauto.
  - pose proof (keeps_login req s Hs) as Hk.
    destruct (login cfg env req s) as [[a|e] s']; cbn; tauto.
  - pose proof (keeps_logoutUser req s Hs) as Hk.
    destruct (logoutUser req s) as [[a|e] s']; cbn; tauto.
  - exact Hs.
  - pose proof (keeps_verifyEmail req s Hs) as Hk.
    destruct (verifyEmail env req s) as [[a|e] s']; cbn; tauto.
  - pose proof (keeps_resendEmailVerification req s Hs) as Hk.
    destruct (resendEmailVerification env req s) as [[a|e] s']; cbn; tauto.
  - pose proof (keeps_refreshAccessToken req s Hs) as Hk.
    destruct (refreshAccessToken cfg env req s) as [[a|e] s']; cbn; tauto.
  - pose proof (keeps_forgotPasswordRequest req s Hs) as Hk.
    destruct (forgotPasswordRequest cfg env req s) as [[a|e] s']; cbn; tauto.
  - pose proof (keeps_resetForgotPassword req s Hs) as Hk.
    destruct (resetForgotPassword env req s) as [[a|e] s']; cbn; tauto.
  - pose proof (keeps_changeCurrentPassword req s Hs) as Hk.
    destruct (changeCurrentPassword env req s) as [[a|e] s']; cbn; tauto.
Qed.

End Controllers_keep.

Lemma reachable_kept `{Platform} cfg s : reachable cfg s -> kept s.
Proof.
  induction 1 as [ms out|s env c req _ IH].
  - repeat split; constructor.
  - now apply storeAfter_kept.
Qed.

(** ** What a save does to the collection *)

Lemma user_ext (a b : User) :
  _id a = _id b -> username a = username b -> email a = email b ->
  fullName a = fullName b -> password a = password b ->
  isEmailVerified a = isEmailVerified b -> refreshToken a = refreshToken b ->
  forgotPasswordToken a = forgotPasswordToken b ->
  forgotPasswordExpiry a = forgotPasswordExpiry b ->
  emailVerificationToken a = emailVerificationToken b ->
  emailVerificationExpiry a = emailVerificationExpiry b ->
  a = b.
Proof. destruct a, b; cbn; intros; subst; reflexivity. Qed.

Lemma copyPath_fullName src p u : fullName (copyPath src p u) = fullName u.
Proof.
  unfold copyPath.
  repeat match goal with |- context [if ?b then _ else _] => destruct b end; reflexivity.
Qed.

Lemma writePaths_fullName d u : fullName (writePaths d u) = fullName u.
Proof.
  unfold writePaths. induction (modifiedPaths d) as [|p l IH]; simpl; [reflexivity|].
  now rewrite copyPath_fullName.
Qed.

(** Written to the record it agrees with, a document gives its own fields. *)
Lemma writePaths_agrees d u : agrees d u -> writePaths d u = fields d.
Proof.
  intros (Hid & Hname & Hmail & Hfull & Hpw & Hver & Hrt & Hft & Hfe & Hvt & Hve).
  apply user_ext;
    rewrite ?writePaths_id, ?writePaths_username, ?writePaths_email,
      ?writePaths_fullName, ?writePaths_password, ?writePaths_isEmailVerified,
      ?writePaths_refreshToken, ?writePaths_forgotPasswordToken,
      ?writePaths_forgotPasswordExpiry, ?writePaths_emailVerificationToken,
      ?writePaths_emailVerificationExpiry;
    try (symmetry; assumption);
    match goal with
    | |- (if ?b then _ else _) = _ => destruct b eqn:E; [reflexivity|symmetry; auto]
    end.
Qed.

Lemma agrees_load u : agrees (load u) u.
Proof. repeat split. Qed.

Lemma agrees_assign {A : Type} eqb (getter : User -> A) setter path v d u :
  agrees d u ->
  agrees (mkDoc (setter v (fields d)) (path :: modifiedPaths d)) u ->
  agrees (assign eqb getter setter path v d) u.
Proof. intros Hd Hnew. unfold assign. now destruct (eqb v (getter (fields d))). Qed.

Ltac agrees_step :=
  apply agrees_assign; [assumption|];
  match goal with
  | H : agrees _ _ |- _ =>
      destruct H as (? & ? & ? & ? & ? & ? & ? & ? & ? & ? & ?);
      unfold agrees, isModified in *; cbn in *;
      repeat split; auto; discriminate
  end.

Lemma agrees_assign_password v d u : agrees d u -> agrees (assign_password v d) u.
Proof. intros Hd. unfold assign_password. agrees_step. Qed.

Lemma agrees_assign_isEmailVerified v d u :
  agrees d u -> agrees (assign_isEmailVerified v d) u.
Proof. intros Hd. unfold assign_isEmailVerified. agrees_step. Qed.

Lemma agrees_assign_refreshToken v d u :
  agrees d u -> agrees (assign_refreshToken v d) u.
Proof. intros Hd. unfold assign_refreshToken. agrees_step. Qed.

Lemma agrees_assign_forgotPasswordToken v d u :
  agrees d u -> agrees (assign_forgotPasswordToken v d) u.
Proof. intros Hd. unfold assign_forgotPasswordToken. agrees_step. Qed.

Lemma agrees_assign_forgotPasswordExpiry v d u :
  agrees d u -> agrees (assign_forgotPasswordExpiry v d) u.
Proof. intros Hd. unfold assign_forgotPasswordExpiry. agrees_step. Qed.

Lemma agrees_assign_emailVerificationToken v d u :
  agrees d u -> agrees (assign_emailVerificationToken v d) u.
Proof. intros Hd. unfold assign_emailVerificationToken. agrees_step. Qed.

Lemma agrees_assign_emailVerificationExpiry v d u :
  agrees d u -> agrees (assign_emailVerificationExpiry v d) u.
Proof. intros Hd. unfold assign_emailVerificationExpiry. agrees_step. Qed.

Create HintDb agrees.

#[local] Hint Resolve agrees_load agrees_assign_password agrees_assign_isEmailVerified
  agrees_assign_refreshToken agrees_assign_forgotPasswordToken
  agrees_assign_forgotPasswordExpiry agrees_assign_emailVerificationToken
  agrees_assign_emailVerificationExpiry : agrees.

Lemma NoDup_id_unique (us : list User) a b :
  NoDup (map _id us) -> In a us -> In b us -> _id a = _id b -> a = b.
Proof.
  induction us as [|x us IH]; cbn; [tauto|].
  intros Hnd [->|Ha] [->|Hb] Hid; inversion Hnd as [|? ? Hx Hus]; subst; auto.
  - exfalso. apply Hx. rewrite Hid. now apply in_map.
  - exfalso. apply Hx. rewrite <- Hid. now apply in_map.
Qed.


Section Save_effect.
Context `{Platform}.

Lemma preSave_agrees salt d dh u :
  preSave salt d = Ok dh -> agrees d u -> agrees dh u.
Proof.
  unfold preSave. destruct (negb (isModified "password" d)) eqn:Hmod.
  - now intros [= <-].
  - destruct (password (fields d)); [|discriminate]. intros [= <-].
    apply negb_false_iff in Hmod.
    intros (? & ? & ? & ? & ? & ? & ? & ? & ? & ? & ?).
    repeat split; auto. intros Hno.
    change (isModified "password" d = false) in Hno. congruence.
Qed.

(** A save that returns, of a document that agrees with a record of a
    collection with unique [_id]s, replaces that record by the fields of
    the saved document, and touches nothing else. *)
Lemma save_effect v env d s d' s' u :
  NoDup (map _id (users s)) -> In u (users s) -> agrees d u ->
  save v env d s = (Ok d', s') ->
  preSave (bcryptSalt env) d = Ok (mkDoc (fields d') (modifiedPaths d))
  /\ s' = with_users (replaceUser (fields d') (users s)) s.
Proof.
  intros Hnd Hu Hd Hsave.
  pose proof Hsave as Hstore. apply save_ok_store in Hstore as (dh & Hpre & ->).
  apply save_ok in Hsave as (dh' & Hpre' & Hcases).
  rewrite Hpre in Hpre'. injection Hpre' as <-.
  destruct (preSave_paths _ _ _ Hpre) as [Hpaths Hid].
  assert (Hfields : fields d' = fields dh)
    by (destruct Hcases as [(_ & -> & _)|(_ & -> & _)]; reflexivity).
  split.
  - rewrite Hfields, <- Hpaths. now destruct dh.
  - f_equal. unfold updateById, replaceUser. apply map_ext_in. intros x Hx.
    rewrite Hfields. destruct (has_id (_id (fields dh)) x) eqn:Hsame; [|reflexivity].
    pose proof (preSave_agrees _ _ _ _ Hpre Hd) as Hdh.
    assert (x = u).
    { apply (NoDup_id_unique (users s)); auto.
      apply String.eqb_eq in Hsame. destruct Hdh as (Hi & _). congruence. }
    subst x. now apply writePaths_agrees.
Qed.

(** A save without validation of a document whose password path is not
    modified, and whose record exists, returns. *)
Lemma save_unvalidated_runs env d s :
  isModified "password" d = false ->
  existsb (has_id (_id (fields d))) (users s) = true ->
  exists d', save false env d s = (Ok d', with_users (updateById d (users s)) s)
             /\ fields d' = fields d.
Proof.
  intros Hpw Hex. unfold save, bind, lift. cbn [andb].
  rewrite (preSave_unmodified _ _ Hpw). cbn [ret].
  destruct (modifiedPaths d) eqn:Hpaths.
  - exists d. rewrite updateById_nil, with_users_same by exact Hpaths. auto.
  - rewrite Hex. eexists. split; reflexivity.
Qed.

End Save_effect.

(** ** login *)

Lemma option_eqb_Z_true a b : option_eqb Z.eqb a b = true -> a = b.
Proof.
  destruct a, b; cbn; try discriminate; auto.
  intros E. apply Z.eqb_eq in E. now subst.
Qed.

Lemma fields_assign_refreshToken v d :
  fields (assign_refreshToken v d) = set_refreshToken v (fields d).
Proof.
  unfold assign_refreshToken, assign.
  destruct (option_eqb String.eqb v (refreshToken (fields d))) eqn:E; [|reflexivity].
  apply option_eqb_string_true in E. destruct (fields d); cbn in *. now subst.
Qed.

Lemma fields_assign_password v d :
  fields (assign_password v d) = set_password v (fields d).
Proof.
  unfold assign_password, assign.
  destruct (option_eqb String.eqb v (password (fields d))) eqn:E; [|reflexivity].
  apply option_eqb_string_true in E. destruct (fields d); cbn in *. now subst.
Qed.



Lemma fields_assign_forgotPasswordToken v d :
  fields (assign_forgotPasswordToken v d) = set_forgotPasswordToken v (fields d).
Proof.
  unfold assign_forgotPasswordToken, assign.
  destruct (option_eqb String.eqb v (forgotPasswordToken (fields d))) eqn:E;
    [|reflexivity].
  apply option_eqb_string_true in E. destruct (fields d); cbn in *. now subst.
Qed.

Lemma fields_assign_forgotPasswordExpiry v d :
  fields (assign_forgotPasswordExpiry v d) = set_forgotPasswordExpiry v (fields d).
Proof.
  unfold assign_forgotPasswordExpiry, assign.
  destruct (option_eqb Z.eqb v (forgotPasswordExpiry (fields d))) eqn:E;
    [|reflexivity].
  apply option_eqb_Z_true in E. destruct (fields d); cbn in *. now subst.
Qed.

Lemma find_own_id us (u : User) :
  In u us -> exists u1, find (has_id (_id u)) us = Some u1 /\ _id u1 = _id u.
Proof.
  intros Hu. destruct (find (has_id (_id u)) us) as [u1|] eqn:Hfind.
  - exists u1. split; [reflexivity|].
    apply find_some in Hfind as [_ Hid]. now apply String.eqb_eq in Hid.
  - apply (find_none _ _ Hfind) in Hu. unfold has_id in Hu.
    rewrite String.eqb_refl in Hu. discriminate.
Qed.

Section Login.
Context `{Platform}.
Variable cfg : Config.
Variable env : Env.

(** For a user the collection has, the token pair is issued and the
    refresh token written to the record. *)
Lemma tokens_run id s u :
  find (has_id id) (users s) = Some u ->
  generateAccessAndRefreshTokens cfg env id s
  = (Ok (generateAccessToken cfg env (load u), generateRefreshToken cfg env (load u)),
     with_users
       (updateById (assign_refreshToken (Some (generateRefreshToken cfg env (load u)))
                                        (load u)) (users s)) s).
Proof.
  intros Hfind. unfold generateAccessAndRefreshTokens, try_catch, bind at 1, findById.
  rewrite findOne_run, Hfind. cbn [option_map].
  set (d := assign_refreshToken _ (load u)).
  destruct (save_unvalidated_runs env d s) as (d' & Hsave & _).
  - subst d. unfold assign_refreshToken. now rewrite isModified_assign.
  - subst d. unfold assign_refreshToken. rewrite assign_id by reflexivity. cbn.
    pose proof (find_some _ _ Hfind) as [_ Hid]. apply String.eqb_eq in Hid.
    rewrite Hid. exact (find_some_existsb _ _ _ Hfind).
  - unfold bind. now rewrite Hsave.
Qed.


Lemma updateById_replace d us u :
  NoDup (map _id us) -> In u us -> agrees d u ->
  updateById d us = replaceUser (fields d) us.
Proof.
  intros Hnd Hu Hd. unfold updateById, replaceUser. apply map_ext_in. intros x Hx.
  destruct (has_id (_id (fields d)) x) eqn:Hsame; [|reflexivity].
  assert (x = u).
  { apply (NoDup_id_unique us); auto.
    apply String.eqb_eq in Hsame. destruct Hd as (Hi & _). congruence. }
  subst x. now apply writePaths_agrees.
Qed.

(** The outcome of [login], case by case. *)
Lemma login_run req s :
  login cfg env req s
  = match Js.get "email" (body req) with
    | None => (Throw (ApiError 400 "Email is required" []), s)
    | Some e =>
        if String.eqb e "" then (Throw (ApiError 400 "Email is required" []), s)
        else
          match find (fun u => matches (Some e) (email u)) (users s) with
          | None => (Throw (ApiError 400 "User does not exist" []), s)
          | Some u =>
              match isPasswordCorrect (load u) (Js.get "password" (body req)) with
              | Throw x => (Throw x, s)
              | Ok false => (Throw (ApiError 400 "Invalid credentials" []), s)
              | Ok true =>
                  match find (has_id (_id u)) (users s) with
                  | Some u1 =>
                      (Ok (loginResponse cfg env u1),
                       with_users
                         (updateById
                            (assign_refreshToken
                               (Some (generateRefreshToken cfg env (load u1))) (load u1))
                            (users s)) s)
                  | None =>
                      (Throw (ApiError 500
                                "Something went wrong while generating access token" []),
                       s)
                  end
              end
          end
    end.
Proof.
  unfold login. destruct (Js.get "email" (body req)) as [e|]; [|reflexivity].
  cbn [Js.truthy]. destruct (String.eqb e ""); [reflexivity|]. cbn [negb].
  unfold bind at 1. rewrite findOne_run.
  destruct (find _ (users s)) as [u|]; [|reflexivity]. cbn [option_map].
  unfold bind at 1, lift.
  destruct (isPasswordCorrect (load u) _) as [[|]|x]; [|reflexivity|reflexivity].
  cbn [ret negb fields load]. unfold bind at 1.
  destruct (find (has_id (_id u)) (users s)) as [u1|] eqn:Hu1.
  - rewrite (tokens_run _ _ _ Hu1). cbn [fst snd].
    unfold bind, findById. rewrite findOne_run. cbn [users with_users ret].
    rewrite find_updateById, Hu1. cbn [option_map].
    set (d := assign_refreshToken _ (load u1)).
    assert (Hd : agrees d u1) by (subst d; auto with agrees).
    assert (Hid : has_id (_id (fields d)) u1 = true).
    { destruct Hd as (-> & _). apply String.eqb_refl. }
    rewrite Hid, (writePaths_agrees _ _ Hd). subst d.
    rewrite fields_assign_refreshToken. reflexivity.
  - unfold generateAccessAndRefreshTokens, try_catch, bind, findById.
    now rewrite findOne_run, Hu1.
Qed.

End Login.

(** X1.  [login] answers exactly when the body has a non-empty email, the
    collection has a user under that email (lower-cased and trimmed), the
    body and the record both have a password, and [bcrypt.compare] accepts
    the pair. *)
Theorem login_succeeds_iff `{Platform} cfg env req s :
  (exists resp s', login cfg env req s = (Ok resp, s'))
  <-> (exists e u p h,
         Js.get "email" (body req) = Some e /\ e <> ""
         /\ find (fun u => matches (Some e) (email u)) (users s) = Some u
         /\ Js.get "password" (body req) = Some p
         /\ password u = Some h
         /\ bcrypt_compare p h = true).
Proof.
  rewrite login_run. split.
  - intros (resp & s' & Hrun).
    destruct (Js.get "email" (body req)) as [e|]; [|discriminate].
    destruct (String.eqb_spec e ""); [discriminate|].
    destruct (find _ (users s)) as [u|] eqn:Hfind; [|discriminate].
    unfold isPasswordCorrect in Hrun. cbn [fields load] in Hrun.
    destruct (Js.get "password" (body req)) as [p|]; [|discriminate].
    destruct (password u) as [h|] eqn:Hh; [|discriminate].
    destruct (bcrypt_compare p h) eqn:Hcmp; [|discriminate].
    exists e, u, p, h. repeat split; auto.
  - intros (e & u & p & h & -> & Hne & Hfind & Hp & Hh & Hcmp).
    destruct (String.eqb_spec e ""); [contradiction|].
    rewrite Hfind. unfold isPasswordCorrect. cbn [fields load].
    rewrite Hp, Hh, Hcmp.
    apply find_some in Hfind as [Hin _].
    destruct (find_own_id _ _ Hin) as (u1 & -> & _). eauto.
Qed.

(** X2.  A [login] that throws leaves the store as it was, and what it
    throws is one of three errors of status 400 (no email, no such user,
    wrong password) or the exception of [bcrypt.compare] for a missing
    argument: never a 401 and never a 404. *)
Theorem login_failure `{Platform} cfg env req s e s' :
  login cfg env req s = (Throw e, s') ->
  s' = s
  /\ (e = ApiError 400 "Email is required" []
      \/ e = ApiError 400 "User does not exist" []
      \/ e = ApiError 400 "Invalid credentials" []
      \/ e = JsError "Error" "data and hash arguments required").
Proof.
  rewrite login_run.
  destruct (Js.get "email" (body req)) as [em|]; [|intros [= <- <-]; auto].
  destruct (String.eqb em ""); [intros [= <- <-]; auto|].
  destruct (find _ (users s)) as [u|] eqn:Hfind; [|intros [= <- <-]; auto].
  unfold isPasswordCorrect. cbn [fields load].
  destruct (Js.get "password" (body req)) as [p|]; [|intros [= <- <-]; auto 6].
  destruct (password u) as [h|]; [|intros [= <- <-]; auto 6].
  destruct (bcrypt_compare p h); [|intros [= <- <-]; auto 6].
  apply find_some in Hfind as [Hin _].
  destruct (find_own_id _ _ Hin) as (u1 & -> & _). discriminate.
Qed.


(** ** refreshAccessToken *)

Lemma existsb_updateById id d us :
  existsb (has_id id) (updateById d us) = existsb (has_id id) us.
Proof.
  unfold updateById. induction us as [|u us IH]; cbn; [reflexivity|].
  rewrite IH. f_equal. destruct (has_id _ u); [apply has_id_writePaths|reflexivity].
Qed.

Lemma writePaths_twice d u : writePaths d (writePaths d u) = writePaths d u.
Proof.
  apply user_ext;
    rewrite ?writePaths_id, ?writePaths_username, ?writePaths_email,
      ?writePaths_fullName, ?writePaths_password, ?writePaths_isEmailVerified,
      ?writePaths_refreshToken, ?writePaths_forgotPasswordToken,
      ?writePaths_forgotPasswordExpiry, ?writePaths_emailVerificationToken,
      ?writePaths_emailVerificationExpiry;
    try reflexivity;
    match goal with |- (if ?b then _ else _) = _ => now destruct b end.
Qed.

Lemma updateById_twice d us : updateById d (updateById d us) = updateById d us.
Proof.
  unfold updateById. rewrite map_map. apply map_ext. intros u.
  destruct (has_id (_id (fields d)) u) eqn:Hu.
  - now rewrite has_id_writePaths, Hu, writePaths_twice.
  - now rewrite Hu.
Qed.

Section Refresh_run.
Context `{Platform}.
Variable cfg : Config.
Variable env : Env.

Lemma save_validated_run d s :
  isModified "password" d = false ->
  existsb (has_id (_id (fields d))) (users s) = true ->
  (validate (fields d) = true ->
   exists d', save true env d s = (Ok d', with_users (updateById d (users s)) s))
  /\ (validate (fields d) = false ->
      save true env d s
      = (Throw (JsError "ValidationError" "User validation failed"), s)).
Proof.
  intros Hpw Hex. unfold save, bind, lift. cbn [andb].
  split; intros ->; cbn [negb]; [|reflexivity].
  rewrite (preSave_unmodified _ _ Hpw). cbn [ret].
  destruct (modifiedPaths d) eqn:Hpaths.
  - exists d. now rewrite updateById_nil, with_users_same.
  - rewrite Hex. eauto.
Qed.

(** The outcome of [refreshAccessToken], case by case. *)
Lemma refresh_run req s :
  refreshAccessToken cfg env req s
  = match incomingRefreshToken req with
    | None => (Throw (ApiError 401 "Unauthorized access" []), s)
    | Some T =>
        if String.eqb T "" then (Throw (ApiError 401 "Unauthorized access" []), s)
        else
          match jwt_verify (now env) T (REFRESH_TOKEN_SECRET cfg) with
          | Throw _ => (Throw invalidRefreshToken, s)
          | Ok c =>
              match castObjectId (c_id c) with
              | None => (Throw invalidRefreshToken, s)
              | Some id =>
                  match find (has_id id) (users s) with
                  | None => (Throw invalidRefreshToken, s)
                  | Some u =>
                      if option_eqb String.eqb (Some T) (refreshToken u)
                      then if validate u
                           then (Ok (refreshResponse cfg env u), rotated cfg env u s)
                           else (Throw invalidRefreshToken, rotated cfg env u s)
                      else (Throw invalidRefreshToken, s)
                  end
              end
          end
    end.
Proof.
  unfold refreshAccessToken.
  destruct (incomingRefreshToken req) as [T|]; [|reflexivity].
  destruct (String.eqb T ""); [reflexivity|].
  unfold try_catch, bind at 1, lift.
  destruct (jwt_verify _ _ _) as [c|x]; [|reflexivity].
  cbn [ret]. unfold bind at 1, findByIdString.
  destruct (castObjectId (c_id c)) as [id|]; [|reflexivity].
  unfold findById. rewrite findOne_run.
  destruct (find (has_id id) (users s)) as [u|] eqn:Hu; [|reflexivity].
  cbn [option_map fields load].
  destruct (option_eqb String.eqb (Some T) (refreshToken u)); [|reflexivity].
  cbn [negb].
  pose proof (find_some _ _ Hu) as [_ Hid]. apply String.eqb_eq in Hid. subst id.
  unfold bind at 1. rewrite (tokens_run _ _ _ _ _ Hu). cbn [fst snd].
  fold (rotated cfg env u s).
  set (d := assign_refreshToken _ (load u)).
  assert (Hfields : fields d = set_refreshToken (Some (generateRefreshToken cfg env (load u))) u)
    by (subst d; apply fields_assign_refreshToken).
  assert (Hvalid : validate (fields d) = validate u) by now rewrite Hfields.
  destruct (save_validated_run d (rotated cfg env u s)) as [Hok Hbad].
  - subst d. unfold assign_refreshToken. now rewrite isModified_assign.
  - unfold rotated. cbn [users with_users]. rewrite existsb_updateById, Hfields.
    exact (find_some_existsb _ _ _ Hu).
  - rewrite Hvalid in Hok, Hbad. unfold bind. destruct (validate u).
    + destruct (Hok eq_refl) as (d' & ->). cbn [ret]. f_equal.
      unfold rotated. cbn [users with_users members outbox]. fold d.
      now rewrite updateById_twice.
    + now rewrite (Hbad eq_refl).
Qed.

End Refresh_run.

(** X4.  [refreshAccessToken] answers exactly when the request carries a
    non-empty refresh token (cookie first, then body) that [jwt.verify]
    accepts, whose subject casts to the [_id] of a stored user, whose
    stored refresh token is that very token, and whose record passes the
    schema's required-field validation. *)
Theorem refresh_succeeds_iff `{Platform} cfg env req s :
  (exists resp s', refreshAccessToken cfg env req s = (Ok resp, s'))
  <-> (exists T c id u,
         incomingRefreshToken req = Some T /\ T <> ""
         /\ jwt_verify (now env) T (REFRESH_TOKEN_SECRET cfg) = Ok c
         /\ castObjectId (c_id c) = Some id
         /\ find (has_id id) (users s) = Some u
         /\ refreshToken u = Some T
         /\ validate u = true).
Proof.
  rewrite refresh_run. split.
  - intros (resp & s' & Hrun).
    destruct (incomingRefreshToken req) as [T|]; [|discriminate].
    destruct (String.eqb_spec T ""); [discriminate|].
    destruct (jwt_verify _ _ _) as [c|x] eqn:Hc; [|discriminate].
    destruct (castObjectId (c_id c)) as [id|] eqn:Hid; [|discriminate].
    destruct (find (has_id id) (users s)) as [u|] eqn:Hu; [|discriminate].
    destruct (option_eqb String.eqb (Some T) (refreshToken u)) eqn:Hsame;
      [|discriminate].
    destruct (validate u) eqn:Hvalid; [|discriminate].
    apply option_eqb_string_true in Hsame.
    exists T, c, id, u. repeat split; auto.
  - intros (T & c & id & u & -> & Hne & -> & -> & -> & Htok & ->).
    destruct (String.eqb_spec T ""); [contradiction|].
    rewrite Htok. cbn [option_eqb]. rewrite String.eqb_refl. eauto.
Qed.

Lemma refresh_succeeds_iff_witness :
  exists resp s',
    refreshAccessToken (H := Sample.platform) Sample.cfg Sample.envRefresh
      Sample.reqRefresh (snd Sample.afterLogin) = (Ok resp, s').
Proof.
  apply (proj2 (refresh_succeeds_iff (H := Sample.platform) Sample.cfg
                  Sample.envRefresh Sample.reqRefresh (snd Sample.afterLogin))).
  exists Sample.loginRefreshToken. do 3 eexists.
  split; [reflexivity|]. split; [discriminate|].
  split; [reflexivity|]. split; [reflexivity|].
  split; [reflexivity|]. split; reflexivity.
Defined.


(** ** C3: rotation of the refresh token *)

Section Same_second.
Context `{Platform}.
Variable cfg : Config.

(** The token pair, the verdict of [jwt.verify] and the rotation depend
    on the second of the clock only. *)
Lemma refreshResponse_second env env2 u :
  now env2 / 1000 = now env / 1000 ->
  refreshResponse cfg env2 u = refreshResponse cfg env u.
Proof.
  intros Hsec. unfold refreshResponse, generateAccessToken, generateRefreshToken.
  now rewrite Hsec.
Qed.

Lemma rotated_second env env2 u s :
  now env2 / 1000 = now env / 1000 ->
  rotated cfg env2 u s = rotated cfg env u s.
Proof.
  intros Hsec. unfold rotated, generateRefreshToken. now rewrite Hsec.
Qed.

Lemma jwt_verify_second env env2 token secret :
  now env2 / 1000 = now env / 1000 ->
  jwt_verify (now env2) token secret = jwt_verify (now env) token secret.
Proof. intros Hsec. unfold jwt_verify. now rewrite Hsec. Qed.

(** Rotation to the token the record already stores writes nothing. *)
Lemma rotated_same env u s :
  refreshToken u = Some (generateRefreshToken cfg env (load u)) ->
  rotated cfg env u s = s.
Proof.
  intros Hsame. unfold rotated, assign_refreshToken, assign. cbn [fields load].
  rewrite <- Hsame.
  assert (Hrefl : option_eqb String.eqb (refreshToken u) (refreshToken u) = true)
    by (destruct (refreshToken u); cbn; [apply String.eqb_refl|reflexivity]).
  rewrite Hrefl. now rewrite updateById_nil, with_users_same.
Qed.

End Same_second.

(** C3 (amended).  A refresh that succeeds with token [T] issues the token
    [T'] that [jwt.sign] makes of the user's [_id], the secret, the expiry
    option and the second of the clock, and stores it on the record.  If
    [T'] differs from [T], any later refresh that presents [T], in the
    cookie or in the body, is rejected with 401 and changes nothing,
    whether or not the signature and the expiry of [T] still verify.  If
    [T'] is [T] itself, nothing was rotated: a refresh that presents [T]
    within the same second is answered again, with the same tokens. *)
Theorem refresh_old_token_rejected `{Platform} cfg env req s resp s' T :
  incomingRefreshToken req = Some T ->
  refreshAccessToken cfg env req s = (Ok resp, s') ->
  exists u u' T',
    find (has_id (_id u)) (users s) = Some u
    /\ refreshToken u = Some T
    /\ T' = jwt_sign (mkClaims (_id u) None None) (REFRESH_TOKEN_SECRET cfg)
                     (REFRESH_TOKEN_EXPIRY cfg) (now env / 1000)
    /\ issuedRefreshToken resp = Some T'
    /\ find (has_id (_id u)) (users s') = Some u'
    /\ refreshToken u' = Some T'
    /\ (T' <> T ->
        forall env2 req2,
          incomingRefreshToken req2 = Some T ->
          refreshAccessToken cfg env2 req2 s'
          = (Throw (ApiError 401 "Invalid refresh token" []), s'))
    /\ (T' = T ->
        forall env2 req2,
          incomingRefreshToken req2 = Some T ->
          now env2 / 1000 = now env / 1000 ->
          refreshAccessToken cfg env2 req2 s' = (Ok resp, s')).
Proof.
  intros HT Hrun. pose proof Hrun as Hnormal.
  rewrite refresh_run, HT in Hnormal.
  destruct (String.eqb_spec T "") as [|Hne]; [discriminate|].
  destruct (jwt_verify _ _ _) as [c|x] eqn:Hverify; [|discriminate].
  destruct (castObjectId (c_id c)) as [id|] eqn:Hcast; [|discriminate].
  destruct (find (has_id id) (users s)) as [u|] eqn:Hu; [|discriminate].
  destruct (option_eqb String.eqb (Some T) (refreshToken u)) eqn:Hsame;
    [|discriminate].
  destruct (validate u) eqn:Hvalid; [|discriminate].
  injection Hnormal as <- <-.
  apply option_eqb_string_true in Hsame. symmetry in Hsame.
  pose proof (find_some _ _ Hu) as [_ Hid]. apply String.eqb_eq in Hid. subst id.
  set (T' := generateRefreshToken cfg env (load u)).
  assert (Hu' : exists u', find (has_id (_id u)) (users (rotated cfg env u s)) = Some u'
                           /\ refreshToken u' = Some T').
  { unfold rotated. fold T'. cbn [users with_users]. rewrite find_updateById, Hu.
    cbn [option_map].
    assert (Hd : _id (fields (assign_refreshToken (Some T') (load u))) = _id u)
      by (unfold assign_refreshToken; now rewrite assign_id).
    assert (Hself : has_id (_id u) u = true) by apply String.eqb_refl.
    rewrite Hd, Hself. eexists. split; [reflexivity|].
    apply writePaths_assign_refreshToken. now left. }
  destruct Hu' as (u' & Hu' & Hr').
  exists u, u', T'. do 6 (split; [first [assumption|reflexivity]|]). split.
  - intros Hnew env2 req2 HT2. rewrite refresh_run, HT2.
    destruct (String.eqb_spec T ""); [contradiction|].
    unfold jwt_verify in Hverify |- *.
    destruct (jwt_decode T (REFRESH_TOKEN_SECRET cfg)) as [[c0 exp]|]; [|discriminate].
    destruct (exp <=? now env / 1000); [discriminate|]. injection Hverify as ->.
    destruct (exp <=? now env2 / 1000); [reflexivity|].
    rewrite Hcast, Hu', Hr'. cbn [option_eqb].
    destruct (String.eqb_spec T T') as [Heq|_]; [|reflexivity].
    now contradiction Hnew.
  - intros Hold env2 req2 HT2 Hsec.
    assert (Hstay : rotated cfg env u s = s)
      by (apply rotated_same; fold T'; congruence).
    rewrite Hstay, refresh_run, HT2.
    destruct (String.eqb_spec T ""); [contradiction|].
    rewrite (jwt_verify_second env env2) by exact Hsec.
    rewrite Hverify, Hcast, Hu, Hsame. cbn [option_eqb].
    rewrite String.eqb_refl, Hvalid.
    rewrite (refreshResponse_second cfg env env2) by exact Hsec.
    rewrite (rotated_second cfg env env2) by exact Hsec.
    now rewrite Hstay.
Qed.

Lemma refresh_old_token_rejected_witness :
  refreshAccessToken (H := Sample.platform) Sample.cfg Sample.envReplay Sample.reqReplay
    (snd Sample.afterRefresh)
  = (Throw (ApiError 401 "Invalid refresh token" []), snd Sample.afterRefresh)
  /\ refreshAccessToken (H := Sample.platform) Sample.cfg Demo.envReplayAtOnce
       Sample.reqReplay (snd Demo.afterRefreshAtOnce)
     = Demo.afterRefreshAtOnce.
Proof.
  split.
  - destruct (refresh_old_token_rejected (H := Sample.platform)
                Sample.cfg Sample.envRefresh Sample.reqRefresh (snd Sample.afterLogin)
                (responseOf Sample.afterRefresh) (snd Sample.afterRefresh)
                Sample.loginRefreshToken eq_refl eq_refl)
      as (u & u' & T' & _ & _ & _ & Hissued & _ & _ & Hrejected & _).
    apply Hrejected; [|reflexivity].
    injection Hissued as <-. discriminate.
  - destruct (refresh_old_token_rejected (H := Sample.platform)
                Sample.cfg Demo.envRefreshAtOnce Sample.reqRefresh
                (snd Sample.afterLogin)
                (responseOf Demo.afterRefreshAtOnce) (snd Demo.afterRefreshAtOnce)
                Sample.loginRefreshToken eq_refl eq_refl)
      as (u & u' & T' & _ & _ & _ & Hissued & _ & _ & _ & Haccepted).
    apply Haccepted; [|reflexivity|reflexivity].
    now injection Hissued as <-.
Defined.

(** C3 as stated fails: alice refreshes in the second in which her login
    issued the token; the refresh issues that very token again, and the
    token, presented once more, is accepted. *)
Lemma refresh_same_second_accepts_old_token :
  incomingRefreshToken Sample.reqRefresh = Some Sample.loginRefreshToken
  /\ incomingRefreshToken Sample.reqReplay = Some Sample.loginRefreshToken
  /\ exists access,
       let resp :=
         mkResponse 200
           [ ("accessToken", access, cookieOptions);
             ("refreshToken", Sample.loginRefreshToken, cookieOptions) ] []
           (ApiResponse 200 (PTokens access Sample.loginRefreshToken)
              "Access token refreshed") in
       refreshAccessToken (H := Sample.platform) Sample.cfg Demo.envRefreshAtOnce
         Sample.reqRefresh (snd Sample.afterLogin)
       = (Ok resp, snd Demo.afterRefreshAtOnce)
       /\ refreshAccessToken (H := Sample.platform) Sample.cfg Demo.envReplayAtOnce
            Sample.reqReplay (snd Demo.afterRefreshAtOnce)
          = (Ok resp, snd Demo.afterRefreshAtOnce).
Proof.
  split; [reflexivity|]. split; [reflexivity|].
  eexists. split; vm_compute; reflexivity.
Qed.

(** ** logoutUser *)

Lemma set_refreshToken_twice v u :
  set_refreshToken v (set_refreshToken v u) = set_refreshToken v u.
Proof. reflexivity. Qed.

(** What [logoutUser] does for a request that carries a principal. *)
Lemma logoutUser_run `{Platform} req s principal :
  user req = Some principal ->
  exists s',
    logoutUser req s = (Ok logoutResponse, s')
    /\ (forall u, In u (users s') -> _id u = v_id principal ->
                  refreshToken u = Some "")
    /\ map _id (users s') = map _id (users s)
    /\ (forall id, id <> v_id principal ->
                   find (has_id id) (users s') = find (has_id id) (users s))
    /\ logoutUser req s' = (Ok logoutResponse, s').
Proof.
  intros Huser. unfold logoutUser. rewrite Huser.
  unfold bind, findByIdAndUpdate_refreshToken. cbn [ret].
  set (f := fun u => if has_id (v_id principal) u
                     then set_refreshToken (Some "") u else u).
  assert (Hid : forall u i, has_id i (f u) = has_id i u)
    by (intros u i; unfold f; now destruct (has_id (v_id principal) u)).
  eexists. split; [reflexivity|]. cbn [users with_users].
  split; [|split; [|split]].
  - intros u Hu Hsame. apply in_map_iff in Hu as (x & <- & _). subst f. cbn in *.
    destruct (has_id (v_id principal) x) eqn:Hx; [reflexivity|].
    unfold has_id in Hx. rewrite Hsame, String.eqb_refl in Hx. discriminate.
  - rewrite map_map. apply map_ext. intros u. unfold f.
    now destruct (has_id (v_id principal) u).
  - intros id Hne. rewrite find_map_stable by (intros; apply Hid).
    destruct (find (has_id id) (users s)) as [u|] eqn:Hu; [|reflexivity].
    cbn. f_equal. unfold f. destruct (has_id (v_id principal) u) eqn:Hp; [|reflexivity].
    apply find_some in Hu as [_ Hu]. apply String.eqb_eq in Hu, Hp. congruence.
  - unfold ret, with_users. cbn [users members outbox]. do 2 f_equal.
    rewrite map_map. apply map_ext.
    intros u. unfold f. destruct (has_id (v_id principal) u) eqn:Hp; cbn.
    + unfold has_id in *. cbn. now rewrite Hp.
    + now rewrite Hp.
Qed.

(** X6.  For a request that carries a principal, [logoutUser] always
    answers 200 and clears both cookies, whether or not a record with the
    principal's [_id] exists; afterwards every record with that [_id]
    stores the empty string as its refresh token, lookups under any other
    [_id] give what they gave, and a second logout gives the same answer
    and the same store. *)
Theorem logoutUser_idempotent `{Platform} req s principal :
  user req = Some principal ->
  exists s',
    logoutUser req s = (Ok logoutResponse, s')
    /\ (forall u, In u (users s') -> _id u = v_id principal ->
                  refreshToken u = Some "")
    /\ map _id (users s') = map _id (users s)
    /\ (forall id, id <> v_id principal ->
                   find (has_id id) (users s') = find (has_id id) (users s))
    /\ logoutUser req s' = (Ok logoutResponse, s').
Proof. apply logoutUser_run. Qed.

(** X7.  After [logoutUser] for a principal, every refresh request whose
    token names that principal is refused with 401 and changes nothing,
    however valid the signature and the expiry of the token are. *)
Theorem refresh_after_logout `{Platform} cfg req s resp s' principal :
  user req = Some principal ->
  logoutUser req s = (Ok resp, s') ->
  forall env2 req2,
    (forall T c, incomingRefreshToken req2 = Some T ->
                 jwt_verify (now env2) T (REFRESH_TOKEN_SECRET cfg) = Ok c ->
                 castObjectId (c_id c) = Some (v_id principal)) ->
    exists m,
      refreshAccessToken cfg env2 req2 s' = (Throw (ApiError 401 m []), s').
Proof.
  intros Huser Hlogout env2 req2 Hsubject.
  destruct (logoutUser_run req s principal Huser) as (s1 & Hrun & Hcleared & _).
  rewrite Hrun in Hlogout. injection Hlogout as _ <-.
  rewrite refresh_run.
  destruct (incomingRefreshToken req2) as [T|]; [|eauto].
  destruct (String.eqb_spec T "") as [|Hne]; [eauto|].
  destruct (jwt_verify _ _ _) as [c|x] eqn:Hc; [|unfold invalidRefreshToken; eauto].
  rewrite (Hsubject T c eq_refl Hc).
  destruct (find _ (users s1)) as [u|] eqn:Hu; [|unfold invalidRefreshToken; eauto].
  apply find_some in Hu as [Hin Hid]. apply String.eqb_eq in Hid.
  rewrite (Hcleared u Hin Hid). cbn [option_eqb].
  destruct (String.eqb_spec T ""); [contradiction|].
  unfold invalidRefreshToken; eauto.
Qed.

(** ** The flows that issue an ephemeral token *)

Lemma bind_findOne {B : Type} q (k : option Doc -> M B) s :
  bind (findOne q) k s = k (option_map load (find q (users s))) s.
Proof. reflexivity. Qed.

Section Issue.
Context `{Platform}.


Lemma issue_unmodified_password (vt : option string) (ve : option Z) u :
  isModified "password"
    (assign_emailVerificationExpiry ve (assign_emailVerificationToken vt (load u)))
  = false
  /\ isModified "password"
       (assign_forgotPasswordExpiry ve (assign_forgotPasswordToken vt (load u)))
     = false.
Proof.
  unfold assign_emailVerificationExpiry, assign_emailVerificationToken,
    assign_forgotPasswordExpiry, assign_forgotPasswordToken.
  now rewrite !isModified_assign.
Qed.

End Issue.



(** ** The flows that set a password *)

Section Set_password.
Context `{Platform}.

Lemma save_unvalidated_hashed env d dh s u :
  NoDup (map _id (users s)) -> In u (users s) -> agrees d u ->
  preSave (bcryptSalt env) d = Ok dh ->
  exists d',
    save false env d s = (Ok d', with_users (replaceUser (fields dh) (users s)) s)
    /\ fields d' = fields dh.
Proof.
  intros Hnd Hu Hd Hpre.
  pose proof (preSave_agrees _ _ _ _ Hpre Hd) as Hdh.
  pose proof (updateById_replace dh (users s) u Hnd Hu Hdh) as Hreplace.
  unfold save, bind, lift. cbn [andb]. rewrite Hpre. cbn [ret].
  destruct (modifiedPaths dh) eqn:Hpaths.
  - exists dh. rewrite <- Hreplace, updateById_nil, with_users_same by exact Hpaths. auto.
  - assert (Hex : existsb (has_id (_id (fields dh))) (users s) = true).
    { destruct Hdh as (-> & _). apply existsb_exists. exists u.
      split; [exact Hu|apply String.eqb_refl]. }
    rewrite Hex, <- Hreplace. eexists. split; reflexivity.
Qed.

(** The hook after [user.password = p] on a document whose password path
    was not modified before. *)
Lemma preSave_assign_password env p d0 :
  isModified "password" d0 = false ->
  exists dh,
    preSave (bcryptSalt env) (assign_password (Some p) d0) = Ok dh
    /\ fields dh = set_password (passwordAfter env p (fields d0)) (fields d0).
Proof.
  intros Hpw. unfold assign_password, assign, passwordAfter.
  destruct (option_eqb String.eqb (Some p) (password (fields d0))) eqn:E.
  - exists d0. split; [now apply preSave_unmodified|]. now destruct (fields d0).
  - eexists. split; [unfold preSave, isModified; cbn; reflexivity|reflexivity].
Qed.

End Set_password.


(** What [changeCurrentPassword] does for a principal whose record exists. *)
Lemma changeCurrentPassword_run `{Platform} env req s principal u o p h :
  NoDup (map _id (users s)) ->
  user req = Some principal ->
  find (has_id (v_id principal)) (users s) = Some u ->
  Js.get "oldPassword" (body req) = Some o ->
  Js.get "newPassword" (body req) = Some p ->
  password u = Some h ->
  changeCurrentPassword env req s
  = if bcrypt_compare o h
    then (Ok (mkResponse 200 [] []
                (ApiResponse 200 PEmpty "Password changed successfully")),
          with_users (replaceUser (set_password (passwordAfter env p u) u) (users s)) s)
    else (Throw (ApiError 400 "Invalid old Password" []), s).
Proof.
  intros Hnd Huser Hu Hold Hnew Hh. unfold changeCurrentPassword.
  rewrite Huser, Hold, Hnew. unfold findById. rewrite bind_findOne, Hu.
  cbn [option_map]. unfold bind at 1, lift, isPasswordCorrect. cbn [fields load].
  rewrite Hh. cbn [ret]. destruct (bcrypt_compare o h); [|reflexivity]. cbn [negb].
  apply find_some in Hu as [Hin _].
  destruct (preSave_assign_password env p (load u) eq_refl) as (dh & Hpre & Hdh).
  destruct (save_unvalidated_hashed env (assign_password (Some p) (load u)) dh s u
              Hnd Hin) as (d' & Hsave & _); [auto with agrees|exact Hpre|].
  unfold bind. rewrite Hsave, Hdh. reflexivity.
Qed.


(** ** registerUser *)

Section Register_again.
Context `{Platform}.

(** A registration that succeeds leaves a record under the lower-cased,
    trimmed username and email of the body. *)
Lemma registerUser_identity env req s resp s' :
  registerUser env req s = (Ok resp, s') ->
  exists e n u,
    Js.get "email" (body req) = Some e
    /\ Js.get "username" (body req) = Some n
    /\ In u (users s')
    /\ username u = normalise n /\ email u = normalise e.
Proof.
  intros Hrun. unfold registerUser in Hrun.
  apply bind_ok in Hrun as (existed & s0 & Hfind & Hrun).
  rewrite findOne_run in Hfind. injection Hfind as <- <-.
  destruct (find _ (users s)) as [existing|]; cbn [option_map] in Hrun; [discriminate|].
  apply bind_ok in Hrun as (user0 & s1 & Hcreate & Hrun).
  apply create_ok in Hcreate as (e & p & n & He & _ & Hn & Hfields & _ & -> & _).
  apply bind_ok in Hrun as (user1 & s2 & Hsave & Hrun).
  apply save_ok_store in Hsave as (dh & _ & ->).
  apply bind_ok in Hrun as ([] & s3 & Hmail & Hrun). injection Hmail as <-.
  apply bind_ok in Hrun as (created & s4 & Hfound & Hrun).
  unfold findById in Hfound. rewrite findOne_run in Hfound. injection Hfound as <- <-.
  destruct (option_map load _); [|discriminate]. injection Hrun as _ <-.
  cbn [users with_users].
  set (f := fun x => if has_id (_id (fields dh)) x then writePaths dh x else x).
  exists e, n, (f (fields user0)). repeat split; auto.
  - unfold updateById. apply in_map. apply in_or_app. right. now left.
  - unfold f. rewrite Hfields.
    destruct (has_id _ _); [rewrite writePaths_username|]; reflexivity.
  - unfold f. rewrite Hfields.
    destruct (has_id _ _); [rewrite writePaths_email|]; reflexivity.
Qed.

End Register_again.

(** X12.  After a registration that succeeded, a registration whose
    username or whose email the setters of the schema ([trim], then
    [toLowerCase], as the engine has them) turn into the same string, that
    is, the same up to letter case and surrounding white space, throws
    409, creates no user and sends no mail. *)
Theorem registerUser_twice_conflicts `{Platform} env req s resp s' :
  registerUser env req s = (Ok resp, s') ->
  forall env2 req2,
    option_map normalise (Js.get "username" (body req2))
    = option_map normalise (Js.get "username" (body req))
    \/ option_map normalise (Js.get "email" (body req2))
       = option_map normalise (Js.get "email" (body req)) ->
    registerUser env2 req2 s'
    = (Throw (ApiError 409 "User with email or username already exists" []), s').
Proof.
  intros Hrun env2 req2 Hsame.
  apply registerUser_identity in Hrun as (e & n & u & He & Hn & Hu & Hname & Hmail).
  unfold registerUser. rewrite bind_findOne.
  destruct (find _ (users s')) as [x|] eqn:Hfind; [reflexivity|].
  apply (find_none _ _ Hfind) in Hu. apply orb_false_iff in Hu as [Hu1 Hu2].
  rewrite He, Hn in Hsame. exfalso. destruct Hsame as [Hs|Hs].
  - destruct (Js.get "username" (body req2)) as [n2|]; [|discriminate].
    injection Hs as Hs. unfold matches in Hu1.
    rewrite Hs, Hname, String.eqb_refl in Hu1. discriminate.
  - destruct (Js.get "email" (body req2)) as [e2|]; [|discriminate].
    injection Hs as Hs. unfold matches in Hu2.
    rewrite Hs, Hmail, String.eqb_refl in Hu2. discriminate.
Qed.

(** ** The stores the controllers can produce *)

(** X13.  In every store the controllers can produce from an empty users
    collection, no two records have the same [_id], the same [username]
    or the same [email]. *)
Theorem reachable_unique_identities `{Platform} cfg s :
  reachable cfg s -> uniqueIdentities s.
Proof. intros Hs. now apply reachable_kept in Hs as [Hu _]. Qed.

(** X14.  In every store the controllers can produce from an empty users
    collection, no record is verified and none holds a verification hash,
    and [verifyEmail] throws a 400 error on every request, changing
    nothing: the hash the issuing flows read under the key [hashedToken]
    is never there to be stored. *)
Theorem reachable_never_verified `{Platform} cfg s :
  reachable cfg s ->
  (forall u, In u (users s) ->
     isEmailVerified u = false /\ emailVerificationToken u = None)
  /\ forall env req,
       exists e, verifyEmail env req s = (Throw e, s) /\ boundaryStatus e = 400.
Proof.
  intros Hs. apply reachable_kept in Hs as Hk. split.
  - intros u Hu. destruct Hk as [_ Hall]. rewrite Forall_forall in Hall.
    destruct (Hall u Hu) as (? & ? & ?). auto.
  - intros env req. apply verifyEmail_without_hash. now apply kept_no_hash.
Qed.

(** X15.  In every store the controllers can produce from an empty users
    collection, no record holds a reset hash, and [resetForgotPassword]
    throws on every request (the 489 error, or the TypeError of a missing
    token parameter), changing nothing: no password is ever reset. *)
Theorem reachable_never_reset `{Platform} cfg s :
  reachable cfg s ->
  (forall u, In u (users s) -> forgotPasswordToken u = None)
  /\ forall env req,
       exists e, resetForgotPassword env req s = (Throw e, s)
                 /\ (boundaryStatus e = 489 \/ boundaryStatus e = 500).
Proof.
  intros Hs. apply reachable_kept in Hs as Hk.
  pose proof (proj2 (kept_no_hash s Hk)) as Hnone. split; [exact Hnone|].
  intros env req. now apply resetForgotPassword_without_hash.
Qed.

(** ** The routes behind [verifyJWT] *)

Section Routes.
Context `{Platform}.
Variable cfg : Config.
Variable env : Env.

(** What [verifyJWT] has established when it passes the request on. *)
Lemma verifyJWT_ok req s req' s' :
  verifyJWT cfg env req s = (Ok req', s') ->
  s' = s
  /\ exists u,
       find (has_id (_id u)) (users s) = Some u
       /\ req' = set_user (select withoutSecrets u) req.
Proof.
  rewrite verifyJWT_run.
  destruct (bearerToken req) as [token|]; [|discriminate].
  destruct (String.eqb token ""); [discriminate|].
  destruct (jwt_verify _ _ _) as [c|x]; [|discriminate].
  destruct (castObjectId (c_id c)) as [id|]; [|discriminate].
  destruct (find (has_id id) (users s)) as [u|] eqn:Hu; [|discriminate].
  intros [= <- <-]. split; [reflexivity|]. exists u. split; [|reflexivity].
  pose proof (find_some _ _ Hu) as [_ Hid]. apply String.eqb_eq in Hid. now rewrite Hid.
Qed.

Lemma verifyJWT_throw req s e s' :
  verifyJWT cfg env req s = (Throw e, s') -> s' = s /\ boundaryStatus e = 401.
Proof.
  rewrite verifyJWT_run.
  destruct (bearerToken req) as [token|]; [|now intros [= <- <-]].
  destruct (String.eqb token ""); [now intros [= <- <-]|].
  destruct (jwt_verify _ _ _) as [c|x]; [|now intros [= <- <-]].
  destruct (castObjectId (c_id c)) as [id|]; [|now intros [= <- <-]].
  destruct (find (has_id id) (users s)); [discriminate|now intros [= <- <-]].
Qed.

(** A route behind [verifyJWT], by the outcome of [verifyJWT]. *)
Lemma behindVerifyJWT_run {A : Type} (controller : Request -> M A) req s :
  behindVerifyJWT cfg env controller req s
  = match verifyJWT cfg env req s with
    | (Ok req', s') => controller req' s'
    | (Throw e, s') => (Throw e, s')
    end.
Proof. reflexivity. Qed.

End Routes.

(** X16.  The route [/resend-email-verification] never answers with the
    404 of its controller: a request either fails with status 401 in
    [verifyJWT] or with the 409 of a verified user, leaving the store as
    it was, or is answered with status 200. *)
Theorem route_resend_never_404 `{Platform} cfg env req s :
  match route_resend_email_verification cfg env req s with
  | (Ok resp, _) => status resp = 200
  | (Throw e, s') =>
      s' = s
      /\ (boundaryStatus e = 401 \/ e = ApiError 409 "Email is already verified" [])
  end.
Proof.
  unfold route_resend_email_verification. rewrite behindVerifyJWT_run.
  destruct (verifyJWT cfg env req s) as [[req'|e] s1] eqn:Hauth.
  - apply verifyJWT_ok in Hauth as (-> & u & Hu & ->).
    unfold resendEmailVerification. cbn [user set_user].
    unfold findById. rewrite bind_findOne.
    change (v_id (select withoutSecrets u)) with (_id u). rewrite Hu.
    cbn [option_map fields load].
    destruct (isEmailVerified u); [cbn; auto|].
    match goal with
    | |- context [save false env ?d] =>
        destruct (save_unvalidated_runs env d s) as (d' & Hsave & _)
    end.
    + apply issue_unmodified_password.
    + unfold assign_emailVerificationExpiry, assign_emailVerificationToken.
      rewrite !assign_id by reflexivity. exact (find_some_existsb _ _ _ Hu).
    + unfold bind. rewrite Hsave. reflexivity.
  - apply verifyJWT_throw in Hauth as [-> Hstatus]. auto.
Qed.



(** ** validateProjectPermission *)

(** X19.  [validateProjectPermission] never changes the store, and with
    the default empty list of roles it lets no request through. *)
Theorem validateProjectPermission_no_roles `{Platform} roles req s :
  snd (validateProjectPermission roles req s) = s
  /\ (roles = [] -> exists e, fst (validateProjectPermission roles req s) = Throw e).
Proof.
  unfold validateProjectPermission.
  destruct (negb (Js.truthy (Js.get "projectId" (params req)))); [cbn; eauto|].
  destruct (option_map castObjectId _) as [[project_|]|]; [|cbn; eauto..].
  destruct (user req) as [principal|]; [|cbn; eauto].
  unfold bind, findMember.
  destruct (memberOf s project_ (v_id principal)) as [m|]; [|cbn; eauto].
  destruct (existsb (String.eqb (pm_role m)) roles) eqn:Hin; cbn [negb].
  - split; [reflexivity|]. intros ->. discriminate.
  - cbn. eauto.
Qed.

(** ** A password change followed by a login *)

Lemma NoDup_map_unique {A B : Type} (f : A -> B) (l : list A) a b :
  NoDup (map f l) -> In a l -> In b l -> f a = f b -> a = b.
Proof.
  induction l as [|x l IH]; cbn; [tauto|].
  intros Hnd [->|Ha] [->|Hb] Hf; inversion Hnd as [|? ? Hx Hl]; subst; auto.
  - exfalso. apply Hx. rewrite Hf. now apply in_map.
  - exfalso. apply Hx. rewrite <- Hf. now apply in_map.
Qed.

Lemma find_map_stable_in {A : Type} (p : A -> bool) (f : A -> A) (l : list A) :
  (forall x, In x l -> p (f x) = p x) ->
  find p (map f l) = option_map f (find p l).
Proof.
  induction l as [|a l IH]; cbn; intros Hp; [reflexivity|].
  rewrite (Hp a) by now left. destruct (p a); [reflexivity|].
  apply IH. intros x Hx. apply Hp. now right.
Qed.

(** With unique emails, the lookup by email finds the user who has it. *)
Lemma find_by_email `{Platform} us u e :
  NoDup (map email us) -> In u us -> normalise e = email u ->
  find (fun x => matches (Some e) (email x)) us = Some u.
Proof.
  intros Hnd Hu He.
  destruct (find (fun x => matches (Some e) (email x)) us) as [x|] eqn:Hfind.
  - apply find_some in Hfind as [Hx Hm]. cbn in Hm. apply String.eqb_eq in Hm.
    f_equal. apply (NoDup_map_unique email us); auto. congruence.
  - apply (find_none _ _ Hfind) in Hu. cbn in Hu.
    rewrite He, String.eqb_refl in Hu. discriminate.
Qed.

(** X20.  In a collection with unique identities, after
    [changeCurrentPassword] accepted the old password and stored a new
    one (not literally the stored hash), a login under the user's email
    answers exactly when [bcrypt.compare] accepts the offered password
    against the bcrypt hash of the new password. *)
Theorem login_after_password_change `{Platform} cfg env req s principal u o p h
    env2 req2 e2 p2 :
  uniqueIdentities s ->
  user req = Some principal ->
  find (has_id (v_id principal)) (users s) = Some u ->
  Js.get "oldPassword" (body req) = Some o ->
  Js.get "newPassword" (body req) = Some p ->
  password u = Some h ->
  bcrypt_compare o h = true ->
  p <> h ->
  Js.get "email" (body req2) = Some e2 ->
  e2 <> "" ->
  normalise e2 = email u ->
  Js.get "password" (body req2) = Some p2 ->
  exists resp s',
    changeCurrentPassword env req s = (Ok resp, s')
    /\ ((exists resp2 s2, login cfg env2 req2 s' = (Ok resp2, s2))
        <-> bcrypt_compare p2 (bcrypt_hash p 10 (bcryptSalt env)) = true).
Proof.
  intros (Hids & _ & Hmails) Huser Hu Hold Hnew Hh Hcmp Hne He2 Hne2 Hmail Hp2.
  rewrite (changeCurrentPassword_run env req s principal u o p h Hids Huser Hu Hold Hnew Hh),
    Hcmp.
  do 2 eexists. split; [reflexivity|].
  assert (Hafter : passwordAfter env p u = Some (bcrypt_hash p 10 (bcryptSalt env))).
  { unfold passwordAfter. rewrite Hh. cbn.
    destruct (String.eqb_spec p h); [contradiction|reflexivity]. }
  rewrite Hafter.
  set (u' := set_password (Some (bcrypt_hash p 10 (bcryptSalt env))) u).
  pose proof (find_some _ _ Hu) as [Hin _].
  assert (Hfind : find (fun x => matches (Some e2) (email x))
                       (users (with_users (replaceUser u' (users s)) s)) = Some u').
  { cbn [users with_users]. unfold replaceUser.
    rewrite find_map_stable_in.
    - rewrite (find_by_email _ u e2 Hmails Hin Hmail). cbn [option_map].
      unfold has_id. cbn [u' _id set_password]. now rewrite String.eqb_refl.
    - intros x Hx. destruct (has_id (_id u') x) eqn:Hsame; [|reflexivity].
      apply String.eqb_eq in Hsame.
      now rewrite (NoDup_map_unique _id (users s) x u Hids Hx Hin Hsame). }
  rewrite login_run, He2. destruct (String.eqb_spec e2 ""); [contradiction|].
  rewrite Hfind. unfold isPasswordCorrect. cbn [fields load]. rewrite Hp2.
  cbn [u' password set_password].
  destruct (bcrypt_compare p2 (bcrypt_hash p 10 (bcryptSalt env))).
  - pose proof (find_some _ _ Hfind) as [Hin' _].
    destruct (find_own_id _ _ Hin') as (u1 & -> & _). split; eauto.
  - split; [intros (? & ? & [=])|discriminate].
Qed.

(** ** The properties on concrete runs *)

Ltac concrete_NoDup := repeat constructor; cbn; intuition discriminate.

Lemma sample_reachable :
  reachable (H := Sample.platform) Sample.cfg (snd Sample.afterLogin).
Proof.
  change (snd Sample.afterLogin)
    with (storeAfter (H := Sample.platform) Sample.cfg Sample.envLogin Login
            Sample.reqLogin
            (storeAfter (H := Sample.platform) Sample.cfg Sample.envForgot
               ForgotPasswordRequest Sample.reqForgot
               (storeAfter (H := Sample.platform) Sample.cfg Sample.envRegister
                  RegisterUser Sample.reqRegister Sample.emptyStore))).
  repeat apply reachable_step. apply reachable_empty.
Qed.

Lemma login_succeeds_iff_witness :
  exists resp s',
    login (H := Sample.platform) Sample.cfg Sample.envLogin Sample.reqLogin
      (snd Sample.afterForgot) = (Ok resp, s').
Proof.
  apply (proj2 (login_succeeds_iff (H := Sample.platform) Sample.cfg Sample.envLogin
                  Sample.reqLogin (snd Sample.afterForgot))).
  exists "a@x.com". eexists. exists "pw123". eexists.
  split; [reflexivity|]. split; [discriminate|].
  split; [reflexivity|]. split; [reflexivity|]. split; reflexivity.
Defined.

Lemma login_failure_witness :
  snd (login (H := Sample.platform) Sample.cfg Sample.envLogin Demo.reqLoginWrong
         (snd Sample.afterForgot)) = snd Sample.afterForgot.
Proof.
  symmetry.
  apply (login_failure (H := Sample.platform) Sample.cfg Sample.envLogin
           Demo.reqLoginWrong (snd Sample.afterForgot)
           (ApiError 400 "Invalid credentials" []) (snd Sample.afterForgot) eq_refl).
Defined.



Lemma logoutUser_idempotent_witness :
  exists s',
    logoutUser Demo.reqAlice (snd Sample.afterLogin) = (Ok logoutResponse, s')
    /\ logoutUser Demo.reqAlice s' = (Ok logoutResponse, s').
Proof.
  destruct (logoutUser_idempotent (H := Sample.platform) Demo.reqAlice
              (snd Sample.afterLogin) (Sample.principal Sample.aliceId) eq_refl)
    as (s' & Hrun & _ & _ & _ & Hagain).
  exists s'. auto.
Defined.

Lemma refresh_after_logout_witness :
  exists m,
    refreshAccessToken (H := Sample.platform) Sample.cfg Sample.envRefresh
      Sample.reqRefresh (snd Demo.afterLogout)
    = (Throw (ApiError 401 m []), snd Demo.afterLogout).
Proof.
  apply (refresh_after_logout (H := Sample.platform) Sample.cfg Demo.reqAlice
           (snd Sample.afterLogin) (responseOf Demo.afterLogout)
           (snd Demo.afterLogout) (Sample.principal Sample.aliceId)).
  - reflexivity.
  - reflexivity.
  - intros T c [= <-] Hc. vm_compute in Hc. injection Hc as <-. reflexivity.
Defined.





Lemma registerUser_twice_conflicts_witness :
  registerUser (H := Sample.platform) Demo.envRegisterAgain Demo.reqRegisterAgain
    (snd Sample.afterRegister)
  = (Throw (ApiError 409 "User with email or username already exists" []),
     snd Sample.afterRegister).
Proof.
  apply (registerUser_twice_conflicts (H := Sample.platform) Sample.envRegister
           Sample.reqRegister Sample.emptyStore (responseOf Sample.afterRegister)
           (snd Sample.afterRegister) eq_refl).
  right. reflexivity.
Defined.

(** Alice registered, asked for a reset and logged in; then dave
    registered. *)
Lemma two_users_reachable :
  reachable (H := Sample.platform) Sample.cfg (snd Demo.afterRegisterDave).
Proof.
  change (snd Demo.afterRegisterDave)
    with (storeAfter (H := Sample.platform) Sample.cfg Demo.envRegisterAgain
            RegisterUser Demo.reqRegisterDave (snd Sample.afterLogin)).
  apply reachable_step, sample_reachable.
Qed.

Lemma reachable_unique_identities_witness :
  map username (users (snd Demo.afterRegisterDave)) = ["alice"; "dave"]
  /\ map email (users (snd Demo.afterRegisterDave)) = ["a@x.com"; "d@x.com"]
  /\ uniqueIdentities (snd Demo.afterRegisterDave).
Proof.
  split; [reflexivity|]. split; [reflexivity|].
  exact (reachable_unique_identities (H := Sample.platform) Sample.cfg
           (snd Demo.afterRegisterDave) two_users_reachable).
Defined.

Lemma reachable_never_verified_witness :
  exists e,
    verifyEmail (H := Sample.platform) Sample.envVerify Sample.reqVerify
      (snd Sample.afterLogin) = (Throw e, snd Sample.afterLogin)
    /\ boundaryStatus e = 400.
Proof.
  exact (proj2 (reachable_never_verified (H := Sample.platform) Sample.cfg
                  (snd Sample.afterLogin) sample_reachable)
           Sample.envVerify Sample.reqVerify).
Defined.

Lemma reachable_never_reset_witness :
  exists e,
    resetForgotPassword (H := Sample.platform) Sample.envVerify Sample.reqReset
      (snd Sample.afterLogin) = (Throw e, snd Sample.afterLogin)
    /\ (boundaryStatus e = 489 \/ boundaryStatus e = 500).
Proof.
  exact (proj2 (reachable_never_reset (H := Sample.platform) Sample.cfg
                  (snd Sample.afterLogin) sample_reachable)
           Sample.envVerify Sample.reqReset).
Defined.

Lemma validateProjectPermission_no_roles_witness :
  exists e,
    fst (validateProjectPermission (H := Sample.platform) []
           (Sample.reqProject Sample.carolId) Sample.storeProject) = Throw e.
Proof.
  exact (proj2 (validateProjectPermission_no_roles (H := Sample.platform) []
                  (Sample.reqProject Sample.carolId) Sample.storeProject) eq_refl).
Defined.

Lemma login_after_password_change_witness :
  exists resp s',
    changeCurrentPassword (H := Sample.platform) Sample.envVerify Sample.reqChange
      (snd Sample.afterRegister) = (Ok resp, s')
    /\ exists resp2 s2,
         login (H := Sample.platform) Sample.cfg Sample.envLogin Demo.reqLoginNew s'
         = (Ok resp2, s2).
Proof.
  destruct (login_after_password_change (H := Sample.platform) Sample.cfg
              Sample.envVerify Sample.reqChange (snd Sample.afterRegister)
              (Sample.principal Sample.aliceId)
              (mkUser Sample.aliceId "alice" "a@x.com" None (Some "$pw123$salt1") false
                      None None None None (Some 2200000))
              "pw123" "pw456" "$pw123$salt1"
              Sample.envLogin Demo.reqLoginNew "a@x.com" "pw456")
    as (resp & s' & Hrun & Hiff);
    try reflexivity; try discriminate.
  - repeat split; concrete_NoDup.
  - exists resp, s'. split; [exact Hrun|]. apply Hiff. reflexivity.
Defined.

(** ** Failures that change nothing *)

Lemma bind_run {A B : Type} (m : M A) (k : A -> M B) s :
  bind m k s
  = match m s with
    | (Ok a, s') => k a s'
    | (Throw e, s') => (Throw e, s')
    end.
Proof. reflexivity. Qed.

Section Register_failure.
Context `{Platform}.

Lemma create_throw env em pw un s e s' :
  create env em pw un s = (Throw e, s') ->
  s' = s
  /\ (e = JsError "ValidationError" "User validation failed"
      \/ e = JsError "MongoServerError" "E11000 duplicate key error").
Proof.
  unfold create.
  destruct em as [e0|]; [|intros [= <- <-]; auto].
  destruct pw as [p|]; [|intros [= <- <-]; auto].
  destruct un as [n|]; [|intros [= <- <-]; auto].
  match goal with |- context [negb (validate ?f)] => destruct (validate f) end;
    cbn [negb]; [|intros [= <- <-]; auto].
  unfold bind, lift, preSave, isModified.
  cbn [modifiedPaths existsb String.eqb Ascii.eqb Bool.eqb orb negb fields password ret].
  match goal with
  | |- context [existsb ?q (users s)] => destruct (existsb q (users s))
  end; [intros [= <- <-]; auto|discriminate].
Qed.

(** Once the user is created, the rest of [registerUser] goes through. *)
Lemma registerUser_after_create env req s user s1 :
  create env (Js.get "email" (body req)) (Js.get "password" (body req))
         (Js.get "username" (body req)) s = (Ok user, s1) ->
  find (fun u => matches (Js.get "username" (body req)) (username u)
                 || matches (Js.get "email" (body req)) (email u)) (users s) = None ->
  exists resp s', registerUser env req s = (Ok resp, s').
Proof.
  intros Hcreate Hfind. unfold registerUser. rewrite bind_findOne, Hfind.
  cbn [option_map]. rewrite bind_run, Hcreate.
  apply create_ok in Hcreate as (e & p & n & _ & _ & _ & Hfields & Hpaths & -> & Hfresh).
  destruct user as [u0 paths0]. cbn [fields modifiedPaths] in *. subst paths0.
  destruct (temporaryToken_keys env) as (Hplain & Hhashed & _ & Hexpiry).
  rewrite Hplain, Hhashed, Hexpiry. cbn [asStringField asDateField].
  set (d := assign_emailVerificationExpiry _ (assign_emailVerificationToken None _)).
  assert (Hid : _id (fields d) = newObjectId env).
  { subst d. unfold assign_emailVerificationExpiry, assign_emailVerificationToken.
    rewrite !assign_id by reflexivity. now rewrite Hfields. }
  assert (Hu0 : has_id (newObjectId env) u0 = true)
    by (rewrite Hfields; apply String.eqb_refl).
  destruct (save_unvalidated_runs env d (with_users (users s ++ [u0]) s))
    as (d' & Hsave & Hd').
  - apply issue_unmodified_password.
  - rewrite Hid. cbn [users with_users]. rewrite existsb_app. cbn.
    now rewrite Hu0, orb_true_r.
  - rewrite bind_run, Hsave. rewrite bind_run. cbn [sendEmail].
    unfold findById. rewrite bind_findOne. cbn [users with_users].
    rewrite Hd', Hid, find_updateById, (find_app_fresh _ _ _ Hfresh Hu0).
    cbn [option_map]. unfold ret. eauto.
Qed.

End Register_failure.

(** X21.  A [registerUser] that throws has created no user and sent no
    mail: the store is as it was.  What it throws is the 409 error (the
    username or the email is taken), the validation error of a missing or
    empty field, or the duplicate-key error of the database. *)
Theorem registerUser_failure `{Platform} env req s e s' :
  registerUser env req s = (Throw e, s') ->
  s' = s
  /\ (e = ApiError 409 "User with email or username already exists" []
      \/ e = JsError "ValidationError" "User validation failed"
      \/ e = JsError "MongoServerError" "E11000 duplicate key error").
Proof.
  intros Hrun.
  destruct (find (fun u => matches (Js.get "username" (body req)) (username u)
                           || matches (Js.get "email" (body req)) (email u))
                 (users s)) as [x|] eqn:Hfind.
  - unfold registerUser in Hrun. rewrite bind_findOne, Hfind in Hrun.
    injection Hrun as <- <-. auto.
  - destruct (create env (Js.get "email" (body req)) (Js.get "password" (body req))
                (Js.get "username" (body req)) s) as [[user|e0] s1] eqn:Hcreate.
    + destruct (registerUser_after_create env req s user s1 Hcreate Hfind)
        as (resp & s2 & Hok).
      rewrite Hok in Hrun. discriminate.
    + unfold registerUser in Hrun.
      rewrite bind_findOne, Hfind in Hrun. cbn [option_map] in Hrun.
      rewrite bind_run, Hcreate in Hrun. injection Hrun as <- <-.
      apply create_throw in Hcreate as [-> [->| ->]]; auto.
Qed.

Lemma registerUser_failure_witness :
  snd (registerUser (H := Sample.platform) Demo.envRegisterAgain
         Demo.reqRegisterNoPassword (snd Sample.afterRegister))
  = snd Sample.afterRegister.
Proof.
  symmetry.
  apply (registerUser_failure (H := Sample.platform) Demo.envRegisterAgain
           Demo.reqRegisterNoPassword (snd Sample.afterRegister)
           (JsError "ValidationError" "User validation failed")
           (snd Sample.afterRegister) eq_refl).
Defined.

(** X22.  A reset request without [newPassword] does not consume the
    token: when a record with a password holds the hash of the plain token
    with an expiry in the future, the pre-save hook throws on the unset
    password, nothing is written, and the record still holds the hash. *)
Theorem resetForgotPassword_without_password `{Platform} env req s token u e h :
  Js.get "resetToken" (params req) = Some token ->
  Js.get "newPassword" (body req) = None ->
  In u (users s) ->
  forgotPasswordToken u = Some (sha256_hex token) ->
  forgotPasswordExpiry u = Some e ->
  now env < e ->
  (forall v, In v (users s) ->
     forgotPasswordToken v = Some (sha256_hex token) -> v = u) ->
  password u = Some h ->
  resetForgotPassword env req s
  = (Throw (JsError "Error" "data and salt arguments required"), s).
Proof.
  intros Hparam Hnew Hin Htok Hexp Hlt Huniq Hh.
  pose proof (find_holder env forgotPasswordToken forgotPasswordExpiry
                _ u e (users s) Hin Htok Hexp Hlt Huniq) as Hfind.
  unfold resetForgotPassword. rewrite Hparam, Hnew, bind_findOne, Hfind.
  cbn [option_map]. rewrite bind_run.
  set (d0 := assign_forgotPasswordToken None
               (assign_forgotPasswordExpiry None (load u))).
  assert (Hd0 : password (fields d0) = Some h).
  { subst d0. now rewrite fields_assign_forgotPasswordToken,
      fields_assign_forgotPasswordExpiry. }
  unfold save, assign_password, assign. rewrite Hd0. cbn [option_eqb andb].
  rewrite bind_run. unfold preSave, isModified. cbn. reflexivity.
Qed.

Lemma resetForgotPassword_without_password_witness :
  resetForgotPassword (H := Sample.platform) Sample.envVerify Demo.reqResetNoPassword
    Demo.storeResetting
  = (Throw (JsError "Error" "data and salt arguments required"), Demo.storeResetting).
Proof.
  apply (resetForgotPassword_without_password (H := Sample.platform) Sample.envVerify
           Demo.reqResetNoPassword Demo.storeResetting Sample.plainToken Demo.carl
           2200000 "$old$salt0"); try reflexivity.
  - now left.
  - intros v [<-|[]] _. reflexivity.
Defined.

(** X23.  The cookie decides alone: when the [accessToken] cookie is not
    empty and [jwt.verify] rejects it, [verifyJWT] throws 401 whatever
    the [Authorization] header carries, a valid token included. *)
Theorem verifyJWT_stale_cookie `{Platform} cfg env req s token x :
  Js.get "accessToken" (cookies req) = Some token ->
  token <> "" ->
  jwt_verify (now env) token (ACCESS_TOKEN_SECRET cfg) = Throw x ->
  verifyJWT cfg env req s = (Throw (ApiError 401 "Invalid access token" []), s).
Proof.
  intros Hcookie Hne Hverify. rewrite verifyJWT_run.
  unfold bearerToken, Js.or, Js.truthy. rewrite Hcookie.
  destruct (String.eqb_spec token ""); [contradiction|]. cbn [negb].
  destruct (String.eqb_spec token ""); [contradiction|]. now rewrite Hverify.
Qed.

Lemma verifyJWT_stale_cookie_witness :
  verifyJWT (H := Sample.platform) Sample.cfg Sample.envVerify Demo.reqStaleCookie
    Sample.storeHolding
  = (Throw (ApiError 401 "Invalid access token" []), Sample.storeHolding)
  /\ bearerToken (mkRequest [] [] [] (authorization Demo.reqStaleCookie) "https" None None)
     = Some Sample.bobAccessToken.
Proof.
  split; [|reflexivity].
  apply (verifyJWT_stale_cookie (H := Sample.platform) Sample.cfg Sample.envVerify
           Demo.reqStaleCookie Sample.storeHolding "garbage"
           (JsError "JsonWebTokenError" "invalid token"));
    [reflexivity|discriminate|reflexivity].
Defined.
